(** * AI Recipe Architect: a shallow embedding of [Recipe_Architect.py]

    The development follows the source file section by section:
    Python text primitives ([str.replace], [str.strip], the two [re.sub]
    calls), the [json] module ([json.loads], [json.dumps]), the three tools
    ([create_recipe], [get_nutritional_info], [generate_recipe_image]), the
    PDF renderer ([create_recipe_pdf]) and the Streamlit pipeline block that
    writes [st.session_state]. *)

From Stdlib Require Import List String Ascii NArith ZArith Bool Lia.
Import ListNotations.

Set Implicit Arguments.
Set Warnings "-register-all".

(* ====================================================================== *)
(** ** Python text *)
(* ====================================================================== *)

Module PyStr.

(** A Python [str] is a sequence of Unicode code points. *)
Definition pychar := N.
Definition pystr := list pychar.

(** Source literals are ASCII; [lit] reads one as a [pystr]. *)
Definition lit (s : string) : pystr :=
  List.map N_of_ascii (list_ascii_of_string s).

(** The same with ['] standing for the double quote, for JSON texts. *)
Definition qlit (s : string) : pystr :=
  List.map (fun c => if N.eqb c 39 then 34%N else c) (lit s).

Fixpoint str_eqb (a b : pystr) : bool :=
  match a, b with
  | [], [] => true
  | x :: a', y :: b' => N.eqb x y && str_eqb a' b'
  | _, _ => false
  end.

Definition in_range (lo hi c : N) : bool := N.leb lo c && N.leb c hi.

(** [str.isspace] on one code point (CPython's [_PyUnicode_IsWhitespace]);
    the same set is what [\s] matches in a [str] pattern. *)
Definition isspace (c : pychar) : bool :=
  in_range 9 13 c || in_range 28 32 c || N.eqb c 133 || N.eqb c 160
  || N.eqb c 5760 || in_range 8192 8202 c || N.eqb c 8232 || N.eqb c 8233
  || N.eqb c 8239 || N.eqb c 8287 || N.eqb c 12288.

(** The explicit classes of the two patterns: [[0-9]] and [[a-zA-Z0-9]]. *)
Definition is_digit (c : pychar) : bool := in_range 48 57 c.
Definition is_alnum (c : pychar) : bool :=
  in_range 97 122 c || in_range 65 90 c || in_range 48 57 c.

(** [[.)\s]] *)
Definition is_sep (c : pychar) : bool :=
  N.eqb c 46 || N.eqb c 41 || isspace c.

Fixpoint drop_while (p : pychar -> bool) (s : pystr) : pystr :=
  match s with
  | [] => []
  | c :: r => if p c then drop_while p r else s
  end.

Definition lstrip (s : pystr) : pystr := drop_while isspace s.

Fixpoint rstrip (s : pystr) : pystr :=
  match s with
  | [] => []
  | c :: r =>
      match rstrip r with
      | [] => if isspace c then [] else [c]
      | r' => c :: r'
      end
  end.

(** [s.strip()] *)
Definition strip (s : pystr) : pystr := rstrip (lstrip s).

Fixpoint starts_with (p s : pystr) : bool :=
  match p, s with
  | [], _ => true
  | x :: p', y :: s' => N.eqb x y && starts_with p' s'
  | _ :: _, [] => false
  end.

(** [old in s] *)
Fixpoint occurs (old s : pystr) : bool :=
  starts_with old s ||
  match s with
  | [] => false
  | _ :: r => occurs old r
  end.

(** [s.replace(old, new)] for a non-empty [old]: occurrences are found from
    the left and do not overlap.  [skip] counts the characters of the
    occurrence found last that are still to be passed over. *)
Fixpoint replace_from (old new : pystr) (skip : nat) (s : pystr) : pystr :=
  match s with
  | [] => []
  | c :: r =>
      match skip with
      | S k => replace_from old new k r
      | O =>
          if starts_with old s
          then new ++ replace_from old new (List.length old - 1) r
          else c :: replace_from old new 0 r
      end
  end.

Definition replace (old new s : pystr) : pystr := replace_from old new 0 s.

End PyStr.
Import PyStr.

(* ====================================================================== *)
(** ** The two regular-expression substitutions *)
(* ====================================================================== *)

Module Regex.

(** The span matched at position 0 by [^[0-9]+[.)\s]+]: the two classes are
    disjoint, so the greedy match is the longest run of digits followed by
    the longest run of separators, and no shorter run of digits can be
    followed by a separator.  [None] when the pattern does not match;
    otherwise what is left after the match. *)
Definition match_number_prefix (s : pystr) : option pystr :=
  match s with
  | [] => None
  | c :: _ =>
      if is_digit c then
        match drop_while is_digit s with
        | [] => None
        | d :: _ as after_digits =>
            if is_sep d then Some (drop_while is_sep after_digits) else None
        end
      else None
  end.

(** [re.sub] of that pattern by the empty text: without [re.MULTILINE] the
    anchor holds at position 0 only, so at most one match is replaced. *)
Definition sub_number_prefix (step : pystr) : pystr :=
  match match_number_prefix step with
  | Some rest => rest
  | None => step
  end.

(** [clean_step]: the substitution followed by [.strip()]
    (lines 191 and 263). *)
Definition clean_step (step : pystr) : pystr := strip (sub_number_prefix step).

Definition underscore : pychar := 95%N.

(** [re.sub(r'[^a-zA-Z0-9]', '_', title)]: every single character outside
    the class is one match. *)
Definition sub_non_alnum (title : pystr) : pystr :=
  List.map (fun c => if is_alnum c then c else underscore) title.

(** [file_name]: the substituted title followed by [.pdf] (line 276). *)
Definition download_file_name (title : pystr) : pystr :=
  sub_non_alnum title ++ lit ".pdf".

End Regex.
Import Regex.

(* ====================================================================== *)
(** ** Code-fence stripping *)
(* ====================================================================== *)

Definition fence : pystr := lit "```".
Definition fence_json : pystr := lit "```json".

(** [response.content.replace('```json', '').replace('```', '').strip()]
    (lines 55 and 87). *)
Definition strip_fences (content : pystr) : pystr :=
  strip (replace fence [] (replace fence_json [] content)).


(* ====================================================================== *)
(** ** Exceptions *)
(* ====================================================================== *)

Inductive exn : Type :=
| DecodeError             (* what [json.loads] raises, see [json_decode] *)
| KeyError (key : pystr)
| IndexError
| TypeError
| AttributeError
| ValidationError
| HTTPError (status : Z)
| RequestException        (* timeout, connection error, ... *)
| ServiceError            (* raised by [llm.invoke] *)
| OSError
| FPDFError.

Inductive result (A : Type) : Type :=
| Ok (a : A)
| Raise (e : exn).
Arguments Ok {A} a.
Arguments Raise {A} e.

Definition bind {A B : Type} (r : result A) (k : A -> result B) : result B :=
  match r with
  | Ok a => k a
  | Raise e => Raise e
  end.

Declare Scope result_scope.
Delimit Scope result_scope with result.
Notation "x <- r ;; k" := (bind r (fun x => k))
  (at level 61, r at next level, right associativity) : result_scope.

(* ====================================================================== *)
(** ** The [json] module *)
(* ====================================================================== *)

Module Json.

(** A Python [float] as [json.loads] meets it: the decimal
    [mantissa * 10 ^ exp10] of the text (which Python then rounds to
    binary64), or one of the three names the decoder accepts. *)
Inductive pyfloat : Type :=
| FNan
| FInf (negative : bool)
| FDec (negative : bool) (mantissa : N) (exp10 : Z).

(** What [json.loads] returns.  A [dict] keeps its keys in insertion order
    and holds every key once. *)
Inductive json : Type :=
| JNull
| JBool (b : bool)
| JInt (n : Z)
| JFloat (f : pyfloat)
| JStr (s : pystr)
| JArr (items : list json)
| JObj (members : list (pystr * json)).

(** [d[k] = v] on a dict. *)
Fixpoint dict_set (k : pystr) (v : json) (d : list (pystr * json))
  : list (pystr * json) :=
  match d with
  | [] => [(k, v)]
  | (k', v') :: d' =>
      if str_eqb k k' then (k', v) :: d' else (k', v') :: dict_set k v d'
  end.

Fixpoint dict_get (k : pystr) (d : list (pystr * json)) : option json :=
  match d with
  | [] => None
  | (k', v') :: d' => if str_eqb k k' then Some v' else dict_get k d'
  end.

(** [dict(pairs)] *)
Definition dict_of_pairs (pairs : list (pystr * json)) : list (pystr * json) :=
  fold_left (fun d kv => dict_set (fst kv) (snd kv) d) pairs [].

(** *** Decoder *)

Definition QUOTE : pychar := 34%N.
Definition BACKSLASH : pychar := 92%N.

(** [WHITESPACE = re.compile(r'[ \t\n\r]*')] *)
Definition is_json_ws (c : pychar) : bool :=
  N.eqb c 32 || N.eqb c 9 || N.eqb c 10 || N.eqb c 13.

Definition skip_ws (s : pystr) : pystr := drop_while is_json_ws s.

Definition hex_value (c : pychar) : option N :=
  if in_range 48 57 c then Some (c - 48)%N
  else if in_range 97 102 c then Some (c - 87)%N
  else if in_range 65 70 c then Some (c - 55)%N
  else None.

(** [_decode_uXXXX]: exactly four hexadecimal digits. *)
Definition decode_uXXXX (a b c d : pychar) : option N :=
  match hex_value a, hex_value b, hex_value c, hex_value d with
  | Some x, Some y, Some z, Some w => Some (((x * 16 + y) * 16 + z) * 16 + w)%N
  | _, _, _, _ => None
  end.

(** The [BACKSLASH] table of the decoder. *)
Definition unescape (e : pychar) : option pychar :=
  if N.eqb e 34 then Some 34%N          (* quote *)
  else if N.eqb e 92 then Some 92%N     (* backslash *)
  else if N.eqb e 47 then Some 47%N     (* slash *)
  else if N.eqb e 98 then Some 8%N      (* b *)
  else if N.eqb e 102 then Some 12%N    (* f *)
  else if N.eqb e 110 then Some 10%N    (* n *)
  else if N.eqb e 114 then Some 13%N    (* r *)
  else if N.eqb e 116 then Some 9%N     (* t *)
  else None.

Definition cons_fst {A B : Type} (a : A) (r : option (list A * B))
  : option (list A * B) :=
  match r with
  | Some (l, b) => Some (a :: l, b)
  | None => None
  end.

(** [scanstring] in strict mode, entered after the opening quote: the
    decoded text and what follows the closing quote. *)
Fixpoint scanstring (s : pystr) : option (pystr * pystr) :=
  match s with
  | [] => None                                   (* unterminated *)
  | c :: r =>
      if N.eqb c QUOTE then Some ([], r)
      else if N.eqb c BACKSLASH then
        match r with
        | [] => None
        | e :: r2 =>
            if N.eqb e 117 (* u *) then
              match r2 with
              | h1 :: h2 :: h3 :: h4 :: r3 =>
                  match decode_uXXXX h1 h2 h3 h4 with
                  | None => None
                  | Some uni =>
                      let single := cons_fst uni (scanstring r3) in
                      if in_range 55296 56319 uni then
                        match r3 with
                        | b :: u :: l1 :: l2 :: l3 :: l4 :: r4 =>
                            if N.eqb b BACKSLASH && N.eqb u 117 then
                              match decode_uXXXX l1 l2 l3 l4 with
                              | None => None
                              | Some uni2 =>
                                  if in_range 56320 57343 uni2
                                  then cons_fst
                                         (65536 + ((uni - 55296) * 1024
                                                   + (uni2 - 56320)))%N
                                         (scanstring r4)
                                  else single
                              end
                            else single
                        | _ => single
                        end
                      else single
                  end
              | _ => None
              end
            else
              match unescape e with
              | Some ch => cons_fst ch (scanstring r2)
              | None => None                      (* invalid escape *)
              end
        end
      else if N.ltb c 32 then None                (* control character *)
      else cons_fst c (scanstring r)
  end.

Fixpoint take_while (p : pychar -> bool) (s : pystr) : pystr :=
  match s with
  | [] => []
  | c :: r => if p c then c :: take_while p r else []
  end.

Definition digits_value (ds : pystr) : N :=
  fold_left (fun acc d => (acc * 10 + (d - 48))%N) ds 0%N.

(** [NUMBER_RE] has three groups: the integer part (an optional minus
    sign, then 0 or a non-zero digit and more digits), optionally a
    fraction (a dot and one or more digits), optionally an exponent (e or
    E, an optional sign and one or more digits).  Each scanner returns what
    it read and the rest of the text. *)
Definition scan_sign (s : pystr) : bool * pystr :=
  match s with
  | c :: r => if N.eqb c 45 then (true, r) else (false, s)
  | [] => (false, s)
  end.

Definition scan_int_digits (s : pystr) : option (pystr * pystr) :=
  match s with
  | d :: r =>
      if N.eqb d 48 then Some ([d], r)
      else if is_digit d
           then Some (d :: take_while is_digit r, drop_while is_digit r)
           else None
  | [] => None
  end.

Definition scan_frac (s : pystr) : option pystr * pystr :=
  match s with
  | dot :: f :: r =>
      if N.eqb dot 46 && is_digit f
      then (Some (f :: take_while is_digit r), drop_while is_digit r)
      else (None, s)
  | _ => (None, s)
  end.

Definition scan_exp_digits (negative : bool) (s : pystr) : option (Z * pystr) :=
  match s with
  | d :: r =>
      if is_digit d
      then Some (let v := Z.of_N (digits_value (d :: take_while is_digit r)) in
                 if negative then (- v)%Z else v,
                 drop_while is_digit r)
      else None
  | [] => None
  end.

Definition scan_exp (s : pystr) : option Z * pystr :=
  match s with
  | e :: t =>
      if N.eqb e 101 || N.eqb e 69 then
        let signed :=
          match t with
          | sg :: t' =>
              if N.eqb sg 45 then scan_exp_digits true t'
              else if N.eqb sg 43 then scan_exp_digits false t'
              else scan_exp_digits false t
          | [] => None
          end in
        match signed with
        | Some (v, rest) => (Some v, rest)
        | None => (None, s)
        end
      else (None, s)
  | [] => (None, s)
  end.

(** *** The interpreter's limits *)

(** [sys.get_int_max_str_digits()], at the default the program leaves it
    at: converting a text of more decimal digits to an [int] raises
    [ValueError]. *)
Definition int_max_str_digits : nat := 4300.

(** What the interpreter leaves to a decoder.  The scanner of [json.loads]
    makes one recursive call for every container it enters, and one, inside
    the containers it is in, for each of the constants [NaN], [Infinity]
    and [-Infinity]; it raises [RecursionError] when the calls left under
    the recursion limit are used up.  How many are left depends on how
    deep in the stack the decoder is called, which the source does not
    fix.  [frames_to_spare] is what the tools have at lines 56 and 88
    beyond the two levels of the program's own records,
    [frames_in_response] what [response.json()] has at line 111.  The
    pipeline decodes (lines 223 and 230) and encodes (line 229) what a tool
    has just accepted or a sentinel, from higher in the stack than the tool
    was, so the tools' bound is also right for it. *)
Class interpreter : Type := {
  frames_to_spare : nat;
  frames_in_response : nat
}.

(** The containers a tool's decoder can be inside of at once. *)
Definition frames_left {py : interpreter} : nat := S (S frames_to_spare).

(** An interpreter for the runs that are computed: the frames CPython's
    default limit of 1000 leaves to a decoder some way down the stack. *)
#[global] Instance cpython : interpreter :=
  {| frames_to_spare := 898; frames_in_response := 900 |}.

(** A match of [NUMBER_RE]: an [int] without fraction and exponent, a
    [float] otherwise; the conversion of the integer text is subject to
    the digit limit.  [None] when the pattern does not match. *)
Definition match_number (s : pystr) : option (result json * pystr) :=
  let '(neg, s1) := scan_sign s in
  match scan_int_digits s1 with
  | None => None
  | Some (int_digits, s2) =>
      let '(frac, s3) := scan_frac s2 in
      let '(ex, s4) := scan_exp s3 in
      match frac, ex with
      | None, None =>
          if Nat.ltb int_max_str_digits (List.length int_digits)
          then Some (Raise DecodeError, s4)
          else
            let n := Z.of_N (digits_value int_digits) in
            Some (Ok (JInt (if neg then (- n)%Z else n)), s4)
      | _, _ =>
          let fd := match frac with Some f => f | None => [] end in
          let e10 := match ex with Some e => e | None => 0%Z end in
          Some (Ok (JFloat (FDec neg (digits_value (int_digits ++ fd))
                                 (e10 - Z.of_nat (List.length fd))%Z)), s4)
      end
  end.

Definition strip_prefix (p s : pystr) : option pystr :=
  if starts_with p s then Some (skipn (List.length p) s) else None.

(** [parse_constant], which the scanner calls for the three names that are
    not JSON: it takes one of the [frames] left. *)
Definition parse_constant (frames : nat) (f : pyfloat) (rest : pystr)
  : result (json * pystr) :=
  match frames with
  | O => Raise DecodeError
  | S _ => Ok (JFloat f, rest)
  end.

(** The constants of [scan_once], tried after strings, containers and
    numbers, in the decoder's order. *)
Definition scan_constant (frames : nat) (s : pystr) : result (json * pystr) :=
  match strip_prefix (lit "null") s with
  | Some r => Ok (JNull, r)
  | None =>
  match strip_prefix (lit "true") s with
  | Some r => Ok (JBool true, r)
  | None =>
  match strip_prefix (lit "false") s with
  | Some r => Ok (JBool false, r)
  | None =>
  match match_number s with
  | Some (Ok v, r) => Ok (v, r)
  | Some (Raise e, _) => Raise e
  | None =>
  match strip_prefix (lit "NaN") s with
  | Some r => parse_constant frames FNan r
  | None =>
  match strip_prefix (lit "Infinity") s with
  | Some r => parse_constant frames (FInf false) r
  | None =>
  match strip_prefix (lit "-Infinity") s with
  | Some r => parse_constant frames (FInf true) r
  | None => Raise DecodeError
  end end end end end end end.

(** The three scanners call one another; each is written over the ones it
    calls. *)
Definition once_t : Type := pystr -> result (json * pystr).
Definition array_t : Type := pystr -> result (list json * pystr).
Definition object_t : Type := pystr -> result (list (pystr * json) * pystr).

(** [scan_once]: strings, objects and arrays first, then the constants. *)
Definition scan_once_step (frames : nat) (array : array_t) (object : object_t)
  : once_t :=
  fun s =>
    match s with
    | [] => Raise DecodeError
    | c :: r =>
        if N.eqb c QUOTE then
          match scanstring r with
          | Some (str, r') => Ok (JStr str, r')
          | None => Raise DecodeError
          end
        else if N.eqb c 123 (* { *) then
          match skip_ws r with
          | c1 :: r1 =>
              if N.eqb c1 125 (* } *) then Ok (JObj [], r1)
              else if N.eqb c1 QUOTE then
                match object r1 with
                | Ok (pairs, r') => Ok (JObj (dict_of_pairs pairs), r')
                | Raise e => Raise e
                end
              else Raise DecodeError
          | [] => Raise DecodeError
          end
        else if N.eqb c 91 (* [ *) then
          match skip_ws r with
          | c1 :: r1 =>
              if N.eqb c1 93 (* ] *) then Ok (JArr [], r1)
              else
                match array (c1 :: r1) with
                | Ok (items, r') => Ok (JArr items, r')
                | Raise e => Raise e
                end
          | [] => Raise DecodeError
          end
        else scan_constant frames s
    end.

(** [JSONArray]: the values of an array, entered at the first character of
    a value. *)
Definition JSONArray_step (once : once_t) (array : array_t) : array_t :=
  fun s =>
    match once s with
    | Raise e => Raise e
    | Ok (v, r) =>
        match skip_ws r with
        | c :: r' =>
            if N.eqb c 93 (* ] *) then Ok ([v], r')
            else if N.eqb c 44 (* , *) then
              match array (skip_ws r') with
              | Ok (vs, r'') => Ok (v :: vs, r'')
              | Raise e => Raise e
              end
            else Raise DecodeError
        | [] => Raise DecodeError
        end
    end.

(** [JSONObject]: the pairs of an object, entered after the opening quote
    of a key. *)
Definition JSONObject_step (once : once_t) (object : object_t) : object_t :=
  fun s =>
    match scanstring s with
    | None => Raise DecodeError
    | Some (key, r) =>
        match skip_ws r with
        | colon :: r1 =>
            if N.eqb colon 58 (* : *) then
              match once (skip_ws r1) with
              | Raise e => Raise e
              | Ok (v, r2) =>
                  match skip_ws r2 with
                  | c :: r3 =>
                      if N.eqb c 125 (* } *) then Ok ([(key, v)], r3)
                      else if N.eqb c 44 (* , *) then
                        match skip_ws r3 with
                        | q :: r4 =>
                            if N.eqb q QUOTE then
                              match object r4 with
                              | Ok (ps, r5) => Ok ((key, v) :: ps, r5)
                              | Raise e => Raise e
                              end
                            else Raise DecodeError
                        | [] => Raise DecodeError
                        end
                      else Raise DecodeError
                  | [] => Raise DecodeError
                  end
              end
            else Raise DecodeError
        | [] => Raise DecodeError
        end
    end.

(** The recursive call the scanner makes when a value opens a container:
    [None] when no call is left, else the calls left inside the
    container.  Any other value costs nothing. *)
Definition enter (frames : nat) (s : pystr) : option nat :=
  match s with
  | c :: _ =>
      if N.eqb c 123 || N.eqb c 91
      then match frames with
           | O => None
           | S inside => Some inside
           end
      else Some frames
  | [] => Some frames
  end.

(** The recursion, on a fuel that bounds the depth of the calls.  A call
    of [scan_once] consumes a character before it calls a container
    scanner, and a container scanner consumes a value before it calls
    itself, so twice the length of the text is never exhausted (lemma
    [scan_once_fuel]).  [frames] is the number of containers that can
    still be entered. *)
Fixpoint scan_once (fuel frames : nat) (s : pystr) {struct fuel}
  : result (json * pystr) :=
  match fuel with
  | O => Raise DecodeError
  | S fuel' =>
      match enter frames s with
      | None => Raise DecodeError
      | Some inside =>
          scan_once_step inside (JSONArray fuel' inside) (JSONObject fuel' inside) s
      end
  end

with JSONArray (fuel frames : nat) (s : pystr) {struct fuel}
  : result (list json * pystr) :=
  match fuel with
  | O => Raise DecodeError
  | S fuel' => JSONArray_step (scan_once fuel' frames) (JSONArray fuel' frames) s
  end

with JSONObject (fuel frames : nat) (s : pystr) {struct fuel}
  : result (list (pystr * json) * pystr) :=
  match fuel with
  | O => Raise DecodeError
  | S fuel' => JSONObject_step (scan_once fuel' frames) (JSONObject fuel' frames) s
  end.

(** [json.loads(s)] for a [str], by a decoder that has [frames] calls
    left: the value, or [DecodeError] for whatever [json.loads] raises (a
    [JSONDecodeError] for a text that is not JSON, a leading BOM and
    trailing data included; the [ValueError] of the digit limit; a
    [RecursionError] when the calls run out, also while an error is being
    built). *)
Definition json_decode (frames : nat) (s : pystr) : result json :=
  match s with
  | 65279%N :: _ => Raise DecodeError
  | _ =>
      match scan_once (2 * List.length s + 2) frames (skip_ws s) with
      | Ok (v, r) =>
          match skip_ws r with
          | [] => Ok v
          | _ :: _ => Raise DecodeError
          end
      | Raise e => Raise e
      end
  end.

(** What [json.loads] returns in a tool, [None] when it raises. *)
Definition json_loads {py : interpreter} (s : pystr) : option json :=
  match json_decode frames_left s with
  | Ok v => Some v
  | Raise _ => None
  end.

(** *** Encoder *)

Fixpoint uint_digits (d : Decimal.uint) : pystr :=
  match d with
  | Decimal.Nil => []
  | Decimal.D0 r => 48%N :: uint_digits r
  | Decimal.D1 r => 49%N :: uint_digits r
  | Decimal.D2 r => 50%N :: uint_digits r
  | Decimal.D3 r => 51%N :: uint_digits r
  | Decimal.D4 r => 52%N :: uint_digits r
  | Decimal.D5 r => 53%N :: uint_digits r
  | Decimal.D6 r => 54%N :: uint_digits r
  | Decimal.D7 r => 55%N :: uint_digits r
  | Decimal.D8 r => 56%N :: uint_digits r
  | Decimal.D9 r => 57%N :: uint_digits r
  end.

(** [int.__repr__] *)
Definition int_repr (n : Z) : pystr :=
  match n with
  | Z0 => [48%N]
  | Zpos p => uint_digits (Pos.to_uint p)
  | Zneg p => 45%N :: uint_digits (Pos.to_uint p)
  end.

Definition hex_digit (n : N) : pychar :=
  if N.ltb n 10 then (48 + n)%N else (87 + n)%N.

(** The four lower-case hexadecimal digits of a [\uXXXX] escape. *)
Definition escape_u (n : N) : pystr :=
  [BACKSLASH; 117%N;
   hex_digit (N.modulo (N.div n 4096) 16); hex_digit (N.modulo (N.div n 256) 16);
   hex_digit (N.modulo (N.div n 16) 16); hex_digit (N.modulo n 16)].

(** [ESCAPE_ASCII] and [ESCAPE_DCT] ([ensure_ascii=True], the default):
    the quote, the backslash and everything outside the printable ASCII
    range are escaped. *)
Definition escape_char (c : pychar) : pystr :=
  if N.eqb c 34 then [BACKSLASH; 34%N]
  else if N.eqb c 92 then [BACKSLASH; 92%N]
  else if N.eqb c 10 then [BACKSLASH; 110%N]
  else if N.eqb c 13 then [BACKSLASH; 114%N]
  else if N.eqb c 9 then [BACKSLASH; 116%N]
  else if N.eqb c 8 then [BACKSLASH; 98%N]
  else if N.eqb c 12 then [BACKSLASH; 102%N]
  else if in_range 32 126 c then [c]
  else if N.ltb c 65536 then escape_u c
  else
    let n := (c - 65536)%N in
    escape_u (55296 + N.modulo (N.div n 1024) 1024)
    ++ escape_u (56320 + N.modulo n 1024).

Definition encode_str (s : pystr) : pystr :=
  QUOTE :: flat_map escape_char s ++ [QUOTE].

(** [', '.join(parts)] *)
Fixpoint join_comma (parts : list pystr) : pystr :=
  match parts with
  | [] => []
  | [p] => p
  | p :: rest => p ++ [44%N; 32%N] ++ join_comma rest
  end.

Section Dumps.

(** [float.__repr__] of a finite decimal, after its rounding to binary64:
    the one primitive of the encoder that is taken as given. *)
Variable float_repr : pyfloat -> pystr.

Definition encode_float (f : pyfloat) : pystr :=
  match f with
  | FNan => lit "NaN"
  | FInf false => lit "Infinity"
  | FInf true => lit "-Infinity"
  | FDec _ _ _ => float_repr f
  end.

(** [json.dumps(obj)] with the default separators [', '] and [': ']. *)
Fixpoint json_dumps (v : json) : pystr :=
  match v with
  | JNull => lit "null"
  | JBool true => lit "true"
  | JBool false => lit "false"
  | JInt n => int_repr n
  | JFloat f => encode_float f
  | JStr s => encode_str s
  | JArr items => 91%N :: join_comma (List.map json_dumps items) ++ [93%N]
  | JObj members =>
      123%N ::
      join_comma
        (List.map (fun kv => encode_str (fst kv) ++ [58%N; 32%N] ++ json_dumps (snd kv))
                  members)
      ++ [125%N]
  end.

End Dumps.

(** *** Dynamic operations on decoded values *)

(** [bool(v)].  A finite float is false exactly when it rounds to zero:
    when its mantissa is 0 or its magnitude is at most [2 ^ -1075]. *)
Definition float_truthy (f : pyfloat) : bool :=
  match f with
  | FNan => true
  | FInf _ => true
  | FDec _ m e =>
      if N.eqb m 0 then false
      else if Z.leb 0 e then true
      else Z.ltb (10 ^ (- e)) (Z.of_N m * 2 ^ 1075)
  end.

Definition truthy (v : json) : bool :=
  match v with
  | JNull => false
  | JBool b => b
  | JInt n => negb (Z.eqb n 0)
  | JFloat f => float_truthy f
  | JStr s => match s with [] => false | _ => true end
  | JArr l => match l with [] => false | _ => true end
  | JObj m => match m with [] => false | _ => true end
  end.

End Json.
Import Json.


(** [json.loads] as the tools and the pipeline call it. *)
Definition loads {py : interpreter} (s : pystr) : result json :=
  json_decode frames_left s.

(** [v[k]] for a [str] key. *)
Definition getitem (v : json) (k : pystr) : result json :=
  match v with
  | JObj members =>
      match dict_get k members with
      | Some x => Ok x
      | None => Raise (KeyError k)
      end
  | _ => Raise TypeError
  end.

(** [v[0]] *)
Definition getitem0 (v : json) : result json :=
  match v with
  | JArr (x :: _) => Ok x
  | JArr [] => Raise IndexError
  | JStr (c :: _) => Ok (JStr [c])
  | JStr [] => Raise IndexError
  | JObj _ => Raise (KeyError (lit "0"))
  | _ => Raise TypeError
  end.

(** Messages of [st.error] and [st.warning]; a message that ends in the
    text of an exception is kept as its fixed part and the exception. *)
Inductive notice : Type :=
| StError (message : pystr) (e : exn)
| StWarning (message : pystr).

(* ====================================================================== *)
(** ** Section 2 of the source: the tools *)
(* ====================================================================== *)

Definition nl : pystr := [10%N].

(** The f-string of [create_recipe] (lines 42-52). *)
Definition recipe_prompt (ingredients dietary_needs : pystr) : pystr :=
  nl ++ lit "    You are a creative chef. Create a unique and delicious recipe using the following ingredients: "
     ++ ingredients ++ lit "." ++ nl
  ++ lit "    The recipe must adhere to these dietary restrictions: "
     ++ dietary_needs ++ lit "." ++ nl
  ++ lit "    " ++ nl
  ++ lit "    Respond as a JSON object with:" ++ nl
  ++ qlit "    - 'title'" ++ nl
  ++ qlit "    - 'description'" ++ nl
  ++ qlit "    - 'ingredients' (array of strings)" ++ nl
  ++ qlit "    - 'instructions' (array of strings)" ++ nl
  ++ qlit "    - 'image_keywords'" ++ nl
  ++ lit "    ".

(** The f-string of [get_nutritional_info] (lines 74-84). *)
Definition nutrition_prompt (recipe_text : pystr) : pystr :=
  nl ++ lit "    Estimate the nutritional breakdown per serving for this recipe:" ++ nl
  ++ lit "    " ++ recipe_text ++ nl
  ++ lit "    " ++ nl
  ++ lit "    Respond as JSON:" ++ nl
  ++ qlit "    - 'calories'" ++ nl
  ++ qlit "    - 'protein_grams'" ++ nl
  ++ qlit "    - 'fat_grams'" ++ nl
  ++ qlit "    - 'carbs_grams'" ++ nl
  ++ qlit "    - 'summary'" ++ nl
  ++ lit "    ".

(** The dictionary of lines 60-66. *)
Definition sentinel_recipe : json :=
  JObj [ (lit "title", JStr (lit "Failed to generate recipe"));
         (lit "description", JStr (lit "Please try again."));
         (lit "ingredients", JArr []);
         (lit "instructions", JArr []);
         (lit "image_keywords", JStr []) ].

(** The dictionary of lines 92-95. *)
Definition sentinel_nutrition : json :=
  JObj [ (lit "calories", JInt 0);
         (lit "protein_grams", JInt 0);
         (lit "fat_grams", JInt 0);
         (lit "carbs_grams", JInt 0);
         (lit "summary", JStr (lit "Nutritional info unavailable.")) ].

(** The keys of a RecipeRecord and of a NutritionRecord. *)
Definition recipe_fields : list pystr :=
  [lit "title"; lit "description"; lit "ingredients"; lit "instructions";
   lit "image_keywords"].

Definition nutrition_fields : list pystr :=
  [lit "calories"; lit "protein_grams"; lit "fat_grams"; lit "carbs_grams";
   lit "summary"].

(** A dictionary that has all of [fields]. *)
Definition has_fields (fields : list pystr) (v : json) : bool :=
  match v with
  | JObj members =>
      forallb (fun k => match dict_get k members with
                        | Some _ => true
                        | None => false
                        end) fields
  | _ => false
  end.

(** [json.dumps] of a dictionary display of the source.  Neither display
    holds a float, so the float formatter is never consulted
    (lemma [dumps_display_any_formatter]). *)
Definition dumps_display (v : json) : pystr := json_dumps (fun _ => []) v.

(** The text-generation service: [llm.invoke(prompt).content], or the
    exception the call raises. *)
Definition llm_service : Type := pystr -> result pystr.

(** The [try] body shared by both tools (lines 54-57 and 86-89). *)
Definition invoke_and_check {py : interpreter} (llm : llm_service) (prompt : pystr)
  : result pystr :=
  (content <- llm prompt ;;
   let json_content := strip_fences content in
   _ <- loads json_content ;;
   Ok json_content)%result.

(** [create_recipe] (lines 36-66): the returned text and the notices
    emitted through [st.error]. *)
Definition create_recipe {py : interpreter} (llm : llm_service)
    (ingredients dietary_needs : pystr) : pystr * list notice :=
  match invoke_and_check llm (recipe_prompt ingredients dietary_needs) with
  | Ok json_content => (json_content, [])
  | Raise e =>
      (dumps_display sentinel_recipe,
       [StError (lit "Error generating recipe: ") e])
  end.

(** [get_nutritional_info] (lines 68-95). *)
Definition get_nutritional_info {py : interpreter} (llm : llm_service)
    (recipe_text : pystr) : pystr * list notice :=
  match invoke_and_check llm (nutrition_prompt recipe_text) with
  | Ok json_content => (json_content, [])
  | Raise e =>
      (dumps_display sentinel_nutrition,
       [StError (lit "Error generating nutritional info: ") e])
  end.

(** *** The image search *)

Record request : Type := {
  url : pystr;
  headers : list (pystr * pystr);
  params : list (pystr * json);
  stream : bool;
  timeout : Z
}.

(** A response: its status and its payload.  With [stream=True] the payload
    is read when [.content] is first touched, and reading can fail. *)
Record response : Type := {
  status_code : Z;
  payload : result pystr
}.

(** [requests.get]: a response, or the exception of a timeout or of a
    transport failure. *)
Definition transport : Type := request -> result response.

(** [response.raise_for_status()]: an [HTTPError] for 4xx and 5xx. *)
Definition raise_for_status (r : response) : result unit :=
  if Z.leb 400 (status_code r) && Z.ltb (status_code r) 600
  then Raise (HTTPError (status_code r))
  else Ok tt.

(** [response.json()], which decodes the payload with [json.loads]. *)
Definition response_json {py : interpreter} (r : response) : result json :=
  (text <- payload r ;; json_decode frames_in_response text)%result.

Definition fallback_image : pystr :=
  lit "https://images.pexels.com/photos/1640777/pexels-photo-1640777.jpeg".

(** [not PEXELS_API_KEY]: [os.getenv] gives [None] or a text. *)
Definition key_missing (key : option pystr) : bool :=
  match key with
  | None => true
  | Some [] => true
  | Some (_ :: _) => false
  end.

Definition search_request (key image_keywords : pystr) : request :=
  {| url := lit "https://api.pexels.com/v1/search";
     headers := [(lit "Authorization", key)];
     params := [(lit "query", JStr image_keywords);
                (lit "orientation", JStr (lit "landscape"));
                (lit "per_page", JInt 1)];
     stream := false;
     timeout := 5 |}.

(** The [try] body of [generate_recipe_image] (lines 107-115). *)
Definition search_photo {py : interpreter} (get : transport) (req : request)
  : result json :=
  (resp <- get req ;;
   _ <- raise_for_status resp ;;
   data <- response_json resp ;;
   photos <- getitem data (lit "photos") ;;
   if truthy photos then
     first <- getitem0 photos ;;
     src <- getitem first (lit "src") ;;
     getitem src (lit "original")
   else Ok (JStr fallback_image))%result.

(** [generate_recipe_image] (lines 97-117): the value returned and the
    requests sent. *)
Definition generate_recipe_image {py : interpreter} (PEXELS_API_KEY : option pystr)
    (get : transport) (image_keywords : pystr) : json * list request :=
  if key_missing PEXELS_API_KEY then (JStr fallback_image, [])
  else
    let key := match PEXELS_API_KEY with Some k => k | None => [] end in
    let req := search_request key image_keywords in
    match search_photo get req with
    | Ok v => (v, [req])
    | Raise _ => (JStr fallback_image, [req])
    end.

(* ====================================================================== *)
(** ** Section 3 of the source: PDF generation *)
(* ====================================================================== *)

Module Pdf.

(** A text handed to FPDF: literal parts and the replacement fields of an
    f-string, each standing for [str(v)]. *)
Inductive piece : Type :=
| Lit (s : pystr)
| Fmt (v : json).

(** The calls made on the [PDF] object, in order.  Page breaks, and with
    them [header] and [footer], are FPDF's own business. *)
Inductive pdf_op : Type :=
| AddFont (style file : pystr)
| AddPage
| SetFont (style : pystr) (size : Z)
| Cell (h : Z) (txt : pystr) (align : pystr)
| MultiCell (h : Z) (txt : list piece) (align : pystr)
| Ln (h : Z)
| Image (bytes : pystr) (x w : Z).

(** What the renderer finds around it: the transport, whether the three
    font files can be loaded, whether writing the staged bytes succeeds,
    which bytes FPDF can decode as an image, and what FPDF makes of a text:
    the exception, if any, with which a call that lays out a text of the
    records ends after the calls made so far (the formatting of the text
    included), and the exception, if any, with which [output] ends for the
    calls made. *)
Record render_env : Type := {
  requests_get : transport;
  fonts_present : bool;
  write_succeeds : bool;
  image_decodes : pystr -> bool;
  call_raises : list pdf_op -> pdf_op -> option exn;
  output_raises : list pdf_op -> option exn
}.

(** The renderer's state: the calls made so far, the temporary files that
    exist (by name) and the local variable [image_path]. *)
Record render_state : Type := {
  ops : list pdf_op;
  tmp_files : list nat;
  image_path : option nat
}.

Definition R (A : Type) : Type := render_state -> result A * render_state.

Definition ret {A : Type} (a : A) : R A := fun st => (Ok a, st).

Definition raise {A : Type} (e : exn) : R A := fun st => (Raise e, st).

Definition bindR {A B : Type} (m : R A) (k : A -> R B) : R B :=
  fun st =>
    match m st with
    | (Ok a, st') => k a st'
    | (Raise e, st') => (Raise e, st')
    end.

Definition lift {A : Type} (r : result A) : R A := fun st => (r, st).

Declare Scope render_scope.
Delimit Scope render_scope with render.
Notation "x <- m ;; k" := (bindR m (fun x => k))
  (at level 61, m at next level, right associativity) : render_scope.
Notation "m ;;; k" := (bindR m (fun _ => k))
  (at level 61, right associativity) : render_scope.

Definition emit (op : pdf_op) : R unit :=
  fun st => (Ok tt, {| ops := ops st ++ [op];
                       tmp_files := tmp_files st;
                       image_path := image_path st |}).

(** Text that asks nothing of the fonts and of the formatting: printable
    ASCII, and values whose [str()] is printable ASCII (an [int] within the
    digit limit; texts, also inside lists and dictionaries, of printable
    ASCII). *)
Definition is_plain (c : pychar) : bool := in_range 32 126 c.

Definition plain_text (s : pystr) : bool := forallb is_plain s.

Definition int_within_limit (n : Z) : bool :=
  match n with
  | Z0 => true
  | Zpos p | Zneg p =>
      Nat.leb (List.length (uint_digits (Pos.to_uint p))) int_max_str_digits
  end.

Fixpoint plain_value (v : json) : bool :=
  match v with
  | JNull => true
  | JBool _ => true
  | JInt n => int_within_limit n
  | JFloat _ => true
  | JStr s => plain_text s
  | JArr items => forallb plain_value items
  | JObj members =>
      forallb (fun kv => plain_text (fst kv) && plain_value (snd kv)) members
  end.

Definition plain_piece (p : piece) : bool :=
  match p with
  | Lit s => plain_text s
  | Fmt v => plain_value v
  end.

Definition plain_op (op : pdf_op) : bool :=
  match op with
  | Cell _ txt _ => plain_text txt
  | MultiCell _ txt _ => forallb plain_piece txt
  | _ => true
  end.

(** A call that lays out a text of the records.  With the fonts loaded
    FPDF lays out plain text; on any other text the call returns or raises
    as the environment has it (a lone surrogate cannot be encoded, an
    integer beyond the digit limit cannot be formatted). *)
Definition emit_text (env : render_env) (op : pdf_op) : R unit :=
  fun st =>
    if plain_op op then emit op st
    else
      match call_raises env (ops st) op with
      | Some e => (Raise e, st)
      | None => emit op st
      end.

(** Line 195, [pdf.output(dest='S').encode('latin1')]: FPDF closes the
    document, embeds the glyphs used and serialises the pages.  A document
    of plain text is serialised; on any other the call returns or raises as
    the environment has it (a character beyond the width table of a font
    raises [IndexError]).  The bytes returned are those of the calls
    made. *)
Definition output (env : render_env) : R unit :=
  fun st =>
    if forallb plain_op (ops st) then (Ok tt, st)
    else
      match output_raises env (ops st) with
      | Some e => (Raise e, st)
      | None => (Ok tt, st)
      end.

(** [try: body finally: cleanup] *)
Definition try_finally {A : Type} (body : R A) (cleanup : R unit) : R A :=
  fun st =>
    match body st with
    | (r, st1) =>
        match cleanup st1 with
        | (Ok _, st2) => (r, st2)
        | (Raise e, st2) => (Raise e, st2)
        end
    end.

Definition fresh_name (files : list nat) : nat := S (list_max files).

(** [tempfile.NamedTemporaryFile(delete=False, suffix=".jpg")]: the file
    exists from here on. *)
Definition named_temporary_file : R nat :=
  fun st =>
    let name := fresh_name (tmp_files st) in
    (Ok name, {| ops := ops st;
                 tmp_files := name :: tmp_files st;
                 image_path := image_path st |}).

(** [image_path = ...] *)
Definition set_image_path (name : option nat) : R unit :=
  fun st => (Ok tt, {| ops := ops st;
                       tmp_files := tmp_files st;
                       image_path := name |}).

Definition file_exists (name : nat) (files : list nat) : bool :=
  existsb (Nat.eqb name) files.

(** [os.remove(path)] *)
Definition os_remove (name : nat) : R unit :=
  fun st => (Ok tt, {| ops := ops st;
                       tmp_files := filter (fun f => negb (Nat.eqb name f)) (tmp_files st);
                       image_path := image_path st |}).

(** The [finally] block (lines 164-166). *)
Definition remove_staged_image : R unit :=
  fun st =>
    match image_path st with
    | Some name =>
        if file_exists name (tmp_files st) then os_remove name st else (Ok tt, st)
    | None => (Ok tt, st)
    end.

(** A value handed to [multi_cell] as its text: FPDF calls [txt.replace],
    which only a [str] has. *)
Definition as_text (v : json) : result pystr :=
  match v with
  | JStr s => Ok s
  | _ => Raise AttributeError
  end.

(** A value handed to [re.sub] as its subject. *)
Definition as_subject (v : json) : result pystr :=
  match v with
  | JStr s => Ok s
  | _ => Raise TypeError
  end.

Definition image_request (u : pystr) : request :=
  {| url := u; headers := []; params := []; stream := true; timeout := 5 |}.

(** [requests.get(image_url, stream=True, timeout=5)]; a value that is not
    a text is refused by [requests] before anything is sent. *)
Definition fetch_image (env : render_env) (image_url : json) : result response :=
  match image_url with
  | JStr u => requests_get env (image_request u)
  | _ => Raise RequestException
  end.

(** The [try] body of the image block (lines 157-163). *)
Definition image_block_body (env : render_env) (image_url : json) : R unit :=
  (image_response <- lift (fetch_image env image_url) ;;
   if Z.eqb (status_code image_response) 200 then
     tmp_file <- named_temporary_file ;;
     content <- lift (payload image_response) ;;
     lift (if write_succeeds env then Ok tt else Raise OSError) ;;;
     set_image_path (Some tmp_file) ;;;
     lift (if image_decodes env content then Ok tt else Raise FPDFError) ;;;
     emit (Image content 30 150) ;;;
     emit (Ln 10)
   else ret tt)%render.

(** Lines 155-166. *)
Definition image_block (env : render_env) (image_url : json) : R unit :=
  (set_image_path None ;;;
   try_finally (image_block_body env image_url) remove_staged_image)%render.

(** What a [for] loop iterates over. *)
Definition iterate (v : json) : result (list json) :=
  match v with
  | JArr items => Ok items
  | JObj members => Ok (List.map (fun kv => JStr (fst kv)) members)
  | JStr s => Ok (List.map (fun c => JStr [c]) s)
  | _ => Raise TypeError
  end.

Fixpoint for_each {A : Type} (f : A -> R unit) (l : list A) : R unit :=
  match l with
  | [] => ret tt
  | a :: r => (f a ;;; for_each f r)%render
  end.

Fixpoint enumerate {A : Type} (start : Z) (l : list A) : list (Z * A) :=
  match l with
  | [] => []
  | a :: r => (start, a) :: enumerate (start + 1) r
  end.

Definition font : pystr := lit "DejaVuSansCondensed".

Definition add_fonts (env : render_env) : R unit :=
  (lift (if fonts_present env then Ok tt else Raise FPDFError) ;;;
   emit (AddFont [] (lit "DejaVuSansCondensed.ttf")) ;;;
   emit (AddFont (lit "B") (lit "DejaVuSansCondensed-Bold.ttf")) ;;;
   emit (AddFont (lit "I") (lit "DejaVuSansCondensed-Oblique.ttf")))%render.

(** Lines 144-152. *)
Definition title_and_description (env : render_env) (recipe_data : json) : R unit :=
  (emit (SetFont (lit "B") 22) ;;;
   title <- lift (x <- getitem recipe_data (lit "title") ;; as_text x)%result ;;
   emit_text env (MultiCell 12 [Lit title] (lit "C")) ;;;
   emit (Ln 4) ;;;
   emit (SetFont (lit "I") 12) ;;;
   description <- lift (getitem recipe_data (lit "description")) ;;
   emit_text env (MultiCell 8 [Lit [QUOTE]; Fmt description; Lit [QUOTE]] (lit "C")) ;;;
   emit (Ln 8))%render.

(** Lines 168-176. *)
Definition nutrition_block (env : render_env) (nutrition_data : json) : R unit :=
  (emit (SetFont (lit "B") 14) ;;;
   emit (Cell 10 (lit "Nutritional Information (per serving)") (lit "C")) ;;;
   emit (SetFont [] 12) ;;;
   summary <- lift (getitem nutrition_data (lit "summary")) ;;
   emit_text env (MultiCell 8 [Lit (lit "Summary: "); Fmt summary] (lit "C")) ;;;
   emit (Ln 4) ;;;
   calories <- lift (getitem nutrition_data (lit "calories")) ;;
   protein <- lift (getitem nutrition_data (lit "protein_grams")) ;;
   fat <- lift (getitem nutrition_data (lit "fat_grams")) ;;
   carbs <- lift (getitem nutrition_data (lit "carbs_grams")) ;;
   emit_text env (MultiCell 8 [Lit (lit "Calories: "); Fmt calories;
                               Lit (lit "   Protein: "); Fmt protein;
                               Lit (lit "g   Fat: "); Fmt fat;
                               Lit (lit "g   Carbs: "); Fmt carbs; Lit (lit "g")]
                            (lit "C")) ;;;
   emit (Ln 10))%render.

(** The bullet of line 183, U+2022. *)
Definition bullet : pystr := [8226%N; 32%N].

(** Lines 178-184. *)
Definition ingredients_block (env : render_env) (recipe_data : json) : R unit :=
  (emit (SetFont (lit "B") 14) ;;;
   emit (Cell 10 (lit "Ingredients") []) ;;;
   emit (SetFont [] 12) ;;;
   items <- lift (x <- getitem recipe_data (lit "ingredients") ;; iterate x)%result ;;
   for_each (fun item => emit_text env (MultiCell 8 [Lit bullet; Fmt item] []))
            items ;;;
   emit (Ln 8))%render.

(** Lines 186-193. *)
Definition instructions_block (env : render_env) (recipe_data : json) : R unit :=
  (emit (SetFont (lit "B") 14) ;;;
   emit (Cell 10 (lit "Instructions") []) ;;;
   emit (SetFont [] 12) ;;;
   steps <- lift (x <- getitem recipe_data (lit "instructions") ;; iterate x)%result ;;
   for_each (fun p : Z * json =>
               step <- lift (as_subject (snd p)) ;;
               emit_text env (MultiCell 8 [Fmt (JInt (fst p)); Lit (lit ". ");
                                           Lit (clean_step step)] []) ;;;
               emit (Ln 1))
            (enumerate 1 steps))%render.

(** Lines 135-152. *)
Definition blocks_before_image (env : render_env) (recipe_data : json) : R unit :=
  (add_fonts env ;;;
   emit AddPage ;;;
   title_and_description env recipe_data)%render.

(** Lines 168-193. *)
Definition blocks_after_image (env : render_env) (recipe_data nutrition_data : json)
  : R unit :=
  (nutrition_block env nutrition_data ;;;
   ingredients_block env recipe_data ;;;
   instructions_block env recipe_data)%render.

(** [create_recipe_pdf] (lines 134-195), as a computation on the renderer's
    state. *)
Definition render (env : render_env) (recipe_data nutrition_data image_url : json)
  : R unit :=
  (blocks_before_image env recipe_data ;;;
   image_block env image_url ;;;
   blocks_after_image env recipe_data nutrition_data ;;;
   output env)%render.

(** The same without lines 156-166: what is rendered when there is no
    image block at all. *)
Definition render_without_image (env : render_env) (recipe_data nutrition_data : json)
  : R unit :=
  (blocks_before_image env recipe_data ;;;
   set_image_path None ;;;
   blocks_after_image env recipe_data nutrition_data ;;;
   output env)%render.

(** The document returned, as the calls whose bytes it is, or the
    exception, and the temporary files left. *)
Definition outcome (r : result unit * render_state)
  : result (list pdf_op) * list nat :=
  match r with
  | (Ok _, st) => (Ok (ops st), tmp_files st)
  | (Raise e, st) => (Raise e, tmp_files st)
  end.

Definition start (files : list nat) : render_state :=
  {| ops := []; tmp_files := files; image_path := None |}.

(** The state after [image_path = None]. *)
Definition cleared (st : render_state) : render_state :=
  {| ops := ops st; tmp_files := tmp_files st; image_path := None |}.

(** [create_recipe_pdf] run with the temporary files [files] in place: the
    document, or the exception that leaves the function, and the temporary
    files that exist afterwards. *)
Definition create_recipe_pdf (env : render_env) (files : list nat)
    (recipe_data nutrition_data image_url : json)
  : result (list pdf_op) * list nat :=
  outcome (render env recipe_data nutrition_data image_url (start files)).

End Pdf.

(* ====================================================================== *)
(** ** Section 4 of the source: the pipeline block *)
(* ====================================================================== *)

Module App.

(** The three slots of [st.session_state]; Python's [None] is [JNull]. *)
Record session : Type := {
  recipe_data : json;
  nutrition_data : json;
  image_url : json
}.

(** Lines 201-206. *)
Definition initial_session : session :=
  {| recipe_data := JNull; nutrition_data := JNull; image_url := JNull |}.

(** What one run finds around it: the two services, the credential, the
    float formatter of [json.dumps], and what the input validation of a
    tool makes of an argument that is declared [str] and is not one (the
    validation library coerces some values in some versions and refuses
    them in others). *)
Record world : Type := {
  llm : llm_service;
  PEXELS_API_KEY : option pystr;
  requests_get : transport;
  float_repr : pyfloat -> pystr;
  coerce_to_str : json -> result pystr
}.

Record app_state : Type := {
  session_state : session;
  notices : list notice
}.

Definition M (A : Type) : Type := app_state -> result A * app_state.

Definition ret {A : Type} (a : A) : M A := fun st => (Ok a, st).

Definition bindM {A B : Type} (m : M A) (k : A -> M B) : M B :=
  fun st =>
    match m st with
    | (Ok a, st') => k a st'
    | (Raise e, st') => (Raise e, st')
    end.

Definition lift {A : Type} (r : result A) : M A := fun st => (r, st).

Declare Scope app_scope.
Delimit Scope app_scope with app.
Notation "x <- m ;; k" := (bindM m (fun x => k))
  (at level 61, m at next level, right associativity) : app_scope.
Notation "m ;;; k" := (bindM m (fun _ => k))
  (at level 61, right associativity) : app_scope.

Definition notify (ns : list notice) : M unit :=
  fun st => (Ok tt, {| session_state := session_state st;
                       notices := notices st ++ ns |}).

Definition update (f : session -> session) : M unit :=
  fun st => (Ok tt, {| session_state := f (session_state st);
                       notices := notices st |}).

Definition set_recipe_data (v : json) : M unit :=
  update (fun s => {| recipe_data := v;
                      nutrition_data := nutrition_data s;
                      image_url := image_url s |}).

Definition set_image_url (v : json) : M unit :=
  update (fun s => {| recipe_data := recipe_data s;
                      nutrition_data := nutrition_data s;
                      image_url := v |}).

Definition set_nutrition_data (v : json) : M unit :=
  update (fun s => {| recipe_data := recipe_data s;
                      nutrition_data := v;
                      image_url := image_url s |}).

(** [try: body except Exception as e: handler(e)] *)
Definition try_except (body : M unit) (handler : exn -> M unit) : M unit :=
  fun st =>
    match body st with
    | (Ok _, st') => (Ok tt, st')
    | (Raise e, st') => handler e st'
    end.

(** A tool's [.run] checks its input against the schema read off the
    signature, where every argument is a [str]. *)
Definition validate_str (w : world) (v : json) : result pystr :=
  match v with
  | JStr s => Ok s
  | _ => coerce_to_str w v
  end.

(** The argument of [generate_recipe_image.run] (line 226). *)
Definition image_keywords_of (w : world) (recipe : json) : result pystr :=
  (x <- getitem recipe (lit "image_keywords") ;; validate_str w x)%result.

(** A tool that returns its text together with the notices it raised. *)
Definition run_tool (r : pystr * list notice) : M pystr :=
  (notify (snd r) ;;; ret (fst r))%app.

(** The [try] body of lines 222-231. *)
Definition pipeline_body {py : interpreter} (w : world)
    (ingredients dietary_needs : pystr) : M unit :=
  (recipe_json_str <- run_tool (create_recipe (llm w) ingredients dietary_needs) ;;
   recipe <- lift (loads recipe_json_str) ;;
   set_recipe_data recipe ;;;
   keywords <- lift (image_keywords_of w recipe) ;;
   set_image_url (fst (generate_recipe_image (PEXELS_API_KEY w) (requests_get w) keywords)) ;;;
   nutrition_json_str <-
     run_tool (get_nutritional_info (llm w) (json_dumps (float_repr w) recipe)) ;;
   nutrition <- lift (loads nutrition_json_str) ;;
   set_nutrition_data nutrition)%app.

(** The button handler (lines 216-234). *)
Definition on_generate {py : interpreter} (w : world)
    (ingredients dietary_needs : pystr) : M unit :=
  match ingredients with
  | [] => notify [StWarning (lit "Please enter at least one ingredient.")]
  | _ :: _ =>
      try_except (pipeline_body w ingredients dietary_needs)
                 (fun e => notify [StError (lit "An error occurred: ") e])
  end.

(** The session a click leaves behind. *)
Definition run_pipeline {py : interpreter} (w : world)
    (ingredients dietary_needs : pystr) (before : session) : session :=
  session_state
    (snd (on_generate w ingredients dietary_needs
            {| session_state := before; notices := [] |})).

End App.

(* ====================================================================== *)
(** ** Section 4 of the source: the display block *)
(* ====================================================================== *)

Module Page.

(** The Streamlit calls of lines 237-279, with the values they are given.
    Columns only place the widgets; what a widget makes of a value it was
    not meant for is Streamlit's own business. *)
Inductive widget : Type :=
| Markdown (body : list Pdf.piece)
| Header (body : pystr)
| Subheader (body : json)
| ShowImage (image caption : json)
| Write (body : list Pdf.piece)
| WriteValue (body : json)
| DownloadButton (label : pystr) (data : list Pdf.pdf_op)
                 (file_name mime : pystr).

(** The page built so far and the temporary files that exist. *)
Record page_state : Type := {
  shown : list widget;
  files : list nat
}.

Definition U (A : Type) : Type := page_state -> result A * page_state.

Definition ret {A : Type} (a : A) : U A := fun st => (Ok a, st).

Definition bindU {A B : Type} (m : U A) (k : A -> U B) : U B :=
  fun st =>
    match m st with
    | (Ok a, st') => k a st'
    | (Raise e, st') => (Raise e, st')
    end.

Definition lift {A : Type} (r : result A) : U A := fun st => (r, st).

Declare Scope page_scope.
Delimit Scope page_scope with page.
Notation "x <- m ;; k" := (bindU m (fun x => k))
  (at level 61, m at next level, right associativity) : page_scope.
Notation "m ;;; k" := (bindU m (fun _ => k))
  (at level 61, right associativity) : page_scope.

Definition show (w : widget) : U unit :=
  fun st => (Ok tt, {| shown := shown st ++ [w]; files := files st |}).

Fixpoint for_each {A : Type} (f : A -> U unit) (l : list A) : U unit :=
  match l with
  | [] => ret tt
  | a :: r => (f a ;;; for_each f r)%page
  end.

Definition rule : widget := Markdown [Pdf.Lit (lit "---")].

(** Lines 237-264: the image, the nutrition figures, the recipe. *)
Definition page_widgets (s : App.session) : U unit :=
  (show rule ;;;
   show (Header (lit "2. Your Custom Recipe")) ;;;
   caption <- lift (getitem (App.recipe_data s) (lit "title")) ;;
   show (ShowImage (App.image_url s) caption) ;;;
   show (Markdown [Pdf.Lit (lit "##### Nutritional Information (per serving)")]) ;;;
   calories <- lift (getitem (App.nutrition_data s) (lit "calories")) ;;
   show (Write [Pdf.Lit (lit "**Calories:** "); Pdf.Fmt calories]) ;;;
   protein <- lift (getitem (App.nutrition_data s) (lit "protein_grams")) ;;
   show (Write [Pdf.Lit (lit "**Protein:** "); Pdf.Fmt protein; Pdf.Lit (lit "g")]) ;;;
   fat <- lift (getitem (App.nutrition_data s) (lit "fat_grams")) ;;
   show (Write [Pdf.Lit (lit "**Fat:** "); Pdf.Fmt fat; Pdf.Lit (lit "g")]) ;;;
   carbs <- lift (getitem (App.nutrition_data s) (lit "carbs_grams")) ;;
   show (Write [Pdf.Lit (lit "**Carbs:** "); Pdf.Fmt carbs; Pdf.Lit (lit "g")]) ;;;
   summary <- lift (getitem (App.nutrition_data s) (lit "summary")) ;;
   show (Write [Pdf.Lit (lit "**Summary:** "); Pdf.Fmt summary]) ;;;
   show rule ;;;
   title <- lift (getitem (App.recipe_data s) (lit "title")) ;;
   show (Subheader title) ;;;
   description <- lift (getitem (App.recipe_data s) (lit "description")) ;;
   show (WriteValue description) ;;;
   show (Markdown [Pdf.Lit (lit "#### Ingredients")]) ;;;
   ingredients <-
     lift (x <- getitem (App.recipe_data s) (lit "ingredients") ;;
           Pdf.iterate x)%result ;;
   for_each (fun ingredient =>
               show (Markdown [Pdf.Lit (lit "- "); Pdf.Fmt ingredient]))
            ingredients ;;;
   show (Markdown [Pdf.Lit (lit "#### Instructions")]) ;;;
   instructions <-
     lift (x <- getitem (App.recipe_data s) (lit "instructions") ;;
           Pdf.iterate x)%result ;;
   for_each (fun p : Z * json =>
               instruction <- lift (Pdf.as_subject (snd p)) ;;
               show (Markdown [Pdf.Fmt (JInt (fst p)); Pdf.Lit (lit ". ");
                               Pdf.Lit (clean_step instruction)]))
            (Pdf.enumerate 1 instructions))%page.

(** [pdf_bytes = create_recipe_pdf(...)] (lines 266-270). *)
Definition render_pdf (env : Pdf.render_env) (s : App.session)
  : U (list Pdf.pdf_op) :=
  fun st =>
    match Pdf.create_recipe_pdf env (files st) (App.recipe_data s)
            (App.nutrition_data s) (App.image_url s) with
    | (r, files') => (r, {| shown := shown st; files := files' |})
    end.

(** Lines 266-279: the document and its download button. *)
Definition download_part (env : Pdf.render_env) (s : App.session) : U unit :=
  (pdf_bytes <- render_pdf env s ;;
   show rule ;;;
   title <- lift (x <- getitem (App.recipe_data s) (lit "title") ;;
                  Pdf.as_subject x)%result ;;
   show (DownloadButton (lit "Download Recipe as PDF") pdf_bytes
                        (download_file_name title) (lit "application/pdf")))%page.

(** The display block (lines 236-279). *)
Definition display (env : Pdf.render_env) (s : App.session) : U unit :=
  if truthy (App.recipe_data s)
  then (page_widgets s ;;; download_part env s)%page
  else ret tt.

End Page.

(* ====================================================================== *)
(** ** Notions and scenarios of the statements *)
(* ====================================================================== *)

Definition tick : pychar := 96%N.

(** A scanner that, when it succeeds, has read at least one character. *)
Definition consumes {A : Type} (f : pystr -> result (A * pystr)) : Prop :=
  forall s a r, f s = Ok (a, r) -> List.length r < List.length s.

(** The two ways a generation fails: the service raises, or [json.loads]
    raises on what it answers once the fences are stripped. *)
Definition generation_fails {py : interpreter} (llm : llm_service) (prompt : pystr)
  : Prop :=
  (exists e, llm prompt = Raise e)
  \/ (exists content, llm prompt = Ok content
                      /\ json_loads (strip_fences content) = None).

(** The outcome in which the search yields a photo: a response whose status
    [raise_for_status] lets through and whose [json()] is a value whose
    [photos] is a non-empty array, the first entry of which has
    [src.original]. *)
Definition success_with_results {py : interpreter} (get : transport) (req : request)
    (original : json) : Prop :=
  exists (resp : response) (data first src : json) (rest : list json),
    get req = Ok resp
    /\ ~ (400 <= status_code resp < 600)%Z
    /\ response_json resp = Ok data
    /\ getitem data (lit "photos") = Ok (JArr (first :: rest))
    /\ getitem first (lit "src") = Ok src
    /\ getitem src (lit "original") = Ok original.

(** A renderer's environment around one answer of the image fetch. *)
Definition env_answering (answer : result response) (decodes : bool)
  : Pdf.render_env :=
  {| Pdf.requests_get := fun _ => answer;
     Pdf.fonts_present := true;
     Pdf.write_succeeds := true;
     Pdf.image_decodes := fun _ => decodes;
     Pdf.call_raises := fun _ _ => None;
     Pdf.output_raises := fun _ => None |}.

Definition is_image (op : Pdf.pdf_op) : bool :=
  match op with
  | Pdf.Image _ _ _ => true
  | _ => false
  end.

(** The calls that render the two sentinel records when there is no image
    block. *)
Definition sentinel_document : list Pdf.pdf_op :=
  Eval vm_compute in
    match Pdf.outcome
            (Pdf.render_without_image (env_answering (Raise RequestException) true)
               sentinel_recipe sentinel_nutrition (Pdf.start []))
    with
    | (Ok document, _) => document
    | (Raise _, _) => []
    end.

(** A service that answers both prompts with well-formed records. *)
Definition llm_complete : llm_service :=
  fun prompt =>
    if starts_with (nl ++ lit "    You are a creative chef.") prompt
    then Ok (qlit "{'title': 'Omelette', 'description': 'Quick.', 'ingredients': ['eggs'], 'instructions': ['1. Beat the eggs'], 'image_keywords': 'omelette'}")
    else Ok (qlit "{'calories': 520, 'protein_grams': 30, 'fat_grams': 40, 'carbs_grams': 2, 'summary': 'Rich.'}").

(** A service whose recipe has a title and nothing else. *)
Definition llm_title_only : llm_service :=
  fun _ => Ok (qlit "{'title': 'Soup'}").

Definition world_with (service : llm_service) : App.world :=
  {| App.llm := service;
     App.PEXELS_API_KEY := None;
     App.requests_get := fun _ => Raise RequestException;
     App.float_repr := fun _ => [];
     App.coerce_to_str := fun _ => Raise ValidationError |}.

(* ====================================================================== *)
(** ** Notions of the further properties *)
(* ====================================================================== *)

(** A text without any backtick. *)
Definition no_tick (t : pystr) : bool :=
  forallb (fun c => negb (N.eqb c tick)) t.

(** A text that is empty or starts with something else than [p] accepts. *)
Definition head_outside (p : pychar -> bool) (t : pystr) : bool :=
  match t with
  | [] => true
  | c :: _ => negb (p c)
  end.

(** A text that is empty or starts and ends with something else than white
    space. *)
Definition trimmed (t : pystr) : Prop :=
  t = []
  \/ exists (first last : pychar) (middle tail : pystr),
       t = first :: tail /\ t = middle ++ [last]
       /\ isspace first = false /\ isspace last = false.

(** A computation of the renderer that creates and removes no temporary
    file. *)
Definition keeps_files {A : Type} (m : Pdf.R A) : Prop :=
  forall st, Pdf.tmp_files (snd (m st)) = Pdf.tmp_files st.

(** The renderer's state with further calls recorded. *)
Definition appended (st : Pdf.render_state) (calls : list Pdf.pdf_op)
  : Pdf.render_state :=
  {| Pdf.ops := Pdf.ops st ++ calls;
     Pdf.tmp_files := Pdf.tmp_files st;
     Pdf.image_path := Pdf.image_path st |}.

(** The environment lets a call through after the calls [made]. *)
Definition call_accepted (env : Pdf.render_env) (made : list Pdf.pdf_op)
    (op : Pdf.pdf_op) : bool :=
  Pdf.plain_op op
  || match Pdf.call_raises env made op with
     | None => true
     | Some _ => false
     end.

Fixpoint calls_accepted (env : Pdf.render_env) (made calls : list Pdf.pdf_op)
  : bool :=
  match calls with
  | [] => true
  | op :: rest =>
      call_accepted env made op && calls_accepted env (made ++ [op]) rest
  end.

Definition output_accepted (env : Pdf.render_env) (made : list Pdf.pdf_op) : bool :=
  forallb Pdf.plain_op made
  || match Pdf.output_raises env made with
     | None => true
     | Some _ => false
     end.

(** FPDF renders a document: it lets each call through after the calls
    before it, and the output after all of them. *)
Definition renders (env : Pdf.render_env) (calls : list Pdf.pdf_op) : bool :=
  calls_accepted env [] calls && output_accepted env calls.

(** A computation of the renderer that, when FPDF lets its calls through,
    succeeds and records [calls]. *)
Definition records (env : Pdf.render_env) (m : Pdf.R unit)
    (calls : list Pdf.pdf_op) : Prop :=
  forall st, calls_accepted env (Pdf.ops st) calls = true ->
             m st = (Ok tt, appended st calls).

(** The calls of [create_recipe_pdf], block by block, for a recipe with the
    text [title], the value [description], the ingredients [items] and the
    texts [steps] as instructions, a nutrition record with the five values,
    and the image bytes when an image is embedded. *)
Definition font_calls : list Pdf.pdf_op :=
  [Pdf.AddFont [] (lit "DejaVuSansCondensed.ttf");
   Pdf.AddFont (lit "B") (lit "DejaVuSansCondensed-Bold.ttf");
   Pdf.AddFont (lit "I") (lit "DejaVuSansCondensed-Oblique.ttf")].

Definition title_calls (title : pystr) (description : json) : list Pdf.pdf_op :=
  [Pdf.SetFont (lit "B") 22;
   Pdf.MultiCell 12 [Pdf.Lit title] (lit "C");
   Pdf.Ln 4;
   Pdf.SetFont (lit "I") 12;
   Pdf.MultiCell 8 [Pdf.Lit [QUOTE]; Pdf.Fmt description; Pdf.Lit [QUOTE]] (lit "C");
   Pdf.Ln 8].

Definition image_calls (image : option pystr) : list Pdf.pdf_op :=
  match image with
  | Some bytes => [Pdf.Image bytes 30 150; Pdf.Ln 10]
  | None => []
  end.

Definition nutrition_calls (summary calories protein fat carbs : json)
  : list Pdf.pdf_op :=
  [Pdf.SetFont (lit "B") 14;
   Pdf.Cell 10 (lit "Nutritional Information (per serving)") (lit "C");
   Pdf.SetFont [] 12;
   Pdf.MultiCell 8 [Pdf.Lit (lit "Summary: "); Pdf.Fmt summary] (lit "C");
   Pdf.Ln 4;
   Pdf.MultiCell 8 [Pdf.Lit (lit "Calories: "); Pdf.Fmt calories;
                    Pdf.Lit (lit "   Protein: "); Pdf.Fmt protein;
                    Pdf.Lit (lit "g   Fat: "); Pdf.Fmt fat;
                    Pdf.Lit (lit "g   Carbs: "); Pdf.Fmt carbs;
                    Pdf.Lit (lit "g")]
                 (lit "C");
   Pdf.Ln 10].

Definition ingredient_line (item : json) : Pdf.pdf_op :=
  Pdf.MultiCell 8 [Pdf.Lit Pdf.bullet; Pdf.Fmt item] [].

Definition ingredients_calls (items : list json) : list Pdf.pdf_op :=
  [Pdf.SetFont (lit "B") 14; Pdf.Cell 10 (lit "Ingredients") [];
   Pdf.SetFont [] 12]
  ++ List.map ingredient_line items ++ [Pdf.Ln 8].

Definition instruction_lines (numbered : Z * pystr) : list Pdf.pdf_op :=
  [Pdf.MultiCell 8 [Pdf.Fmt (JInt (fst numbered)); Pdf.Lit (lit ". ");
                    Pdf.Lit (clean_step (snd numbered))] [];
   Pdf.Ln 1].

Definition instructions_calls (steps : list pystr) : list Pdf.pdf_op :=
  [Pdf.SetFont (lit "B") 14; Pdf.Cell 10 (lit "Instructions") [];
   Pdf.SetFont [] 12]
  ++ flat_map instruction_lines (Pdf.enumerate 1 steps).

Definition document (image : option pystr) (title : pystr) (description : json)
    (items : list json) (steps : list pystr)
    (summary calories protein fat carbs : json) : list Pdf.pdf_op :=
  font_calls ++ [Pdf.AddPage] ++ title_calls title description
  ++ image_calls image
  ++ nutrition_calls summary calories protein fat carbs
  ++ ingredients_calls items
  ++ instructions_calls steps.

(** A recipe and a nutrition record of the shape the two prompts ask for. *)
Definition recipe_of (r : json) (title : pystr) (description : json)
    (items : list json) (steps : list pystr) : Prop :=
  getitem r (lit "title") = Ok (JStr title)
  /\ getitem r (lit "description") = Ok description
  /\ getitem r (lit "ingredients") = Ok (JArr items)
  /\ getitem r (lit "instructions") = Ok (JArr (List.map JStr steps)).

Definition nutrition_of (n summary calories protein fat carbs : json) : Prop :=
  getitem n (lit "summary") = Ok summary
  /\ getitem n (lit "calories") = Ok calories
  /\ getitem n (lit "protein_grams") = Ok protein
  /\ getitem n (lit "fat_grams") = Ok fat
  /\ getitem n (lit "carbs_grams") = Ok carbs.

(** [n + 1] opening brackets followed by as many closing ones, and the
    value they are the text of. *)
Definition brackets (n : nat) : pystr :=
  repeat 91%N (S n) ++ repeat 93%N (S n).

Fixpoint nested (n : nat) : json :=
  match n with
  | O => JArr []
  | S k => JArr [nested k]
  end.

(** A step of the button handler that only adds notices. *)
Definition only_notifies {A : Type} (m : App.M A) : Prop :=
  forall st, exists more : list notice,
    App.notices (snd (m st)) = App.notices st ++ more.

(** A step of the display that touches no file and only adds widgets, none
    of them a download button. *)
Definition is_download (w : Page.widget) : bool :=
  match w with
  | Page.DownloadButton _ _ _ _ => true
  | _ => false
  end.

Definition only_shows {A : Type} (m : Page.U A) : Prop :=
  forall st,
    Page.files (snd (m st)) = Page.files st
    /\ exists more : list Page.widget,
         Page.shown (snd (m st)) = Page.shown st ++ more
         /\ existsb is_download more = false.

(** The session in which both records are the sentinels. *)
Definition sentinel_session (image : json) : App.session :=
  {| App.recipe_data := sentinel_recipe;
     App.nutrition_data := sentinel_nutrition;
     App.image_url := image |}.

(** The page of the sentinel session. *)
Definition sentinel_page (image : json) : list Page.widget :=
  [ Page.rule;
    Page.Header (lit "2. Your Custom Recipe");
    Page.ShowImage image (JStr (lit "Failed to generate recipe"));
    Page.Markdown [Pdf.Lit (lit "##### Nutritional Information (per serving)")];
    Page.Write [Pdf.Lit (lit "**Calories:** "); Pdf.Fmt (JInt 0)];
    Page.Write [Pdf.Lit (lit "**Protein:** "); Pdf.Fmt (JInt 0); Pdf.Lit (lit "g")];
    Page.Write [Pdf.Lit (lit "**Fat:** "); Pdf.Fmt (JInt 0); Pdf.Lit (lit "g")];
    Page.Write [Pdf.Lit (lit "**Carbs:** "); Pdf.Fmt (JInt 0); Pdf.Lit (lit "g")];
    Page.Write [Pdf.Lit (lit "**Summary:** ");
                Pdf.Fmt (JStr (lit "Nutritional info unavailable."))];
    Page.rule;
    Page.Subheader (JStr (lit "Failed to generate recipe"));
    Page.WriteValue (JStr (lit "Please try again."));
    Page.Markdown [Pdf.Lit (lit "#### Ingredients")];
    Page.Markdown [Pdf.Lit (lit "#### Instructions")];
    Page.rule;
    Page.DownloadButton (lit "Download Recipe as PDF") sentinel_document
                        (lit "Failed_to_generate_recipe.pdf")
                        (lit "application/pdf") ].


(* ====================================================================== *)
(** * Properties *)
(* ====================================================================== *)

Unset Implicit Arguments.

(** ** Text primitives *)

Module PyStrFacts.

Lemma drop_while_length (p : pychar -> bool) (s : pystr) :
  List.length (drop_while p s) <= List.length s.
Proof.
  induction s as [|c r IH]; simpl; [lia|].
  destruct (p c); simpl; lia.
Qed.

Lemma drop_while_head (p : pychar -> bool) (s : pystr) :
  drop_while p s = [] \/
  exists c r, drop_while p s = c :: r /\ p c = false.
Proof.
  induction s as [|c r IH]; simpl; [now left|].
  destruct (p c) eqn:E; [exact IH|].
  right. now exists c, r.
Qed.

Lemma drop_while_fixed (p : pychar -> bool) (c : pychar) (r : pystr) :
  p c = false -> drop_while p (c :: r) = c :: r.
Proof. intros H. simpl. now rewrite H. Qed.

Lemma rstrip_length (s : pystr) : List.length (rstrip s) <= List.length s.
Proof.
  induction s as [|c r IH]; simpl; [lia|].
  destruct (rstrip r); [destruct (isspace c)|]; simpl in *; lia.
Qed.

Lemma rstrip_cons_nonspace (c : pychar) (r : pystr) :
  isspace c = false -> rstrip (c :: r) = c :: rstrip r.
Proof.
  intros H. simpl. destruct (rstrip r); [now rewrite H|reflexivity].
Qed.

Lemma rstrip_idempotent (s : pystr) : rstrip (rstrip s) = rstrip s.
Proof.
  induction s as [|c r IH]; [reflexivity|].
  simpl. destruct (rstrip r) as [|d t] eqn:E.
  - destruct (isspace c) eqn:Ec; [reflexivity|].
    simpl. now rewrite Ec.
  - change (rstrip (c :: d :: t)) with
      (match rstrip (d :: t) with
       | [] => if isspace c then [] else [c]
       | r' => c :: r'
       end).
    rewrite IH. reflexivity.
Qed.

(** [rstrip] keeps a prefix of its argument. *)
Lemma rstrip_prefix (s : pystr) : exists t, s = rstrip s ++ t.
Proof.
  induction s as [|c r [t IH]]; [now exists []|].
  simpl. destruct (rstrip r) as [|d u] eqn:E.
  - destruct (isspace c).
    + now exists (c :: r).
    + exists r. reflexivity.
  - exists t. simpl. simpl in IH. now rewrite <- IH.
Qed.

(** [drop_while] keeps a suffix of its argument. *)
Lemma drop_while_suffix (p : pychar -> bool) (s : pystr) :
  exists t, s = t ++ drop_while p s.
Proof.
  induction s as [|c r [t IH]]; [now exists []|].
  simpl. destruct (p c).
  - exists (c :: t). simpl. now rewrite <- IH.
  - now exists [].
Qed.

Lemma strip_length (s : pystr) : List.length (strip s) <= List.length s.
Proof.
  unfold strip, lstrip.
  pose proof (rstrip_length (drop_while isspace s)).
  pose proof (drop_while_length isspace s). lia.
Qed.

Lemma strip_idempotent (s : pystr) : strip (strip s) = strip s.
Proof.
  unfold strip, lstrip.
  destruct (drop_while_head isspace s) as [E | (c & r & E & Hc)]; rewrite E.
  - reflexivity.
  - rewrite (rstrip_cons_nonspace c r Hc).
    rewrite (drop_while_fixed isspace c _ Hc).
    rewrite (rstrip_cons_nonspace c _ Hc).
    now rewrite rstrip_idempotent.
Qed.

Lemma starts_with_iff (p s : pystr) :
  starts_with p s = true <-> exists t, s = p ++ t.
Proof.
  revert s. induction p as [|x p IH]; intros s.
  - split; [now exists s | reflexivity].
  - destruct s as [|y s]; simpl.
    + split; [discriminate | intros [t Ht]; discriminate].
    + rewrite andb_true_iff, N.eqb_eq, IH. split.
      * intros [-> [t ->]]. now exists t.
      * intros [t [= -> ->]]. split; [reflexivity | now exists t].
Qed.

Lemma starts_with_app (p a t : pystr) :
  starts_with p a = true -> starts_with p (a ++ t) = true.
Proof.
  revert a. induction p as [|x p IH]; intros a H; [reflexivity|].
  destruct a as [|y a]; [discriminate|].
  simpl in *. apply andb_true_iff in H as [H1 H2].
  now rewrite H1, (IH _ H2).
Qed.

Lemma occurs_cons (p : pystr) (y : pychar) (s : pystr) :
  occurs p (y :: s) = starts_with p (y :: s) || occurs p s.
Proof. reflexivity. Qed.

Lemma occurs_nil (p : pystr) : occurs p [] = starts_with p [].
Proof. simpl. apply orb_false_r. Qed.

Lemma occurs_app_l (p a t : pystr) :
  occurs p a = true -> occurs p (a ++ t) = true.
Proof.
  induction a as [|y a IH]; intros H.
  - rewrite occurs_nil in H.
    destruct p; [|discriminate]. destruct t; reflexivity.
  - rewrite occurs_cons in H. apply orb_true_iff in H as [H | H].
    + rewrite <- app_comm_cons, occurs_cons, app_comm_cons.
      now rewrite (starts_with_app _ _ _ H).
    + rewrite <- app_comm_cons, occurs_cons.
      rewrite (IH H). apply orb_true_r.
Qed.

Lemma occurs_app_r (p t a : pystr) :
  occurs p a = true -> occurs p (t ++ a) = true.
Proof.
  induction t as [|y t IH]; intros H; [exact H|].
  rewrite <- app_comm_cons, occurs_cons.
  rewrite (IH H). apply orb_true_r.
Qed.

Lemma occurs_strip (p s : pystr) :
  occurs p (strip s) = true -> occurs p s = true.
Proof.
  unfold strip, lstrip. intros H.
  destruct (rstrip_prefix (drop_while isspace s)) as [t Ht].
  destruct (drop_while_suffix isspace s) as [u Hu].
  rewrite Hu. apply occurs_app_r. rewrite Ht. now apply occurs_app_l.
Qed.

Lemma starts_with_prefix (p q s : pystr) :
  starts_with (p ++ q) s = true -> starts_with p s = true.
Proof.
  revert s. induction p as [|x p IH]; intros s H; [reflexivity|].
  destruct s as [|y s]; [discriminate|].
  simpl in *. apply andb_true_iff in H as [H1 H2].
  now rewrite H1, (IH _ H2).
Qed.

Lemma occurs_prefix (p q s : pystr) :
  occurs (p ++ q) s = true -> occurs p s = true.
Proof.
  induction s as [|y s IH]; intros H.
  - rewrite occurs_nil in H |- *. exact (starts_with_prefix _ _ _ H).
  - rewrite occurs_cons in H |- *. apply orb_true_iff in H as [H | H].
    + rewrite (starts_with_prefix _ _ _ H). reflexivity.
    + rewrite (IH H). apply orb_true_r.
Qed.

End PyStrFacts.

(** ** The decoder's fuel *)

Module JsonFacts.
Import PyStrFacts.

Lemma skip_ws_length (s : pystr) : List.length (skip_ws s) <= List.length s.
Proof. apply drop_while_length. Qed.

Lemma strip_prefix_length (p s r : pystr) :
  strip_prefix p s = Some r -> List.length r + List.length p = List.length s.
Proof.
  unfold strip_prefix. destruct (starts_with p s) eqn:E; [|discriminate].
  intros [= <-]. apply starts_with_iff in E as [t ->].
  assert (K : skipn (List.length p) (p ++ t) = t)
    by (induction p as [|x p IH]; [reflexivity | exact IH]).
  rewrite K, length_app. lia.
Qed.

Lemma cons_fst_some {A B : Type} (a : A) (r : option (list A * B))
    (l : list A) (b : B) :
  cons_fst a r = Some (l, b) -> exists l', r = Some (l', b) /\ l = a :: l'.
Proof.
  destruct r as [[l' b']|]; [|discriminate].
  intros [= <- <-]. now exists l'.
Qed.

(** The closing quote at least is consumed. *)
Lemma scanstring_consumes_below (n : nat) :
  forall (s str r : pystr),
    List.length s <= n -> scanstring s = Some (str, r) ->
    List.length r < List.length s.
Proof.
  induction n as [|n IH]; intros s str r Hlen H.
  - destruct s; [discriminate|simpl in Hlen; lia].
  - destruct s as [|c s']; [discriminate|].
    cbn [scanstring] in H. cbv zeta in H.
    cbn [List.length] in Hlen |- *.
    assert (K : forall a t l p,
               List.length t <= n ->
               cons_fst a (scanstring t) = Some (l, p) ->
               List.length p < List.length t).
    { intros a t l p Ht Hc. apply cons_fst_some in Hc as (l' & Hc & _).
      exact (IH t l' p Ht Hc). }
    clear IH.
    repeat (first
      [ discriminate
      | match type of H with
        | cons_fst _ _ = Some _ =>
            apply K in H; [cbn [List.length] in *; lia | cbn [List.length] in *; lia]
        | Some _ = Some _ => injection H as <- <-; lia
        end
      | match type of H with
        | context [match ?x with _ => _ end] =>
            match x with
            | _ :: _ => fail 1
            | _ => destruct x
            end
        end ]).
Qed.

Lemma scanstring_consumes (s str r : pystr) :
  scanstring s = Some (str, r) -> List.length r < List.length s.
Proof. apply (scanstring_consumes_below (List.length s)), le_n. Qed.

Lemma scan_sign_length (s : pystr) :
  List.length (snd (scan_sign s)) <= List.length s.
Proof.
  destruct s as [|c r]; [simpl; lia|].
  unfold scan_sign. destruct (N.eqb c 45); simpl; lia.
Qed.

Lemma scan_int_digits_consumes (s ds r : pystr) :
  scan_int_digits s = Some (ds, r) -> List.length r < List.length s.
Proof.
  destruct s as [|d t]; [discriminate|].
  unfold scan_int_digits.
  pose proof (drop_while_length is_digit t).
  destruct (N.eqb d 48); [|destruct (is_digit d); [|discriminate]];
    intros [= <- <-]; simpl; lia.
Qed.

Lemma scan_frac_length (s : pystr) :
  List.length (snd (scan_frac s)) <= List.length s.
Proof.
  destruct s as [|dot [|f r]]; try (simpl; lia).
  unfold scan_frac.
  pose proof (drop_while_length is_digit r).
  destruct (N.eqb dot 46 && is_digit f); simpl; lia.
Qed.

Lemma scan_exp_digits_consumes (negative : bool) (s : pystr) (v : Z) (r : pystr) :
  scan_exp_digits negative s = Some (v, r) -> List.length r < List.length s.
Proof.
  destruct s as [|d t]; [discriminate|].
  unfold scan_exp_digits.
  pose proof (drop_while_length is_digit t).
  destruct (is_digit d); [|discriminate].
  intros [= <- <-]. simpl. lia.
Qed.

Lemma scan_exp_length (s : pystr) :
  List.length (snd (scan_exp s)) <= List.length s.
Proof.
  destruct s as [|e t]; [simpl; lia|].
  unfold scan_exp.
  destruct (N.eqb e 101 || N.eqb e 69); [|simpl; lia].
  cbv zeta.
  destruct t as [|sg t']; [simpl; lia|].
  destruct (N.eqb sg 45); [|destruct (N.eqb sg 43)];
    match goal with
    | |- context [scan_exp_digits ?b ?x] =>
        destruct (scan_exp_digits b x) as [[v rest]|] eqn:E;
        [apply scan_exp_digits_consumes in E|]
    end; simpl in *; lia.
Qed.

Lemma match_number_consumes (s : pystr) (v : result json) (r : pystr) :
  match_number s = Some (v, r) -> List.length r < List.length s.
Proof.
  unfold match_number.
  pose proof (scan_sign_length s) as H1.
  destruct (scan_sign s) as [neg s1].
  destruct (scan_int_digits s1) as [[int_digits s2]|] eqn:E2; [|discriminate].
  apply scan_int_digits_consumes in E2.
  pose proof (scan_frac_length s2) as H3.
  destruct (scan_frac s2) as [frac s3].
  pose proof (scan_exp_length s3) as H4.
  destruct (scan_exp s3) as [ex s4].
  simpl in *.
  destruct frac, ex; try (intros [= <- <-]; lia).
  destruct (Nat.ltb int_max_str_digits (List.length int_digits));
    intros [= <- <-]; lia.
Qed.

Lemma scan_constant_consumes (frames : nat) (s : pystr) (v : json) (r : pystr) :
  scan_constant frames s = Ok (v, r) -> List.length r < List.length s.
Proof.
  unfold scan_constant, parse_constant. intros H.
  repeat match type of H with
         | context [strip_prefix ?p s] =>
             destruct (strip_prefix p s) eqn:E;
             [apply strip_prefix_length in E;
              try (destruct frames; [discriminate|]);
              injection H as <- <-; simpl in E; lia|clear E]
         | context [match_number s] =>
             destruct (match_number s) as [[[v'|e'] r']|] eqn:E;
             [apply match_number_consumes in E; injection H as <- <-; exact E
             |discriminate
             |clear E]
         end.
  discriminate.
Qed.

(** *** The step functions over scanners that consume *)

Lemma scan_once_step_consumes (frames : nat) (array : array_t) (object : object_t) :
  consumes array -> consumes object ->
  consumes (scan_once_step frames array object).
Proof.
  intros Ha Ho s v r H.
  destruct s as [|c t]; [discriminate|].
  unfold scan_once_step in H.
  pose proof (skip_ws_length t) as Hws.
  destruct (N.eqb c QUOTE).
  { destruct (scanstring t) as [[str r']|] eqn:E; [|discriminate].
    apply scanstring_consumes in E. injection H as <- <-. simpl. lia. }
  destruct (N.eqb c 123).
  { destruct (skip_ws t) as [|c1 r1]; [discriminate|].
    destruct (N.eqb c1 125); [injection H as <- <-; simpl in *; lia|].
    destruct (N.eqb c1 QUOTE); [|discriminate].
    destruct (object r1) as [[pairs r']|e] eqn:E; [|discriminate].
    apply Ho in E. injection H as <- <-. simpl in *. lia. }
  destruct (N.eqb c 91).
  { destruct (skip_ws t) as [|c1 r1]; [discriminate|].
    destruct (N.eqb c1 93); [injection H as <- <-; simpl in *; lia|].
    destruct (array (c1 :: r1)) as [[items r']|e] eqn:E; [|discriminate].
    apply Ha in E. injection H as <- <-. simpl in *. lia. }
  now apply scan_constant_consumes in H.
Qed.

Lemma JSONArray_step_consumes (once : once_t) (array : array_t) :
  consumes once -> consumes array -> consumes (JSONArray_step once array).
Proof.
  intros Hon Ha s vs r H. unfold JSONArray_step in H.
  destruct (once s) as [[v r0]|e] eqn:E; [|discriminate]. apply Hon in E.
  pose proof (skip_ws_length r0) as Hws.
  destruct (skip_ws r0) as [|c r']; [discriminate|].
  destruct (N.eqb c 93); [injection H as <- <-; simpl in *; lia|].
  destruct (N.eqb c 44); [|discriminate].
  pose proof (skip_ws_length r') as Hws'.
  destruct (array (skip_ws r')) as [[vs' r'']|e] eqn:E'; [|discriminate].
  apply Ha in E'. injection H as <- <-. simpl in *. lia.
Qed.

Lemma JSONObject_step_consumes (once : once_t) (object : object_t) :
  consumes once -> consumes object -> consumes (JSONObject_step once object).
Proof.
  intros Hon Ho s ps r H. unfold JSONObject_step in H.
  destruct (scanstring s) as [[key r0]|] eqn:E; [|discriminate].
  apply scanstring_consumes in E.
  pose proof (skip_ws_length r0) as Hws.
  destruct (skip_ws r0) as [|colon r1]; [discriminate|].
  destruct (N.eqb colon 58); [|discriminate].
  pose proof (skip_ws_length r1) as Hws1.
  destruct (once (skip_ws r1)) as [[v r2]|e] eqn:E1; [|discriminate].
  apply Hon in E1.
  pose proof (skip_ws_length r2) as Hws2.
  destruct (skip_ws r2) as [|c r3]; [discriminate|].
  destruct (N.eqb c 125); [injection H as <- <-; simpl in *; lia|].
  destruct (N.eqb c 44); [|discriminate].
  pose proof (skip_ws_length r3) as Hws3.
  destruct (skip_ws r3) as [|q r4]; [discriminate|].
  destruct (N.eqb q QUOTE); [|discriminate].
  destruct (object r4) as [[ps' r5]|e] eqn:E5; [|discriminate].
  apply Ho in E5. injection H as <- <-. simpl in *. lia.
Qed.

Lemma scanners_consume (fuel frames : nat) :
  consumes (scan_once fuel frames) /\ consumes (JSONArray fuel frames)
  /\ consumes (JSONObject fuel frames).
Proof.
  revert frames. induction fuel as [|fuel IH]; intros frames.
  - repeat split; intros s a r H; discriminate.
  - destruct (IH frames) as (H1 & H2 & H3).
    split; [|split].
    + intros s a r H. cbn [scan_once] in H.
      destruct (enter frames s) as [inside|]; [|discriminate].
      destruct (IH inside) as (_ & I2 & I3).
      exact (scan_once_step_consumes _ _ _ I2 I3 s a r H).
    + exact (JSONArray_step_consumes _ _ H1 H2).
    + exact (JSONObject_step_consumes _ _ H1 H3).
Qed.

(** *** The step functions do not look at what a scanner does on texts
    they never hand to it *)

Lemma scan_once_step_ext (frames : nat) (array array' : array_t)
    (object object' : object_t) (s : pystr) :
  (forall x, List.length x < List.length s -> array x = array' x) ->
  (forall x, List.length x < List.length s -> object x = object' x) ->
  scan_once_step frames array object s = scan_once_step frames array' object' s.
Proof.
  intros Ha Ho. destruct s as [|c t]; [reflexivity|].
  unfold scan_once_step.
  pose proof (skip_ws_length t) as Hws.
  destruct (skip_ws t) as [|c1 r1]; [reflexivity|].
  rewrite (Ha (c1 :: r1)) by (simpl in *; lia).
  rewrite (Ho r1) by (simpl in *; lia).
  reflexivity.
Qed.

Lemma JSONArray_step_ext (once once' : once_t) (array array' : array_t)
    (s : pystr) :
  consumes once' ->
  once s = once' s ->
  (forall x, List.length x + 2 <= List.length s -> array x = array' x) ->
  JSONArray_step once array s = JSONArray_step once' array' s.
Proof.
  intros Hc Hon Ha. unfold JSONArray_step. rewrite Hon.
  destruct (once' s) as [[v r0]|e] eqn:E; [|reflexivity]. apply Hc in E.
  pose proof (skip_ws_length r0) as Hws.
  destruct (skip_ws r0) as [|c r']; [reflexivity|].
  pose proof (skip_ws_length r') as Hws'.
  rewrite (Ha (skip_ws r')) by (simpl in *; lia).
  reflexivity.
Qed.

Lemma JSONObject_step_ext (once once' : once_t) (object object' : object_t)
    (s : pystr) :
  consumes once' ->
  (forall x, List.length x + 2 <= List.length s -> once x = once' x) ->
  (forall x, List.length x + 2 <= List.length s -> object x = object' x) ->
  JSONObject_step once object s = JSONObject_step once' object' s.
Proof.
  intros Hc Hon Ho. unfold JSONObject_step.
  destruct (scanstring s) as [[key r0]|] eqn:E; [|reflexivity].
  apply scanstring_consumes in E.
  pose proof (skip_ws_length r0) as Hws.
  destruct (skip_ws r0) as [|colon r1]; [reflexivity|].
  pose proof (skip_ws_length r1) as Hws1.
  rewrite (Hon (skip_ws r1)) by (simpl in *; lia).
  destruct (once' (skip_ws r1)) as [[v r2]|e] eqn:E1; [|reflexivity].
  apply Hc in E1.
  pose proof (skip_ws_length r2) as Hws2.
  destruct (skip_ws r2) as [|c r3]; [reflexivity|].
  pose proof (skip_ws_length r3) as Hws3.
  destruct (skip_ws r3) as [|q r4]; [reflexivity|].
  rewrite (Ho r4) by (simpl in *; lia).
  reflexivity.
Qed.

(** One more unit of fuel changes nothing once the fuel is twice the
    length of the text, whatever the frames. *)
Lemma fuel_step (fuel : nat) :
  (forall frames s, 2 * List.length s + 1 <= fuel ->
                    scan_once (S fuel) frames s = scan_once fuel frames s)
  /\ (forall frames s, 2 * List.length s + 2 <= fuel ->
                       JSONArray (S fuel) frames s = JSONArray fuel frames s)
  /\ (forall frames s, 2 * List.length s + 2 <= fuel ->
                       JSONObject (S fuel) frames s = JSONObject fuel frames s).
Proof.
  induction fuel as [|fuel (IH1 & IH2 & IH3)].
  - repeat split; intros frames s H; lia.
  - split; [|split]; intros frames s H.
    + cbn [scan_once]. destruct (enter frames s) as [inside|]; [|reflexivity].
      change (scan_once_step inside (JSONArray (S fuel) inside)
                              (JSONObject (S fuel) inside) s
              = scan_once_step inside (JSONArray fuel inside)
                               (JSONObject fuel inside) s).
      apply scan_once_step_ext; intros x Hx; [apply IH2 | apply IH3]; lia.
    + destruct (scanners_consume fuel frames) as (C1 & _ & _).
      change (JSONArray_step (scan_once (S fuel) frames) (JSONArray (S fuel) frames) s
              = JSONArray_step (scan_once fuel frames) (JSONArray fuel frames) s).
      apply JSONArray_step_ext; [exact C1 | apply IH1; lia |].
      intros x Hx. apply IH2. lia.
    + destruct (scanners_consume fuel frames) as (C1 & _ & _).
      change (JSONObject_step (scan_once (S fuel) frames) (JSONObject (S fuel) frames) s
              = JSONObject_step (scan_once fuel frames) (JSONObject fuel frames) s).
      apply JSONObject_step_ext; [exact C1 | |]; intros x Hx;
        [apply IH1 | apply IH3]; lia.
Qed.

(** The fuel of [json_decode] is enough: more fuel gives the same result,
    be it a value or an error. *)
Lemma scan_once_fuel (frames : nat) (s : pystr) (extra : nat) :
  scan_once (2 * List.length s + 2 + extra) frames (skip_ws s)
  = scan_once (2 * List.length s + 2) frames (skip_ws s).
Proof.
  induction extra as [|extra IH]; [now rewrite Nat.add_0_r|].
  rewrite Nat.add_succ_r, <- IH.
  apply (proj1 (fuel_step _)).
  pose proof (skip_ws_length s). lia.
Qed.

End JsonFacts.

(** ** The [re.sub] calls *)

Module RegexFacts.
Import PyStrFacts.

Lemma sub_number_prefix_unmatched (t : pystr) :
  match_number_prefix t = None -> sub_number_prefix t = t.
Proof. unfold sub_number_prefix. now intros ->. Qed.

(** A match is never empty: what is left is strictly shorter. *)
Lemma match_number_prefix_shorter (t rest : pystr) :
  match_number_prefix t = Some rest -> List.length rest < List.length t.
Proof.
  destruct t as [|c r]; [discriminate|].
  unfold match_number_prefix.
  destruct (is_digit c) eqn:Ec; [|discriminate].
  simpl drop_while. rewrite Ec.
  pose proof (drop_while_length is_digit r) as Hd.
  destruct (drop_while is_digit r) as [|d u] eqn:Eu; [discriminate|].
  destruct (is_sep d); [|discriminate].
  intros [= <-].
  pose proof (drop_while_length is_sep u) as Hs.
  cbn [List.length] in *. lia.
Qed.

(** A text that does not start with a digit is only trimmed. *)
Lemma clean_step_no_digit (c : pychar) (r : pystr) :
  is_digit c = false -> clean_step (c :: r) = strip (c :: r).
Proof.
  intros H. unfold clean_step, sub_number_prefix, match_number_prefix.
  now rewrite H.
Qed.

Lemma clean_step_fixed_when_unmatched (s : pystr) :
  match_number_prefix (clean_step s) = None ->
  clean_step (clean_step s) = clean_step s.
Proof.
  intros H. unfold clean_step at 1.
  rewrite (sub_number_prefix_unmatched _ H).
  unfold clean_step. apply strip_idempotent.
Qed.

Lemma clean_step_moves_when_matched (s rest : pystr) :
  match_number_prefix (clean_step s) = Some rest ->
  clean_step (clean_step s) <> clean_step s.
Proof.
  intros H E.
  pose proof (match_number_prefix_shorter _ _ H) as Hlt.
  unfold clean_step at 1 in E. unfold sub_number_prefix in E.
  rewrite H in E.
  pose proof (strip_length rest) as Hle.
  rewrite E in Hle. lia.
Qed.

End RegexFacts.

(** C6 (as amended).  Cleaning an instruction twice equals cleaning it once
    exactly when the cleaned text does not itself start with a number
    prefix (digits followed by a dot, a closing parenthesis or white
    space); a text that does not start with a digit is only trimmed; and
    the five sample texts are mapped as the specification says. *)
Theorem clean_step_idempotent_on_clean_text :
  (forall s : pystr,
      match_number_prefix (clean_step s) = None <->
      clean_step (clean_step s) = clean_step s)
  /\ (forall (c : pychar) (r : pystr),
         is_digit c = false -> clean_step (c :: r) = strip (c :: r))
  /\ clean_step (lit "Preheat the oven") = lit "Preheat the oven"
  /\ clean_step (lit "1. Preheat the oven") = lit "Preheat the oven"
  /\ clean_step (lit "2) Mix well") = lit "Mix well"
  /\ clean_step (lit "a) Mix well") = lit "a) Mix well"
  /\ clean_step (lit "- Mix well") = lit "- Mix well".
Proof.
  split; [|split; [exact RegexFacts.clean_step_no_digit | repeat split; reflexivity]].
  intros s. split.
  - apply RegexFacts.clean_step_fixed_when_unmatched.
  - intros E. destruct (match_number_prefix (clean_step s)) as [rest|] eqn:H;
      [|reflexivity].
    exfalso. exact (RegexFacts.clean_step_moves_when_matched s rest H E).
Qed.

(** The amended C6 at the text [1. Preheat the oven]. *)
Lemma clean_step_idempotent_on_clean_text_witness :
  match_number_prefix (clean_step (lit "1. Preheat the oven")) = None
  /\ clean_step (clean_step (lit "1. Preheat the oven"))
     = clean_step (lit "1. Preheat the oven").
Proof.
  split; [reflexivity|].
  apply (proj1 clean_step_idempotent_on_clean_text (lit "1. Preheat the oven")).
  reflexivity.
Defined.

(** C6 as stated fails: an instruction numbered twice is cleaned further
    by a second application. *)
Lemma clean_step_not_idempotent :
  clean_step (lit "1. 2. Mix well") = lit "2. Mix well"
  /\ clean_step (clean_step (lit "1. 2. Mix well")) = lit "Mix well"
  /\ clean_step (clean_step (lit "1. 2. Mix well"))
     <> clean_step (lit "1. 2. Mix well").
Proof.
  repeat split; try reflexivity.
  vm_compute. discriminate.
Qed.

(** C9.  The download name keeps the title's length and every letter and
    digit of it, puts an underscore for every other character, and ends in
    [.pdf]; the sample title gives the sample name. *)
Theorem download_file_name_spec :
  (forall title : pystr,
      exists stem : pystr,
        download_file_name title = stem ++ lit ".pdf"
        /\ List.length stem = List.length title
        /\ (forall i : nat,
               nth_error stem i =
               option_map (fun c => if is_alnum c then c else underscore)
                          (nth_error title i))
        /\ Forall (fun c => is_alnum c = true \/ c = underscore) stem)
  /\ download_file_name (lit "Spicy Garlic Shrimp!")
     = lit "Spicy_Garlic_Shrimp_.pdf".
Proof.
  split; [|reflexivity].
  intros title. exists (sub_non_alnum title).
  unfold download_file_name, sub_non_alnum.
  split; [reflexivity|]. split; [apply length_map|]. split.
  - intros i. apply nth_error_map.
  - apply Forall_forall. intros c Hin.
    apply in_map_iff in Hin as (x & <- & _).
    destruct (is_alnum x) eqn:E; [now left | now right].
Qed.

(** ** Code fences *)

Module FenceFacts.
Import PyStrFacts.

Lemma fence_ticks : fence = [tick; tick; tick].
Proof. reflexivity. Qed.

Lemma fence_json_ticks : fence_json = fence ++ lit "json".
Proof. reflexivity. Qed.

(** Passing over the rest of an occurrence is dropping that many
    characters. *)
Lemma replace_from_skip (old new : pystr) (k : nat) (s : pystr) :
  replace_from old new k s = replace_from old new 0 (skipn k s).
Proof.
  revert s. induction k as [|k IH]; intros s; [reflexivity|].
  destruct s as [|c r]; [reflexivity|].
  simpl skipn. rewrite <- IH. reflexivity.
Qed.

Lemma replace_fence_hit (t : pystr) :
  replace fence [] (fence ++ t) = replace fence [] t.
Proof.
  unfold replace. rewrite fence_ticks.
  change (replace_from [tick; tick; tick] [] 0 ([tick; tick; tick] ++ t))
    with (replace_from [tick; tick; tick] [] 2 ([tick; tick] ++ t)).
  now rewrite replace_from_skip.
Qed.

Lemma replace_fence_miss (c : pychar) (r : pystr) :
  starts_with fence (c :: r) = false ->
  replace fence [] (c :: r) = c :: replace fence [] r.
Proof.
  intros H. unfold replace.
  change (replace_from fence [] 0 (c :: r))
    with (if starts_with fence (c :: r)
          then [] ++ replace_from fence [] (List.length fence - 1) r
          else c :: replace_from fence [] 0 r).
  now rewrite H.
Qed.

Ltac empty_text :=
  split; [intros [? ?]; discriminate|];
  split; [intros [? ?]; discriminate|]; reflexivity.

(** What is left after [.replace] starts with one or two backticks only if
    the text did, and holds no fence. *)
Lemma replace_fence_invariant (n : nat) :
  forall s : pystr,
    List.length s <= n ->
    ((exists t, replace fence [] s = tick :: t) -> exists r, s = tick :: r)
    /\ ((exists t, replace fence [] s = tick :: tick :: t) ->
        exists r, s = tick :: tick :: r)
    /\ occurs fence (replace fence [] s) = false.
Proof.
  induction n as [|n IH]; intros s Hlen.
  - destruct s; [|simpl in Hlen; lia]. empty_text.
  - destruct s as [|c r]; [empty_text|].
    destruct (starts_with fence (c :: r)) eqn:E.
    + apply starts_with_iff in E as [t Ht]. rewrite Ht, replace_fence_hit.
      rewrite fence_ticks. split; [|split].
      * intros _. now exists ([tick; tick] ++ t).
      * intros _. now exists ([tick] ++ t).
      * apply IH. rewrite fence_ticks in Ht.
        apply (f_equal (@List.length _)) in Ht. simpl in Ht, Hlen. lia.
    + rewrite (replace_fence_miss c r E).
      assert (Hr : List.length r <= n) by (simpl in Hlen; lia).
      destruct (IH r Hr) as (P1 & P2 & P3).
      split; [|split].
      * intros [t [= -> _]]. now exists r.
      * intros [t [= -> Ht]].
        destruct P1 as [r2 ->]; [now exists t|]. now exists r2.
      * rewrite occurs_cons, P3, orb_false_r.
        destruct (starts_with fence (c :: replace fence [] r)) eqn:F;
          [|reflexivity].
        apply starts_with_iff in F as [t Ht]. rewrite fence_ticks in Ht.
        injection Ht as -> Ht.
        destruct P2 as [r2 ->]; [now exists t|].
        rewrite fence_ticks in E. cbv in E. discriminate.
Qed.

Lemma replace_fence_clean (s : pystr) :
  occurs fence (replace fence [] s) = false.
Proof. exact (proj2 (proj2 (replace_fence_invariant (List.length s) s (le_n _)))). Qed.

Lemma strip_fences_clean (content : pystr) :
  occurs fence (strip_fences content) = false.
Proof.
  unfold strip_fences.
  destruct (occurs fence (strip _)) eqn:E; [|reflexivity].
  apply occurs_strip in E. now rewrite replace_fence_clean in E.
Qed.

End FenceFacts.

(** C10 (as amended).  Fence stripping removes the fences wherever they
    stand: no [```] and no [```json] is left anywhere in the text handed to
    [json.loads]; so a response that holds a fence, be it inside a string
    literal of its payload, never reaches the parser unchanged.  In the
    sample response the fence inside the literal is gone and the decoded
    value is another one. *)
Theorem strip_fences_removes_every_fence {py : interpreter} :
  (forall content : pystr,
      occurs fence (strip_fences content) = false
      /\ occurs fence_json (strip_fences content) = false
      /\ (occurs fence content = true -> strip_fences content <> content))
  /\ strip_fences (qlit "{'title': 'a```b'}") = qlit "{'title': 'ab'}"
  /\ json_loads (qlit "{'title': 'a```b'}")
     = Some (JObj [(lit "title", JStr (lit "a```b"))])
  /\ json_loads (strip_fences (qlit "{'title': 'a```b'}"))
     = Some (JObj [(lit "title", JStr (lit "ab"))])
  /\ strip_fences (qlit "```json {'title': 'a```jsonb'} ```")
     = qlit "{'title': 'ab'}".
Proof.
  split; [|split; [|split; [|split]]].
  - intros content.
    pose proof (FenceFacts.strip_fences_clean content) as H.
    split; [exact H|]. split.
    + destruct (occurs fence_json (strip_fences content)) eqn:E; [|reflexivity].
      rewrite FenceFacts.fence_json_ticks in E.
      apply PyStrFacts.occurs_prefix in E. now rewrite H in E.
    + intros Hin Heq. rewrite Heq in H. now rewrite H in Hin.
  - reflexivity.
  - vm_compute. reflexivity.
  - vm_compute. reflexivity.
  - reflexivity.
Qed.

(** The amended C10 at a response whose title holds a fence. *)
Lemma strip_fences_removes_every_fence_witness :
  occurs fence (qlit "{'title': 'a```b'}") = true
  /\ strip_fences (qlit "{'title': 'a```b'}") <> qlit "{'title': 'a```b'}".
Proof.
  split; [reflexivity|].
  apply (proj1 strip_fences_removes_every_fence (qlit "{'title': 'a```b'}")).
  reflexivity.
Defined.

(** C10 as stated fails in its last part: a fence inside a string literal
    that a later duplicate key overwrites is removed from the text, and
    the payload still decodes, to the value it had with the fence. *)
Lemma strip_fences_keeps_value_under_duplicate_key :
  occurs fence (qlit "{'title': '```', 'title': 'Soup'}") = true
  /\ strip_fences (qlit "{'title': '```', 'title': 'Soup'}")
     = qlit "{'title': '', 'title': 'Soup'}"
  /\ json_loads (qlit "{'title': '```', 'title': 'Soup'}")
     = Some (JObj [(lit "title", JStr (lit "Soup"))])
  /\ json_loads (strip_fences (qlit "{'title': '```', 'title': 'Soup'}"))
     = json_loads (qlit "{'title': '```', 'title': 'Soup'}").
Proof.
  repeat split; vm_compute; reflexivity.
Qed.

(** ** The text-generation tools *)

Module ToolFacts.

Section WithInterpreter.
Context {py : interpreter}.

(** [json_loads] is [loads] without the exception. *)
Lemma loads_some (s : pystr) (v : json) :
  json_loads s = Some v <-> loads s = Ok v.
Proof.
  unfold json_loads, loads. destruct (json_decode frames_left s); split; congruence.
Qed.

Lemma loads_none (s : pystr) :
  json_loads s = None <-> exists e, loads s = Raise e.
Proof.
  unfold json_loads, loads. destruct (json_decode frames_left s) as [v|e]; split.
  - discriminate.
  - intros [e H]. discriminate.
  - intros _. now exists e.
  - reflexivity.
Qed.

Lemma invoke_and_check_ok (llm : llm_service) (prompt text : pystr) :
  invoke_and_check llm prompt = Ok text ->
  exists content v,
    llm prompt = Ok content /\ text = strip_fences content
    /\ json_loads text = Some v.
Proof.
  unfold invoke_and_check, bind.
  destruct (llm prompt) as [content|e]; [|discriminate].
  destruct (loads (strip_fences content)) as [v|e] eqn:E; [|discriminate].
  intros [= <-]. exists content, v. now rewrite loads_some.
Qed.

Lemma invoke_and_check_fails (llm : llm_service) (prompt : pystr) :
  generation_fails llm prompt -> exists e, invoke_and_check llm prompt = Raise e.
Proof.
  unfold invoke_and_check, bind.
  intros [[e ->] | (content & -> & H)]; [eauto|].
  apply loads_none in H as [e ->]. eauto.
Qed.

Lemma invoke_and_check_passes (llm : llm_service) (prompt content : pystr) (v : json) :
  llm prompt = Ok content -> json_loads (strip_fences content) = Some v ->
  invoke_and_check llm prompt = Ok (strip_fences content).
Proof.
  unfold invoke_and_check, bind. intros -> H.
  apply loads_some in H. now rewrite H.
Qed.

Lemma dumps_display_any_formatter (float_repr : pyfloat -> pystr) :
  json_dumps float_repr sentinel_recipe = dumps_display sentinel_recipe
  /\ json_dumps float_repr sentinel_nutrition = dumps_display sentinel_nutrition.
Proof. split; reflexivity. Qed.

Lemma sentinel_recipe_text :
  dumps_display sentinel_recipe =
  qlit "{'title': 'Failed to generate recipe', 'description': 'Please try again.', 'ingredients': [], 'instructions': [], 'image_keywords': ''}".
Proof. reflexivity. Qed.

Lemma sentinel_nutrition_text :
  dumps_display sentinel_nutrition =
  qlit "{'calories': 0, 'protein_grams': 0, 'fat_grams': 0, 'carbs_grams': 0, 'summary': 'Nutritional info unavailable.'}".
Proof. reflexivity. Qed.

Lemma sentinel_recipe_loads :
  loads (dumps_display sentinel_recipe) = Ok sentinel_recipe.
Proof. vm_compute. reflexivity. Qed.

Lemma sentinel_nutrition_loads :
  loads (dumps_display sentinel_nutrition) = Ok sentinel_nutrition.
Proof. vm_compute. reflexivity. Qed.

(** Whatever the service does, the text [create_recipe] returns can be
    loaded by its caller. *)
Lemma create_recipe_loads (llm : llm_service) (ingredients dietary_needs : pystr) :
  exists v, loads (fst (create_recipe llm ingredients dietary_needs)) = Ok v.
Proof.
  unfold create_recipe.
  destruct (invoke_and_check llm _) as [text|e] eqn:E; simpl.
  - apply invoke_and_check_ok in E as (content & v & _ & _ & Hv).
    exists v. now apply loads_some.
  - exists sentinel_recipe. apply sentinel_recipe_loads.
Qed.

Lemma get_nutritional_info_loads (llm : llm_service) (recipe_text : pystr) :
  exists v, loads (fst (get_nutritional_info llm recipe_text)) = Ok v.
Proof.
  unfold get_nutritional_info.
  destruct (invoke_and_check llm _) as [text|e] eqn:E; simpl.
  - apply invoke_and_check_ok in E as (content & v & _ & _ & Hv).
    exists v. now apply loads_some.
  - exists sentinel_nutrition. apply sentinel_nutrition_loads.
Qed.

End WithInterpreter.

End ToolFacts.
Import ToolFacts.

(** C1 (the code falls short of it).  When the service answers the JSON
    object with no key at all, [create_recipe] hands that text back as it
    is, with no notice: what its caller loads is a dictionary without any
    of the five fields, and not the sentinel record. *)
Theorem create_recipe_returns_shapeless_json {py : interpreter} :
  forall ingredients dietary_needs : pystr,
    create_recipe (fun _ => Ok (qlit "{}")) ingredients dietary_needs
    = (qlit "{}", [])
    /\ loads (qlit "{}") = Ok (JObj [])
    /\ has_fields recipe_fields (JObj []) = false
    /\ getitem (JObj []) (lit "title") = Raise (KeyError (lit "title"))
    /\ JObj [] <> sentinel_recipe.
Proof.
  intros ingredients dietary_needs.
  split; [reflexivity|]. split; [reflexivity|]. split; [reflexivity|].
  split; [reflexivity|]. discriminate.
Qed.

(** C4 (as amended).  When the service raises, or answers what is not JSON
    once the fences are stripped, [create_recipe] returns exactly the text
    of the sentinel record, whose description is the text
    [Please try again.] and not the empty text. *)
Theorem create_recipe_sentinel_on_failure {py : interpreter}
    (llm : llm_service) (ingredients dietary_needs : pystr) :
  generation_fails llm (recipe_prompt ingredients dietary_needs) ->
  fst (create_recipe llm ingredients dietary_needs)
  = qlit "{'title': 'Failed to generate recipe', 'description': 'Please try again.', 'ingredients': [], 'instructions': [], 'image_keywords': ''}"
  /\ loads (fst (create_recipe llm ingredients dietary_needs)) = Ok sentinel_recipe
  /\ getitem sentinel_recipe (lit "title") = Ok (JStr (lit "Failed to generate recipe"))
  /\ getitem sentinel_recipe (lit "description") = Ok (JStr (lit "Please try again."))
  /\ getitem sentinel_recipe (lit "ingredients") = Ok (JArr [])
  /\ getitem sentinel_recipe (lit "instructions") = Ok (JArr [])
  /\ getitem sentinel_recipe (lit "image_keywords") = Ok (JStr []).
Proof.
  intros H. apply invoke_and_check_fails in H as [e He].
  unfold create_recipe. rewrite He. simpl fst.
  split; [exact sentinel_recipe_text|].
  split; [exact sentinel_recipe_loads|].
  repeat split.
Qed.

(** The amended C4 for a service that raises. *)
Lemma create_recipe_sentinel_on_failure_witness :
  generation_fails (fun _ => Raise ServiceError)
                   (recipe_prompt (lit "eggs") (lit "None"))
  /\ loads (fst (create_recipe (fun _ => Raise ServiceError)
                               (lit "eggs") (lit "None")))
     = Ok sentinel_recipe.
Proof.
  assert (H : generation_fails (fun _ => Raise ServiceError)
                               (recipe_prompt (lit "eggs") (lit "None")))
    by (left; exists ServiceError; reflexivity).
  split; [exact H|].
  exact (proj1 (proj2 (create_recipe_sentinel_on_failure
                         (fun _ => Raise ServiceError)
                         (lit "eggs") (lit "None") H))).
Defined.

(** C4 as stated fails in its last part: the record returned when the
    service raises has a description, and it is not empty. *)
Lemma sentinel_description_not_empty :
  exists v : json,
    loads (fst (create_recipe (fun _ => Raise ServiceError)
                              (lit "eggs") (lit "None"))) = Ok v
    /\ getitem v (lit "description") = Ok (JStr (lit "Please try again."))
    /\ getitem v (lit "description") <> Ok (JStr []).
Proof.
  exists sentinel_recipe.
  split; [vm_compute; reflexivity|]. split; [reflexivity|].
  vm_compute. discriminate.
Qed.

(** What holds of the sentinel policy of [get_nutritional_info]: it never
    raises and returns a text its caller can load; on a failure (the
    service raises, or [json.loads] raises on its answer once the fences
    are stripped) the text is exactly the sentinel's; an answer that
    [json.loads] accepts is returned as it is; and the recipe text matters
    through the service's answer only. *)
Lemma get_nutritional_info_sentinel_policy {py : interpreter}
    (llm : llm_service) (recipe_text : pystr) :
  (exists v, loads (fst (get_nutritional_info llm recipe_text)) = Ok v)
  /\ (generation_fails llm (nutrition_prompt recipe_text) ->
      fst (get_nutritional_info llm recipe_text)
      = qlit "{'calories': 0, 'protein_grams': 0, 'fat_grams': 0, 'carbs_grams': 0, 'summary': 'Nutritional info unavailable.'}"
      /\ loads (fst (get_nutritional_info llm recipe_text)) = Ok sentinel_nutrition
      /\ has_fields nutrition_fields sentinel_nutrition = true)
  /\ (forall (content : pystr) (v : json),
         llm (nutrition_prompt recipe_text) = Ok content ->
         json_loads (strip_fences content) = Some v ->
         loads (fst (get_nutritional_info llm recipe_text)) = Ok v)
  /\ (forall other : pystr,
         llm (nutrition_prompt other) = llm (nutrition_prompt recipe_text) ->
         get_nutritional_info llm other = get_nutritional_info llm recipe_text).
Proof.
  split; [apply get_nutritional_info_loads|]. split; [|split].
  - intros H. apply invoke_and_check_fails in H as [e He].
    unfold get_nutritional_info. rewrite He. simpl fst.
    split; [exact sentinel_nutrition_text|].
    split; [exact sentinel_nutrition_loads | reflexivity].
  - intros content v Hc Hv.
    unfold get_nutritional_info.
    rewrite (invoke_and_check_passes llm _ content v Hc Hv). simpl fst.
    now apply loads_some.
  - intros other H. unfold get_nutritional_info, invoke_and_check.
    now rewrite H.
Qed.

(** C7 (the code falls short of it).  When the service answers the JSON
    object with no key at all, [get_nutritional_info] hands that text back
    as it is, with no notice, whatever the recipe text: what its caller
    loads is a dictionary with none of the five values the docstring
    names, and not the sentinel record; the lookups of the renderer
    (lines 172-174) and of the page (lines 245-249) raise [KeyError] on
    it. *)
Theorem get_nutritional_info_returns_shapeless_json {py : interpreter} :
  forall recipe_text : pystr,
    get_nutritional_info (fun _ => Ok (qlit "{}")) recipe_text = (qlit "{}", [])
    /\ loads (qlit "{}") = Ok (JObj [])
    /\ has_fields nutrition_fields (JObj []) = false
    /\ getitem (JObj []) (lit "summary") = Raise (KeyError (lit "summary"))
    /\ getitem (JObj []) (lit "calories") = Raise (KeyError (lit "calories"))
    /\ JObj [] <> sentinel_nutrition.
Proof.
  intros recipe_text.
  split; [reflexivity|]. split; [reflexivity|]. split; [reflexivity|].
  split; [reflexivity|]. split; [reflexivity|]. discriminate.
Qed.

(** ** The image search *)

Module ImageFacts.

Lemma raise_for_status_ok (r : response) :
  raise_for_status r = Ok tt <-> ~ (400 <= status_code r < 600)%Z.
Proof.
  unfold raise_for_status.
  destruct (Z.leb_spec 400 (status_code r)) as [L|L],
           (Z.ltb_spec (status_code r) 600) as [U|U];
    simpl; split; intros Hx; try discriminate; try reflexivity; lia.
Qed.

Lemma raise_for_status_error (r : response) :
  (400 <= status_code r < 600)%Z ->
  raise_for_status r = Raise (HTTPError (status_code r)).
Proof.
  intros [H1 H2]. unfold raise_for_status.
  apply Z.leb_le in H1. apply Z.ltb_lt in H2. now rewrite H1, H2.
Qed.

Section WithInterpreter.
Context {py : interpreter}.

Lemma search_photo_success (get : transport) (req : request) (original : json) :
  success_with_results get req original -> search_photo get req = Ok original.
Proof.
  intros (resp & data & first & src & rest
          & Hget & Hst & Hdata & Hphotos & Hsrc & Horig).
  unfold search_photo, bind.
  rewrite Hget. apply raise_for_status_ok in Hst. rewrite Hst.
  rewrite Hdata, Hphotos.
  cbn [truthy getitem0]. now rewrite Hsrc.
Qed.

(** Whatever [search_photo] returns is the fallback or the photo of a
    successful search. *)
Lemma search_photo_cases (get : transport) (req : request) (v : json) :
  search_photo get req = Ok v ->
  v = JStr fallback_image \/ success_with_results get req v.
Proof.
  unfold search_photo, bind.
  destruct (get req) as [resp|e] eqn:Hget; [|discriminate].
  destruct (raise_for_status resp) as [[]|e] eqn:Hst; [|discriminate].
  destruct (response_json resp) as [data|e] eqn:Hdata; [|discriminate].
  destruct (getitem data (lit "photos")) as [photos|e] eqn:Hphotos; [|discriminate].
  destruct (truthy photos) eqn:Ht.
  - destruct (getitem0 photos) as [first|e] eqn:Hfirst; [|discriminate].
    destruct (getitem first (lit "src")) as [src|e] eqn:Hsrc; [|discriminate].
    intros Horig. right.
    destruct photos as [| | | |s|items|members]; try discriminate.
    + (* a text has no [src] *)
      destruct s; [discriminate|]. injection Hfirst as <-. discriminate.
    + destruct items as [|x rest]; [discriminate|]. injection Hfirst as ->.
      exists resp, data, first, src, rest.
      apply raise_for_status_ok in Hst. now repeat split.
  - intros [= <-]. now left.
Qed.

End WithInterpreter.

End ImageFacts.
Import ImageFacts.

(** C2 (as amended).  [generate_recipe_image] returns a value in every
    case and raises nothing.  Without a credential it returns the fallback
    URL and sends no request.  With one it sends exactly one search
    request; it returns the fallback URL when the transport raises, when
    the status is 4xx or 5xx, when [response.json()] raises, when [photos]
    is an empty array, and in every other outcome but a search with
    results; after a search with results it returns the first photo's
    [src.original] as the service sent it.  The fallback URL is not
    empty. *)
Theorem generate_recipe_image_total {py : interpreter}
    (PEXELS_API_KEY : option pystr) (get : transport) (image_keywords : pystr) :
  let out := generate_recipe_image PEXELS_API_KEY get image_keywords in
  (key_missing PEXELS_API_KEY = true -> out = (JStr fallback_image, []))
  /\ (forall key : pystr,
         PEXELS_API_KEY = Some key -> key <> [] ->
         let req := search_request key image_keywords in
         snd out = [req]
         /\ (forall e, get req = Raise e -> fst out = JStr fallback_image)
         /\ (forall resp, get req = Ok resp ->
                          (400 <= status_code resp < 600)%Z ->
                          fst out = JStr fallback_image)
         /\ (forall resp e,
                get req = Ok resp -> response_json resp = Raise e ->
                fst out = JStr fallback_image)
         /\ (forall resp data,
                get req = Ok resp -> response_json resp = Ok data ->
                getitem data (lit "photos") = Ok (JArr []) ->
                fst out = JStr fallback_image)
         /\ (forall original,
                success_with_results get req original -> fst out = original)
         /\ (fst out = JStr fallback_image
             \/ success_with_results get req (fst out)))
  /\ fallback_image <> [].
Proof.
  intros out. subst out. split; [|split].
  - intros H. unfold generate_recipe_image. now rewrite H.
  - intros key -> Hkey req.
    unfold generate_recipe_image.
    destruct key as [|k0 key']; [contradiction|].
    cbn [key_missing]. cbv iota. fold req.
    split; [destruct (search_photo get req); reflexivity|].
    split; [|split; [|split; [|split; [|split]]]].
    + intros e He. unfold search_photo, bind. rewrite He. reflexivity.
    + intros resp Hget Hst. unfold search_photo, bind. rewrite Hget.
      rewrite (raise_for_status_error resp Hst). reflexivity.
    + intros resp e Hget Hjson. unfold search_photo, bind. rewrite Hget.
      destruct (raise_for_status resp) as [[]|e']; [|reflexivity].
      rewrite Hjson. reflexivity.
    + intros resp data Hget Hdata Hphotos.
      unfold search_photo, bind. rewrite Hget.
      destruct (raise_for_status resp) as [[]|e]; [|reflexivity].
      rewrite Hdata, Hphotos. reflexivity.
    + intros original H. now rewrite (search_photo_success get req original H).
    + destruct (search_photo get req) as [v|e] eqn:E; [|now left].
      simpl fst. destruct (search_photo_cases get req v E); [now left|now right].
  - vm_compute. discriminate.
Qed.

(** The amended C2 on three runs: without a credential; with one and a
    search that answers 200 with a photo; with one and a search that
    answers 503. *)
Lemma generate_recipe_image_total_witness :
  (key_missing None = true
   /\ generate_recipe_image None (fun _ => Raise RequestException) (lit "pasta")
      = (JStr fallback_image, []))
  /\ (success_with_results
        (fun _ => Ok {| status_code := 200;
                        payload := Ok (qlit "{'photos': [{'src': {'original': 'https://example.org/p.jpg'}}]}") |})
        (search_request (lit "key") (lit "pasta"))
        (JStr (lit "https://example.org/p.jpg"))
      /\ generate_recipe_image (Some (lit "key"))
           (fun _ => Ok {| status_code := 200;
                           payload := Ok (qlit "{'photos': [{'src': {'original': 'https://example.org/p.jpg'}}]}") |})
           (lit "pasta")
         = (JStr (lit "https://example.org/p.jpg"),
            [search_request (lit "key") (lit "pasta")]))
  /\ ((400 <= 503 < 600)%Z
      /\ fst (generate_recipe_image (Some (lit "key"))
                (fun _ => Ok {| status_code := 503; payload := Ok [] |})
                (lit "pasta"))
         = JStr fallback_image).
Proof.
  split; [|split].
  - split; [reflexivity|].
    apply (proj1 (generate_recipe_image_total
                    None (fun _ => Raise RequestException) (lit "pasta"))).
    reflexivity.
  - assert (H : success_with_results
                  (fun _ => Ok {| status_code := 200;
                                  payload := Ok (qlit "{'photos': [{'src': {'original': 'https://example.org/p.jpg'}}]}") |})
                  (search_request (lit "key") (lit "pasta"))
                  (JStr (lit "https://example.org/p.jpg"))).
    { eexists _, _, _, _, _.
      split; [reflexivity|]. split; [cbn; lia|].
      split; [vm_compute; reflexivity|].
      split; [reflexivity|]. split; reflexivity. }
    split; [exact H|].
    pose proof (proj1 (proj2 (generate_recipe_image_total
                                (Some (lit "key"))
                                (fun _ => Ok {| status_code := 200;
                                                payload := Ok (qlit "{'photos': [{'src': {'original': 'https://example.org/p.jpg'}}]}") |})
                                (lit "pasta")))
                      (lit "key") eq_refl ltac:(discriminate)) as (Hreq & _ & _ & _ & _ & Hok & _).
    specialize (Hok _ H).
    destruct (generate_recipe_image _ _ _) as [v reqs].
    cbn [fst snd] in *. now subst.
  - split; [lia|].
    exact (proj1 (proj2 (proj2 (proj1 (proj2 (generate_recipe_image_total
                                                (Some (lit "key"))
                                                (fun _ => Ok {| status_code := 503; payload := Ok [] |})
                                                (lit "pasta")))
                                      (lit "key") eq_refl ltac:(discriminate))))
                 {| status_code := 503; payload := Ok [] |} eq_refl
                 ltac:(cbn; lia)).
Defined.

(** C2 as stated fails: 300 is not a 2xx status, yet [raise_for_status]
    lets it through, and the photo of its body is returned and not the
    fallback; and a search with results whose URL is the empty text
    returns the empty text. *)
Lemma generate_recipe_image_non_2xx_photo :
  ~ (200 <= 300 < 300)%Z
  /\ fst (generate_recipe_image
            (Some (lit "key"))
            (fun _ => Ok {| status_code := 300;
                            payload := Ok (qlit "{'photos': [{'src': {'original': 'https://example.org/p.jpg'}}]}") |})
            (lit "pasta"))
     = JStr (lit "https://example.org/p.jpg")
  /\ JStr (lit "https://example.org/p.jpg") <> JStr fallback_image
  /\ fst (generate_recipe_image
            (Some (lit "key"))
            (fun _ => Ok {| status_code := 200;
                            payload := Ok (qlit "{'photos': [{'src': {'original': ''}}]}") |})
            (lit "pasta"))
     = JStr [].
Proof.
  split; [lia|]. split; [vm_compute; reflexivity|].
  split; [vm_compute; discriminate|vm_compute; reflexivity].
Qed.

(** ** The renderer *)

Module PdfFacts.
Import Pdf.

Lemma bindR_ok {A B : Type} (m : R A) (k : A -> R B) (st st' : render_state) (a : A) :
  m st = (Ok a, st') -> bindR m k st = k a st'.
Proof. unfold bindR. now intros ->. Qed.

Lemma bindR_raise {A B : Type} (m : R A) (k : A -> R B) (st st' : render_state) (e : exn) :
  m st = (Raise e, st') -> bindR m k st = (Raise e, st').
Proof. unfold bindR. now intros ->. Qed.

Lemma fresh_name_new (files : list nat) : ~ In (fresh_name files) files.
Proof.
  unfold fresh_name. intros H.
  pose proof (proj1 (list_max_le files (list_max files)) (le_n _)) as Hall.
  rewrite Forall_forall in Hall. specialize (Hall _ H). lia.
Qed.

Lemma file_exists_in (name : nat) (files : list nat) :
  file_exists name files = true <-> In name files.
Proof.
  unfold file_exists. rewrite existsb_exists. split.
  - intros (x & Hx & E). apply Nat.eqb_eq in E. now subst.
  - intros H. exists name. split; [exact H | apply Nat.eqb_refl].
Qed.

Lemma remove_absent (name : nat) (files : list nat) :
  ~ In name files ->
  filter (fun f => negb (Nat.eqb name f)) files = files.
Proof.
  induction files as [|f r IH]; intros H; [reflexivity|].
  simpl. destruct (Nat.eqb_spec name f) as [->|Hne].
  - exfalso. apply H. now left.
  - simpl. f_equal. apply IH. intros Hin. apply H. now right.
Qed.

Ltac enter_image_block Hget :=
  unfold image_block, try_finally, image_block_body, bindR, lift, fetch_image,
    set_image_path;
  rewrite Hget.

(** A fetch that raises leaves the image block with that exception. *)
Lemma image_block_fetch_raises
    (env : render_env) (u : pystr) (e : exn) (st : render_state) :
  requests_get env (image_request u) = Raise e ->
  image_block env (JStr u) st = (Raise e, cleared st).
Proof. intros Hget. enter_image_block Hget. reflexivity. Qed.

(** A status other than 200 leaves the image out and nothing else. *)
Lemma image_block_other_status
    (env : render_env) (u : pystr) (resp : response) (st : render_state) :
  requests_get env (image_request u) = Ok resp ->
  status_code resp <> 200%Z ->
  image_block env (JStr u) st = (Ok tt, cleared st).
Proof.
  intros Hget Hst. enter_image_block Hget.
  apply Z.eqb_neq in Hst. rewrite Hst. reflexivity.
Qed.

Lemma staged_file_removed (files : list nat) :
  filter (fun f => negb (Nat.eqb (fresh_name files) f)) (fresh_name files :: files)
  = files.
Proof.
  cbn [filter]. rewrite Nat.eqb_refl. cbn [negb].
  apply remove_absent, fresh_name_new.
Qed.

Lemma staged_file_exists (files : list nat) :
  file_exists (fresh_name files) (fresh_name files :: files) = true.
Proof. apply file_exists_in. now left. Qed.

(** Status 200, bytes read, written and decoded: the image is embedded at
    x = 30 with width 150 and the temporary file is removed. *)
Lemma image_block_embeds
    (env : render_env) (u bytes : pystr) (resp : response) (st : render_state) :
  requests_get env (image_request u) = Ok resp ->
  status_code resp = 200%Z ->
  payload resp = Ok bytes ->
  write_succeeds env = true ->
  image_decodes env bytes = true ->
  image_block env (JStr u) st
  = (Ok tt, {| ops := ops st ++ [Image bytes 30 150; Ln 10];
               tmp_files := tmp_files st;
               image_path := Some (fresh_name (tmp_files st)) |}).
Proof.
  intros Hget Hst Hbytes Hwrite Hdec. enter_image_block Hget.
  rewrite Hst, Hbytes, Hwrite, Hdec.
  cbn [Z.eqb Pos.eqb named_temporary_file emit remove_staged_image
       ops tmp_files image_path].
  unfold remove_staged_image. cbn [ops tmp_files image_path].
  rewrite staged_file_exists. unfold os_remove. cbn [ops tmp_files image_path].
  rewrite staged_file_removed, <- app_assoc. reflexivity.
Qed.

(** The same with bytes FPDF cannot decode: the exception of [pdf.image]
    leaves the block, after the temporary file is removed. *)
Lemma image_block_undecodable
    (env : render_env) (u bytes : pystr) (resp : response) (st : render_state) :
  requests_get env (image_request u) = Ok resp ->
  status_code resp = 200%Z ->
  payload resp = Ok bytes ->
  write_succeeds env = true ->
  image_decodes env bytes = false ->
  image_block env (JStr u) st
  = (Raise FPDFError, {| ops := ops st;
                         tmp_files := tmp_files st;
                         image_path := Some (fresh_name (tmp_files st)) |}).
Proof.
  intros Hget Hst Hbytes Hwrite Hdec. enter_image_block Hget.
  rewrite Hst, Hbytes, Hwrite, Hdec.
  cbn [Z.eqb Pos.eqb named_temporary_file emit remove_staged_image
       ops tmp_files image_path].
  unfold remove_staged_image. cbn [ops tmp_files image_path].
  rewrite staged_file_exists. unfold os_remove. cbn [ops tmp_files image_path].
  rewrite staged_file_removed. reflexivity.
Qed.

(** When reading the payload or writing it fails, the file just created
    stays, since [image_path] is not yet set. *)
Lemma image_block_staging_fails
    (env : render_env) (u : pystr) (resp : response) (e : exn) (st : render_state) :
  requests_get env (image_request u) = Ok resp ->
  status_code resp = 200%Z ->
  (payload resp = Raise e
   \/ exists bytes, payload resp = Ok bytes
                    /\ write_succeeds env = false /\ e = OSError) ->
  image_block env (JStr u) st
  = (Raise e, {| ops := ops st;
                 tmp_files := fresh_name (tmp_files st) :: tmp_files st;
                 image_path := None |}).
Proof.
  intros Hget Hst Hfail. enter_image_block Hget. rewrite Hst.
  cbn [Z.eqb Pos.eqb named_temporary_file ops tmp_files image_path].
  destruct Hfail as [-> | (bytes & -> & -> & ->)];
    unfold remove_staged_image; reflexivity.
Qed.

(** An image block that does nothing leaves the document of
    [render_without_image]. *)
Lemma render_image_omitted
    (env : render_env) (recipe_data nutrition_data image_url : json) :
  (forall st, image_block env image_url st = (Ok tt, cleared st)) ->
  forall st,
    render env recipe_data nutrition_data image_url st
    = render_without_image env recipe_data nutrition_data st.
Proof.
  intros H st. unfold render, render_without_image.
  unfold bindR.
  destruct (blocks_before_image env recipe_data st) as [[[]|e] st1]; [|reflexivity].
  rewrite H. reflexivity.
Qed.

(** An image block that raises ends the rendering. *)
Lemma render_image_raises
    (env : render_env) (recipe_data nutrition_data image_url : json)
    (st st1 st2 : render_state) (e : exn) :
  blocks_before_image env recipe_data st = (Ok tt, st1) ->
  image_block env image_url st1 = (Raise e, st2) ->
  render env recipe_data nutrition_data image_url st = (Raise e, st2).
Proof.
  intros H1 H2. unfold render.
  rewrite (bindR_ok _ _ _ _ _ H1). now rewrite (bindR_raise _ _ _ _ _ H2).
Qed.

Lemma add_fonts_ok (env : render_env) (st : render_state) :
  fonts_present env = true ->
  add_fonts env st
  = (Ok tt, {| ops := ((ops st ++ [AddFont [] (lit "DejaVuSansCondensed.ttf")])
                       ++ [AddFont (lit "B") (lit "DejaVuSansCondensed-Bold.ttf")])
                      ++ [AddFont (lit "I") (lit "DejaVuSansCondensed-Oblique.ttf")];
               tmp_files := tmp_files st;
               image_path := image_path st |}).
Proof.
  intros H. unfold add_fonts, bindR, lift. rewrite H. reflexivity.
Qed.

(** With the fonts in place, the blocks before the image render the
    sentinel recipe and touch no file. *)
Lemma sentinel_before_image (env : render_env) (files : list nat) :
  fonts_present env = true ->
  exists st : render_state,
    blocks_before_image env sentinel_recipe (start files) = (Ok tt, st)
    /\ tmp_files st = files.
Proof.
  intros H. unfold blocks_before_image.
  rewrite (bindR_ok (add_fonts env) _ (start files) _ tt
             (add_fonts_ok env (start files) H)).
  eexists. split; reflexivity.
Qed.

(** The sentinel records without an image: a document of twenty-four
    calls, none of them an image. *)
Lemma sentinel_without_image (env : render_env) (files : list nat) :
  fonts_present env = true ->
  outcome (render_without_image env sentinel_recipe sentinel_nutrition (start files))
  = (Ok sentinel_document, files).
Proof.
  intros H. unfold render_without_image, blocks_before_image.
  unfold bindR at 1.
  rewrite (bindR_ok (add_fonts env) _ (start files) _ tt
             (add_fonts_ok env (start files) H)).
  vm_compute. reflexivity.
Qed.

Lemma sentinel_document_has_no_image :
  List.length sentinel_document = 24 /\ existsb is_image sentinel_document = false.
Proof. split; vm_compute; reflexivity. Qed.

(** An exception of the fetch itself, as on a timeout, is not caught: the
    [try] of the image block has a [finally] and no [except]. *)
Lemma fetch_exception_aborts_rendering
    (env : render_env) (files : list nat) (u : pystr) (e : exn) :
  fonts_present env = true ->
  requests_get env (image_request u) = Raise e ->
  create_recipe_pdf env files sentinel_recipe sentinel_nutrition (JStr u)
  = (Raise e, files).
Proof.
  intros Hfonts Hget.
  destruct (sentinel_before_image env files Hfonts) as (st1 & Hb & Hf).
  unfold create_recipe_pdf.
  rewrite (render_image_raises env _ _ _ _ _ _ e Hb
             (image_block_fetch_raises env u e _ Hget)).
  cbn [outcome cleared tmp_files]. now rewrite Hf.
Qed.

End PdfFacts.
Import PdfFacts.

(** C3 (as amended).  Whatever response the image fetch returns, its
    status never aborts the rendering.  On a status other than 200, the
    other 2xx included, the image block is left out and the rest is
    rendered as if there were no image block; for the sentinel records that
    is a document with no image in it.  On status 200 with bytes that can be
    read, staged and decoded, the image is embedded at x = 30 with the fixed
    width 150. *)
Theorem image_block_follows_status
    (env : Pdf.render_env) (u : pystr) (resp : response) :
  Pdf.requests_get env (Pdf.image_request u) = Ok resp ->
  (status_code resp <> 200%Z ->
   (forall (files : list nat) (recipe_data nutrition_data : json),
       Pdf.create_recipe_pdf env files recipe_data nutrition_data (JStr u)
       = Pdf.outcome (Pdf.render_without_image env recipe_data nutrition_data
                        (Pdf.start files)))
   /\ (Pdf.fonts_present env = true ->
       forall files : list nat,
         Pdf.create_recipe_pdf env files sentinel_recipe sentinel_nutrition (JStr u)
         = (Ok sentinel_document, files)
         /\ existsb is_image sentinel_document = false))
  /\ (status_code resp = 200%Z ->
      forall (bytes : pystr) (st : Pdf.render_state),
        payload resp = Ok bytes ->
        Pdf.write_succeeds env = true ->
        Pdf.image_decodes env bytes = true ->
        Pdf.image_block env (JStr u) st
        = (Ok tt, {| Pdf.ops := Pdf.ops st ++ [Pdf.Image bytes 30 150; Pdf.Ln 10];
                     Pdf.tmp_files := Pdf.tmp_files st;
                     Pdf.image_path := Some (Pdf.fresh_name (Pdf.tmp_files st)) |})).
Proof.
  intros Hget. split.
  - intros Hst.
    assert (Hall : forall files recipe_data nutrition_data,
               Pdf.create_recipe_pdf env files recipe_data nutrition_data (JStr u)
               = Pdf.outcome (Pdf.render_without_image env recipe_data nutrition_data
                                (Pdf.start files))).
    { intros files recipe_data nutrition_data. unfold Pdf.create_recipe_pdf.
      rewrite render_image_omitted; [reflexivity|].
      intros st. exact (image_block_other_status env u resp st Hget Hst). }
    split; [exact Hall|].
    intros Hfonts files. rewrite Hall.
    split; [exact (sentinel_without_image env files Hfonts)|].
    exact (proj2 sentinel_document_has_no_image).
  - intros Hst bytes st Hbytes Hwrite Hdec.
    exact (image_block_embeds env u bytes resp st Hget Hst Hbytes Hwrite Hdec).
Qed.

(** The amended C3 for a fetch answered with status 404. *)
Lemma image_block_follows_status_witness :
  Pdf.requests_get
    (env_answering (Ok {| status_code := 404; payload := Ok [] |}) true)
    (Pdf.image_request fallback_image)
  = Ok {| status_code := 404; payload := Ok [] |}
  /\ 404%Z <> 200%Z
  /\ Pdf.create_recipe_pdf
       (env_answering (Ok {| status_code := 404; payload := Ok [] |}) true)
       [] sentinel_recipe sentinel_nutrition (JStr fallback_image)
     = (Ok sentinel_document, [])
  /\ existsb is_image sentinel_document = false.
Proof.
  assert (H : 404%Z <> 200%Z) by discriminate.
  split; [reflexivity|]. split; [exact H|].
  exact (proj2 (proj1 (image_block_follows_status
                         (env_answering
                            (Ok {| status_code := 404; payload := Ok [] |}) true)
                         fallback_image {| status_code := 404; payload := Ok [] |}
                         eq_refl) H) eq_refl []).
Defined.

(** C3 as stated fails: 203 is a 2xx status and its image is not embedded;
    and when the fetch itself raises, as on a timeout, no document is
    produced at all. *)
Lemma image_not_embedded_on_203 :
  (200 <= 203 < 300)%Z
  /\ Pdf.create_recipe_pdf
       (env_answering (Ok {| status_code := 203; payload := Ok (lit "JPEG") |}) true)
       [] sentinel_recipe sentinel_nutrition (JStr fallback_image)
     = (Ok sentinel_document, [])
  /\ existsb is_image sentinel_document = false
  /\ Pdf.create_recipe_pdf
       (env_answering (Raise RequestException) true)
       [] sentinel_recipe sentinel_nutrition (JStr fallback_image)
     = (Raise RequestException, []).
Proof.
  split; [lia|]. repeat split; vm_compute; reflexivity.
Qed.

(** C8 (the code falls short of it).  When the status is 200 and reading
    the payload or writing it to the temporary file raises,
    [create_recipe_pdf] leaves with that exception and the temporary file,
    created just before, still exists: [image_path] is set after the
    write only, so the [finally] block has nothing to remove. *)
Theorem create_recipe_pdf_leaves_staged_file
    (env : Pdf.render_env) (files : list nat) (u : pystr)
    (resp : response) (e : exn) :
  Pdf.fonts_present env = true ->
  Pdf.requests_get env (Pdf.image_request u) = Ok resp ->
  status_code resp = 200%Z ->
  (payload resp = Raise e
   \/ exists bytes, payload resp = Ok bytes
                    /\ Pdf.write_succeeds env = false /\ e = OSError) ->
  Pdf.create_recipe_pdf env files sentinel_recipe sentinel_nutrition (JStr u)
  = (Raise e, Pdf.fresh_name files :: files)
  /\ ~ In (Pdf.fresh_name files) files.
Proof.
  intros Hfonts Hget Hst Hfail.
  split; [|apply fresh_name_new].
  destruct (sentinel_before_image env files Hfonts) as (st1 & Hb & Hf).
  unfold Pdf.create_recipe_pdf.
  rewrite (render_image_raises env _ _ _ _ _ _ e Hb
             (image_block_staging_fails env u resp e _ Hget Hst Hfail)).
  cbn [Pdf.outcome Pdf.tmp_files]. now rewrite Hf.
Qed.

(** C8's failing input, a connection that breaks while the image is read:
    no temporary file before the call, one after. *)
Lemma create_recipe_pdf_leaves_staged_file_witness :
  Pdf.create_recipe_pdf
    (env_answering (Ok {| status_code := 200; payload := Raise RequestException |})
                   true)
    [] sentinel_recipe sentinel_nutrition (JStr fallback_image)
  = (Raise RequestException, [1])
  /\ ~ In 1 [].
Proof.
  apply (create_recipe_pdf_leaves_staged_file
           (env_answering
              (Ok {| status_code := 200; payload := Raise RequestException |}) true)
           [] fallback_image
           {| status_code := 200; payload := Raise RequestException |}
           RequestException);
    [reflexivity | reflexivity | reflexivity | left; reflexivity].
Defined.

(** ** The pipeline block *)

Module AppFacts.
Import App.

Section WithInterpreter.
Context {py : interpreter}.

(** The steps of the [try] body after the recipe is loaded. *)
Lemma run_pipeline_steps
    (w : world) (c : pychar) (rest dietary_needs : pystr) (before : session)
    (recipe : json) :
  loads (fst (create_recipe (llm w) (c :: rest) dietary_needs)) = Ok recipe ->
  run_pipeline w (c :: rest) dietary_needs before =
  match image_keywords_of w recipe with
  | Ok keywords =>
      match loads (fst (get_nutritional_info
                          (llm w) (json_dumps (float_repr w) recipe))) with
      | Ok nutrition =>
          {| recipe_data := recipe;
             nutrition_data := nutrition;
             image_url := fst (generate_recipe_image
                                 (PEXELS_API_KEY w) (requests_get w) keywords) |}
      | Raise _ =>
          {| recipe_data := recipe;
             nutrition_data := nutrition_data before;
             image_url := fst (generate_recipe_image
                                 (PEXELS_API_KEY w) (requests_get w) keywords) |}
      end
  | Raise _ =>
      {| recipe_data := recipe;
         nutrition_data := nutrition_data before;
         image_url := image_url before |}
  end.
Proof.
  intros Hrecipe.
  unfold run_pipeline, on_generate, try_except, pipeline_body.
  unfold bindM, run_tool, bindM, notify, ret, lift. cbn [fst snd session_state notices].
  rewrite Hrecipe.
  unfold set_recipe_data, update. cbn [fst snd session_state notices].
  destruct (image_keywords_of w recipe) as [keywords|e]; [|reflexivity].
  unfold set_image_url, set_nutrition_data, update.
  cbn [fst snd session_state notices recipe_data nutrition_data image_url].
  destruct (loads (fst (get_nutritional_info _ _))); reflexivity.
Qed.

End WithInterpreter.

End AppFacts.

(** C5 (as amended).  A click with no ingredients changes nothing.
    Otherwise [recipe_data] is overwritten with this run's recipe as soon
    as it is loaded; when the recipe has [image_keywords] that the image
    tool accepts, the run goes on and overwrites [image_url] and
    [nutrition_data] with its own results as well; when it has not, the run
    stops there, with [image_url] and [nutrition_data] as they were before
    the click. *)
Theorem session_overwritten_slot_by_slot {py : interpreter}
    (w : App.world) (ingredients dietary_needs : pystr) (before : App.session) :
  let after := App.run_pipeline w ingredients dietary_needs before in
  (ingredients = [] -> after = before)
  /\ (ingredients <> [] ->
      exists recipe : json,
        loads (fst (create_recipe (App.llm w) ingredients dietary_needs)) = Ok recipe
        /\ App.recipe_data after = recipe
        /\ ((exists (keywords : pystr) (nutrition : json),
                App.image_keywords_of w recipe = Ok keywords
                /\ App.image_url after
                   = fst (generate_recipe_image
                            (App.PEXELS_API_KEY w) (App.requests_get w) keywords)
                /\ loads (fst (get_nutritional_info
                                 (App.llm w)
                                 (json_dumps (App.float_repr w) recipe)))
                   = Ok nutrition
                /\ App.nutrition_data after = nutrition)
            \/ ((exists e : exn, App.image_keywords_of w recipe = Raise e)
                /\ App.image_url after = App.image_url before
                /\ App.nutrition_data after = App.nutrition_data before))).
Proof.
  intros after. subst after. split.
  - intros ->. destruct before. reflexivity.
  - intros Hne. destruct ingredients as [|c rest]; [contradiction|].
    destruct (create_recipe_loads (App.llm w) (c :: rest) dietary_needs)
      as [recipe Hrecipe].
    exists recipe. split; [exact Hrecipe|].
    rewrite (AppFacts.run_pipeline_steps w c rest dietary_needs before recipe Hrecipe).
    destruct (App.image_keywords_of w recipe) as [keywords|e] eqn:Hkw.
    + destruct (get_nutritional_info_loads
                  (App.llm w) (json_dumps (App.float_repr w) recipe))
        as [nutrition Hn].
      rewrite Hn. split; [reflexivity|]. left.
      exists keywords, nutrition. repeat split.
    + split; [reflexivity|]. right.
      split; [now exists e | split; reflexivity].
Qed.

(** The amended C5 for a click with eggs and a complete answer. *)
Lemma session_overwritten_slot_by_slot_witness :
  lit "eggs" <> []
  /\ App.recipe_data
       (App.run_pipeline (world_with llm_complete) (lit "eggs") (lit "None")
                         App.initial_session)
     <> JNull.
Proof.
  assert (H : lit "eggs" <> []) by (vm_compute; discriminate).
  split; [exact H|].
  destruct (proj2 (session_overwritten_slot_by_slot
                     (world_with llm_complete) (lit "eggs") (lit "None")
                     App.initial_session) H)
    as (recipe & Hrecipe & Hafter & _).
  rewrite Hafter. intros ->. vm_compute in Hrecipe. discriminate.
Defined.

(** C5 as stated fails: after a complete run, a run whose recipe lacks
    [image_keywords] leaves the session with its own recipe next to the
    image and the nutrition record of the run before. *)
Lemma session_mixes_two_runs :
  let first := App.run_pipeline (world_with llm_complete)
                                (lit "eggs") (lit "None") App.initial_session in
  let second := App.run_pipeline (world_with llm_title_only)
                                 (lit "leeks") (lit "Vegan") first in
  App.recipe_data second = JObj [(lit "title", JStr (lit "Soup"))]
  /\ App.recipe_data second <> App.recipe_data first
  /\ App.nutrition_data second = App.nutrition_data first
  /\ getitem (App.nutrition_data second) (lit "calories") = Ok (JInt 520)
  /\ App.image_url second = App.image_url first
  /\ App.image_keywords_of (world_with llm_title_only) (App.recipe_data second)
     = Raise (KeyError (lit "image_keywords"))
  /\ second <> first.
Proof.
  vm_compute. repeat split; try reflexivity; discriminate.
Qed.

(* ====================================================================== *)
(** * Further properties *)
(* ====================================================================== *)

(** ** Text *)

Module TextMore.
Import PyStrFacts.

Lemma drop_while_app_all (p : pychar -> bool) (a b : pystr) :
  forallb p a = true -> drop_while p (a ++ b) = drop_while p b.
Proof.
  induction a as [|c a IH]; intros H; [reflexivity|].
  simpl in H. apply andb_true_iff in H as [Hc Ha].
  simpl. rewrite Hc. exact (IH Ha).
Qed.

Lemma drop_while_head_outside (p : pychar -> bool) (t : pystr) :
  head_outside p t = true -> drop_while p t = t.
Proof.
  destruct t as [|c r]; [reflexivity|]. simpl. intros H.
  apply negb_true_iff in H. now rewrite H.
Qed.

(** The two classes of the number-prefix pattern are disjoint. *)
Lemma sep_is_no_digit (c : pychar) : is_sep c = true -> is_digit c = false.
Proof.
  unfold is_sep, is_digit, isspace, in_range. intros H.
  destruct (N.leb_spec 48 c) as [L|L]; [|reflexivity].
  destruct (N.leb_spec c 57) as [U|U]; [|reflexivity].
  exfalso.
  repeat rewrite orb_true_iff in H. repeat rewrite andb_true_iff in H.
  repeat rewrite N.eqb_eq in H. repeat rewrite N.leb_le in H.
  lia.
Qed.

Lemma space_is_sep (c : pychar) : isspace c = true -> is_sep c = true.
Proof. unfold is_sep. intros ->. apply orb_true_r. Qed.

Lemma rstrip_trimmed_end (s : pystr) :
  rstrip s = []
  \/ exists (middle : pystr) (last : pychar),
       rstrip s = middle ++ [last] /\ isspace last = false.
Proof.
  induction s as [|c r IH]; [now left|].
  simpl. destruct (rstrip r) as [|d t] eqn:E.
  - destruct (isspace c) eqn:Ec; [now left|].
    right. now exists [], c.
  - right. destruct IH as [IH | (middle & last & IH & Hl)]; [discriminate|].
    exists (c :: middle), last. split; [|exact Hl]. simpl. now rewrite IH.
Qed.

Lemma strip_trimmed (s : pystr) : trimmed (strip s).
Proof.
  unfold strip, lstrip.
  destruct (drop_while_head isspace s) as [E | (c & r & E & Hc)]; rewrite E.
  - now left.
  - right. rewrite (rstrip_cons_nonspace c r Hc).
    destruct (rstrip_trimmed_end (c :: r)) as [F | (middle & last & F & Hl)].
    + rewrite (rstrip_cons_nonspace c r Hc) in F. discriminate.
    + rewrite (rstrip_cons_nonspace c r Hc) in F.
      exists c, last, middle, (rstrip r). now repeat split.
Qed.

(** [.strip()] keeps a contiguous part of its argument. *)
Lemma strip_infix (s : pystr) : exists a b, s = a ++ strip s ++ b.
Proof.
  unfold strip, lstrip.
  destruct (drop_while_suffix isspace s) as [a Ha].
  destruct (rstrip_prefix (drop_while isspace s)) as [b Hb].
  exists a, b. now rewrite <- Hb.
Qed.

Lemma match_number_prefix_suffix (s rest : pystr) :
  match_number_prefix s = Some rest -> exists a, s = a ++ rest.
Proof.
  destruct s as [|c r]; [discriminate|].
  unfold match_number_prefix.
  destruct (is_digit c); [|discriminate].
  destruct (drop_while_suffix is_digit (c :: r)) as [a Ha].
  destruct (drop_while is_digit (c :: r)) as [|d u] eqn:E; [discriminate|].
  destruct (is_sep d); [|discriminate].
  intros [= <-].
  destruct (drop_while_suffix is_sep u) as [b Hb].
  exists (a ++ d :: b). rewrite <- app_assoc, <- app_comm_cons, <- Hb.
  exact Ha.
Qed.

End TextMore.

(** X1.  A numbered instruction loses exactly its number: digits, then
    separators (dots, closing parentheses, white space), then a text that
    does not start with a separator, are cleaned to that text, trimmed. *)
Theorem clean_step_removes_the_number (digits seps text : pystr) :
  digits <> [] -> forallb is_digit digits = true ->
  seps <> [] -> forallb is_sep seps = true ->
  head_outside is_sep text = true ->
  clean_step (digits ++ seps ++ text) = strip text.
Proof.
  intros Hd Hds Hs Hss Ht.
  destruct digits as [|d ds]; [contradiction|].
  destruct seps as [|p ps]; [contradiction|].
  simpl in Hds, Hss.
  apply andb_true_iff in Hds as [Hd0 Hds].
  apply andb_true_iff in Hss as [Hp0 Hps].
  unfold clean_step, sub_number_prefix, match_number_prefix.
  rewrite <- app_comm_cons. rewrite Hd0.
  rewrite app_comm_cons.
  rewrite (TextMore.drop_while_app_all is_digit (d :: ds) ((p :: ps) ++ text))
    by (simpl; now rewrite Hd0).
  rewrite <- app_comm_cons.
  cbn [drop_while]. rewrite (TextMore.sep_is_no_digit p Hp0), Hp0.
  rewrite (TextMore.drop_while_app_all is_sep ps text Hps).
  now rewrite (TextMore.drop_while_head_outside is_sep text Ht).
Qed.

(** X1 at the step [12)  Whisk the eggs]. *)
Lemma clean_step_removes_the_number_witness :
  clean_step (lit "12" ++ lit ")  " ++ lit "Whisk the eggs") = lit "Whisk the eggs".
Proof.
  rewrite (clean_step_removes_the_number (lit "12") (lit ")  ") (lit "Whisk the eggs"));
    [reflexivity | discriminate | reflexivity | discriminate
     | reflexivity | reflexivity].
Defined.

(** X2.  Cleaning an instruction only cuts: the result is a contiguous
    part of the instruction, never longer than it, and is empty or starts
    and ends with something else than white space. *)
Theorem clean_step_only_cuts (step : pystr) :
  (exists before after : pystr, step = before ++ clean_step step ++ after)
  /\ List.length (clean_step step) <= List.length step
  /\ trimmed (clean_step step).
Proof.
  assert (I : exists before after, step = before ++ clean_step step ++ after).
  { unfold clean_step, sub_number_prefix.
    destruct (match_number_prefix step) as [rest|] eqn:E.
    - apply TextMore.match_number_prefix_suffix in E as [a Ha].
      destruct (TextMore.strip_infix rest) as (b & c & Hb).
      exists (a ++ b), c. rewrite Ha at 1. rewrite Hb at 1.
      now rewrite <- app_assoc.
    - apply TextMore.strip_infix. }
  split; [exact I|]. split.
  - destruct I as (a & b & H). apply (f_equal (@List.length _)) in H.
    rewrite !length_app in H. lia.
  - apply TextMore.strip_trimmed.
Qed.

(** ** Code fences, again *)

Module FenceMore.
Import PyStrFacts FenceFacts.

(** [.replace] leaves alone a text in which [old] does not occur. *)
Lemma replace_no_occurrence (old new s : pystr) :
  occurs old s = false -> replace old new s = s.
Proof.
  unfold replace. induction s as [|c r IH]; intros H; [reflexivity|].
  rewrite occurs_cons in H. apply orb_false_iff in H as [H1 H2].
  change (replace_from old new 0 (c :: r))
    with (if starts_with old (c :: r)
          then new ++ replace_from old new (List.length old - 1) r
          else c :: replace_from old new 0 r).
  rewrite H1. f_equal. exact (IH H2).
Qed.

(** An occurrence at the start is removed, and the search goes on behind
    it. *)
Lemma replace_hit (x : pychar) (old' r : pystr) :
  replace (x :: old') [] ((x :: old') ++ r) = replace (x :: old') [] r.
Proof.
  unfold replace.
  assert (S : starts_with (x :: old') ((x :: old') ++ r) = true)
    by (apply starts_with_iff; now exists r).
  rewrite <- app_comm_cons in *.
  change (replace_from (x :: old') [] 0 (x :: old' ++ r))
    with (if starts_with (x :: old') (x :: old' ++ r)
          then [] ++ replace_from (x :: old') []
                       (List.length (x :: old') - 1) (old' ++ r)
          else x :: replace_from (x :: old') [] 0 (old' ++ r)).
  rewrite S. cbn [app].
  replace (List.length (x :: old') - 1) with (List.length old')
    by (cbn [List.length]; lia).
  rewrite replace_from_skip. f_equal.
  clear S. induction old' as [|y o IH]; [reflexivity | exact IH].
Qed.

(** A stretch without backticks is copied as it is when [old] starts with a
    backtick. *)
Lemma replace_skips_tick_free (old' new t rest : pystr) :
  no_tick t = true ->
  replace (tick :: old') new (t ++ rest) = t ++ replace (tick :: old') new rest.
Proof.
  unfold replace. induction t as [|c t IH]; intros H; [reflexivity|].
  simpl in H. apply andb_true_iff in H as [Hc Ht].
  rewrite <- !app_comm_cons.
  change (replace_from (tick :: old') new 0 (c :: t ++ rest))
    with (if starts_with (tick :: old') (c :: t ++ rest)
          then new ++ replace_from (tick :: old') new
                        (List.length (tick :: old') - 1) (t ++ rest)
          else c :: replace_from (tick :: old') new 0 (t ++ rest)).
  assert (S : starts_with (tick :: old') (c :: t ++ rest) = false).
  { cbn [starts_with]. apply negb_true_iff in Hc.
    rewrite N.eqb_sym, Hc. reflexivity. }
  rewrite S. f_equal. exact (IH Ht).
Qed.

Lemma fence_cons : fence = tick :: [tick; tick].
Proof. reflexivity. Qed.

Lemma fence_json_cons : fence_json = tick :: ([tick; tick] ++ lit "json").
Proof. reflexivity. Qed.

Lemma tick_free_unchanged (old' t : pystr) :
  no_tick t = true -> replace (tick :: old') [] t = t.
Proof.
  intros H. rewrite <- (app_nil_r t) at 1.
  rewrite (replace_skips_tick_free old' [] t [] H).
  now rewrite app_nil_r.
Qed.

End FenceMore.

(** X3.  A response without any backtick is only trimmed by the fence
    stripping. *)
Theorem strip_fences_without_backtick (content : pystr) :
  no_tick content = true -> strip_fences content = strip content.
Proof.
  intros H. unfold strip_fences.
  rewrite FenceMore.fence_json_cons, FenceMore.fence_cons.
  now rewrite !(FenceMore.tick_free_unchanged _ content H).
Qed.

(** X3 at a JSON object between blank lines. *)
Lemma strip_fences_without_backtick_witness :
  strip_fences (nl ++ qlit "{'title': 'Soup'}" ++ nl) = qlit "{'title': 'Soup'}".
Proof.
  rewrite (strip_fences_without_backtick (nl ++ qlit "{'title': 'Soup'}" ++ nl));
    reflexivity.
Defined.

(** X4.  The fence stripping unwraps a fenced payload: from a response
    made of a lead-in, the opening fence with its [json] tag, a payload and
    the closing fence, where neither lead-in nor payload holds a backtick,
    what is left is lead-in and payload, trimmed.  The lead-in is kept. *)
Theorem strip_fences_unwraps (lead payload : pystr) :
  no_tick lead = true -> no_tick payload = true ->
  strip_fences (lead ++ fence_json ++ payload ++ fence) = strip (lead ++ payload).
Proof.
  intros Hl Hp. unfold strip_fences.
  assert (E1 : replace fence_json [] (lead ++ fence_json ++ payload ++ fence)
               = lead ++ payload ++ fence).
  { rewrite FenceMore.fence_json_cons at 1 2.
    rewrite (FenceMore.replace_skips_tick_free _ [] lead _ Hl).
    rewrite FenceMore.replace_hit.
    rewrite (FenceMore.replace_skips_tick_free _ [] payload _ Hp).
    rewrite <- FenceMore.fence_json_cons.
    now rewrite (FenceMore.replace_no_occurrence fence_json [] fence eq_refl). }
  rewrite E1.
  rewrite FenceMore.fence_cons at 1.
  rewrite (FenceMore.replace_skips_tick_free _ [] lead _ Hl).
  rewrite (FenceMore.replace_skips_tick_free _ [] payload _ Hp).
  rewrite <- FenceMore.fence_cons.
  replace (replace fence [] fence) with (@nil pychar) by reflexivity.
  now rewrite app_nil_r.
Qed.

(** X4 at the usual shape of an answer. *)
Lemma strip_fences_unwraps_witness :
  strip_fences ([] ++ fence_json ++ (nl ++ qlit "{'title': 'Soup'}" ++ nl) ++ fence)
  = qlit "{'title': 'Soup'}".
Proof.
  rewrite (strip_fences_unwraps [] (nl ++ qlit "{'title': 'Soup'}" ++ nl));
    reflexivity.
Defined.

(** X5.  Stripping the fences of a stripped text changes nothing. *)
Theorem strip_fences_idempotent (content : pystr) :
  strip_fences (strip_fences content) = strip_fences content.
Proof.
  pose proof (FenceFacts.strip_fences_clean content) as H.
  assert (Hj : occurs fence_json (strip_fences content) = false).
  { destruct (occurs fence_json (strip_fences content)) eqn:E; [|reflexivity].
    rewrite FenceFacts.fence_json_ticks in E.
    apply PyStrFacts.occurs_prefix in E. now rewrite H in E. }
  unfold strip_fences at 1.
  rewrite (FenceMore.replace_no_occurrence fence_json [] _ Hj).
  rewrite (FenceMore.replace_no_occurrence fence [] _ H).
  unfold strip_fences. apply PyStrFacts.strip_idempotent.
Qed.

(** ** The text-generation tools, again *)

Module ToolMore.

Section WithInterpreter.
Context {py : interpreter}.

Lemma invoke_and_check_cases (llm : llm_service) (prompt : pystr) :
  (exists content v,
      llm prompt = Ok content /\ json_loads (strip_fences content) = Some v
      /\ invoke_and_check llm prompt = Ok (strip_fences content)
      /\ ~ generation_fails llm prompt)
  \/ (exists e, invoke_and_check llm prompt = Raise e
                /\ generation_fails llm prompt
                /\ (llm prompt = Raise e
                    \/ exists content,
                         llm prompt = Ok content
                         /\ loads (strip_fences content) = Raise e)).
Proof.
  unfold invoke_and_check, bind, generation_fails.
  destruct (llm prompt) as [content|e] eqn:E.
  - destruct (loads (strip_fences content)) as [v|e] eqn:F.
    + left. exists content, v. apply loads_some in F. repeat split.
      * exact F.
      * intros [[e He] | (c & Hc & Hn)]; [discriminate|].
        injection Hc as <-. rewrite F in Hn. discriminate.
    + right. exists e. split; [reflexivity|]. split.
      * right. exists content. split; [reflexivity|].
        apply loads_none. now exists e.
      * right. now exists content.
  - right. exists e. split; [reflexivity|]. split; [|now left].
    left. now exists e.
Qed.

End WithInterpreter.

End ToolMore.

(** X6.  Whatever the service does, what each of the two tools returns is
    valid JSON: the [json.loads] its caller applies (lines 223 and 230)
    never raises. *)
Theorem tool_output_always_loads {py : interpreter}
    (llm : llm_service) (ingredients dietary_needs recipe_text : pystr) :
  (exists recipe : json,
      loads (fst (create_recipe llm ingredients dietary_needs)) = Ok recipe)
  /\ (exists nutrition : json,
         loads (fst (get_nutritional_info llm recipe_text)) = Ok nutrition).
Proof.
  split.
  - unfold create_recipe.
    destruct (ToolMore.invoke_and_check_cases
                llm (recipe_prompt ingredients dietary_needs))
      as [(content & v & _ & Hv & -> & _) | (e & -> & _)]; simpl fst.
    + exists v. now apply loads_some.
    + exists sentinel_recipe. exact sentinel_recipe_loads.
  - unfold get_nutritional_info.
    destruct (ToolMore.invoke_and_check_cases llm (nutrition_prompt recipe_text))
      as [(content & v & _ & Hv & -> & _) | (e & -> & _)]; simpl fst.
    + exists v. now apply loads_some.
    + exists sentinel_nutrition. exact sentinel_nutrition_loads.
Qed.

(** X7.  [create_recipe] reports through [st.error] exactly when the
    generation fails: then it emits one error notice, which carries the
    exception of the service or, when the service answered, the exception
    of [json.loads] (a syntax error, an integer beyond the digit limit, a
    nesting beyond the frames left), and returns the sentinel text;
    otherwise it emits nothing and returns the service's answer with its
    fences stripped, unchanged otherwise.  [get_nutritional_info] does the
    same with its own sentinel. *)
Theorem tools_notify_exactly_on_failure {py : interpreter}
    (llm : llm_service) (ingredients dietary_needs recipe_text : pystr) :
  ((generation_fails llm (recipe_prompt ingredients dietary_needs)
    /\ exists e, create_recipe llm ingredients dietary_needs
                 = (dumps_display sentinel_recipe,
                    [StError (lit "Error generating recipe: ") e])
                 /\ (llm (recipe_prompt ingredients dietary_needs) = Raise e
                     \/ exists content,
                          llm (recipe_prompt ingredients dietary_needs) = Ok content
                          /\ loads (strip_fences content) = Raise e))
   \/ (~ generation_fails llm (recipe_prompt ingredients dietary_needs)
       /\ exists content,
            llm (recipe_prompt ingredients dietary_needs) = Ok content
            /\ create_recipe llm ingredients dietary_needs
               = (strip_fences content, [])))
  /\ ((generation_fails llm (nutrition_prompt recipe_text)
       /\ exists e, get_nutritional_info llm recipe_text
                    = (dumps_display sentinel_nutrition,
                       [StError (lit "Error generating nutritional info: ") e])
                    /\ (llm (nutrition_prompt recipe_text) = Raise e
                        \/ exists content,
                             llm (nutrition_prompt recipe_text) = Ok content
                             /\ loads (strip_fences content) = Raise e))
      \/ (~ generation_fails llm (nutrition_prompt recipe_text)
          /\ exists content,
               llm (nutrition_prompt recipe_text) = Ok content
               /\ get_nutritional_info llm recipe_text
                  = (strip_fences content, []))).
Proof.
  split.
  - unfold create_recipe.
    destruct (ToolMore.invoke_and_check_cases
                llm (recipe_prompt ingredients dietary_needs))
      as [(content & v & Hc & _ & -> & Hn) | (e & -> & Hf & Hcause)].
    + right. split; [exact Hn|]. now exists content.
    + left. split; [exact Hf|]. now exists e.
  - unfold get_nutritional_info.
    destruct (ToolMore.invoke_and_check_cases llm (nutrition_prompt recipe_text))
      as [(content & v & Hc & _ & -> & Hn) | (e & -> & Hf & Hcause)].
    + right. split; [exact Hn|]. now exists content.
    + left. split; [exact Hf|]. now exists e.
Qed.

(** X8.  The text either tool returns never holds a code fence and is
    never padded with white space. *)
Theorem tool_output_has_no_fence {py : interpreter}
    (llm : llm_service) (ingredients dietary_needs recipe_text : pystr) :
  (occurs fence (fst (create_recipe llm ingredients dietary_needs)) = false
   /\ trimmed (fst (create_recipe llm ingredients dietary_needs)))
  /\ (occurs fence (fst (get_nutritional_info llm recipe_text)) = false
      /\ trimmed (fst (get_nutritional_info llm recipe_text))).
Proof.
  assert (T : forall t : pystr, t <> [] -> strip t = t -> trimmed t).
  { intros t _ E. rewrite <- E. apply TextMore.strip_trimmed. }
  split.
  - unfold create_recipe.
    destruct (ToolMore.invoke_and_check_cases
                llm (recipe_prompt ingredients dietary_needs))
      as [(content & v & _ & _ & -> & _) | (e & -> & _)]; simpl fst.
    + split; [apply FenceFacts.strip_fences_clean | apply TextMore.strip_trimmed].
    + split; [reflexivity|]. apply T; [discriminate | reflexivity].
  - unfold get_nutritional_info.
    destruct (ToolMore.invoke_and_check_cases llm (nutrition_prompt recipe_text))
      as [(content & v & _ & _ & -> & _) | (e & -> & _)]; simpl fst.
    + split; [apply FenceFacts.strip_fences_clean | apply TextMore.strip_trimmed].
    + split; [reflexivity|]. apply T; [discriminate | reflexivity].
Qed.

(** X9.  A fenced answer is accepted: when the service wraps a payload
    without backticks between the opening fence with its [json] tag and the
    closing fence, and the trimmed payload is valid JSON, [create_recipe]
    returns the trimmed payload, emits no notice, and its caller loads the
    payload's value. *)
Theorem create_recipe_accepts_fenced_json {py : interpreter}
    (llm : llm_service) (ingredients dietary_needs payload : pystr) (v : json) :
  llm (recipe_prompt ingredients dietary_needs) = Ok (fence_json ++ payload ++ fence) ->
  no_tick payload = true ->
  json_loads (strip payload) = Some v ->
  create_recipe llm ingredients dietary_needs = (strip payload, [])
  /\ loads (fst (create_recipe llm ingredients dietary_needs)) = Ok v.
Proof.
  intros Hllm Hp Hv.
  pose proof (strip_fences_unwraps [] payload eq_refl Hp) as E.
  cbn [app] in E.
  assert (C : create_recipe llm ingredients dietary_needs = (strip payload, [])).
  { unfold create_recipe.
    rewrite (invoke_and_check_passes llm _ _ v Hllm) by now rewrite E.
    now rewrite E. }
  split; [exact C|]. rewrite C. simpl fst. now apply loads_some.
Qed.

(** X9 for an answer in the usual shape. *)
Lemma create_recipe_accepts_fenced_json_witness :
  create_recipe
    (fun _ => Ok (fence_json ++ (nl ++ qlit "{'title': 'Soup'}" ++ nl) ++ fence))
    (lit "leeks") (lit "Vegan")
  = (qlit "{'title': 'Soup'}", []).
Proof.
  exact (proj1 (create_recipe_accepts_fenced_json
                  (fun _ => Ok (fence_json ++ (nl ++ qlit "{'title': 'Soup'}" ++ nl)
                                ++ fence))
                  (lit "leeks") (lit "Vegan")
                  (nl ++ qlit "{'title': 'Soup'}" ++ nl)
                  (JObj [(lit "title", JStr (lit "Soup"))])
                  eq_refl eq_refl eq_refl)).
Defined.

(** ** The renderer, again *)

Module PdfMore.
Import Pdf.

Lemma keeps_ret {A : Type} (a : A) : keeps_files (ret a).
Proof. intros st. reflexivity. Qed.

Lemma keeps_lift {A : Type} (r : result A) : keeps_files (lift r).
Proof. intros st. reflexivity. Qed.

Lemma keeps_emit (op : pdf_op) : keeps_files (emit op).
Proof. intros st. reflexivity. Qed.

Lemma keeps_emit_text (env : render_env) (op : pdf_op) :
  keeps_files (emit_text env op).
Proof.
  intros st. unfold emit_text.
  destruct (plain_op op); [reflexivity|].
  destruct (call_raises env (ops st) op); reflexivity.
Qed.

Lemma keeps_output (env : render_env) : keeps_files (output env).
Proof.
  intros st. unfold output.
  destruct (forallb plain_op (ops st)); [reflexivity|].
  destruct (output_raises env (ops st)); reflexivity.
Qed.

Lemma keeps_set_image_path (name : option nat) : keeps_files (set_image_path name).
Proof. intros st. reflexivity. Qed.

Lemma keeps_bind {A B : Type} (m : R A) (k : A -> R B) :
  keeps_files m -> (forall a, keeps_files (k a)) -> keeps_files (bindR m k).
Proof.
  intros Hm Hk st. unfold bindR. specialize (Hm st).
  destruct (m st) as [[a|e] st1]; simpl in Hm.
  - rewrite (Hk a st1). exact Hm.
  - exact Hm.
Qed.

Lemma keeps_for_each {A : Type} (f : A -> R unit) (l : list A) :
  (forall a, keeps_files (f a)) -> keeps_files (for_each f l).
Proof.
  intros Hf. induction l as [|a l IH].
  - apply keeps_ret.
  - cbn [for_each]. apply keeps_bind; [apply Hf | intros _; exact IH].
Qed.

Ltac keeps :=
  repeat first
    [ apply keeps_emit | apply keeps_emit_text | apply keeps_output
    | apply keeps_lift | apply keeps_ret
    | apply keeps_set_image_path
    | apply keeps_for_each; intros
    | apply keeps_bind; [|intros] ].

Lemma blocks_before_image_keeps (env : render_env) (recipe_data : json) :
  keeps_files (blocks_before_image env recipe_data).
Proof.
  unfold blocks_before_image, add_fonts, title_and_description. keeps.
Qed.

Lemma blocks_after_image_keeps (env : render_env) (recipe_data nutrition_data : json) :
  keeps_files (bindR (blocks_after_image env recipe_data nutrition_data)
                     (fun _ => output env)).
Proof.
  unfold blocks_after_image, nutrition_block, ingredients_block,
    instructions_block. keeps.
Qed.

(** A value that is no text is no URL: nothing is fetched. *)
Lemma image_block_no_url (env : render_env) (image_url : json) (st : render_state) :
  (forall u, image_url <> JStr u) ->
  image_block env image_url st = (Raise RequestException, cleared st).
Proof.
  intros H. unfold image_block, try_finally, image_block_body, bindR, lift,
    fetch_image, set_image_path.
  destruct image_url; try reflexivity. exfalso. exact (H s eq_refl).
Qed.

(** What the image block can do to the temporary files. *)
Lemma image_block_files (env : render_env) (image_url : json) (st : render_state) :
  tmp_files (snd (image_block env image_url st)) = tmp_files st
  \/ (tmp_files (snd (image_block env image_url st))
      = fresh_name (tmp_files st) :: tmp_files st
      /\ exists (u : pystr) (resp : response) (e : exn),
           image_url = JStr u
           /\ requests_get env (image_request u) = Ok resp
           /\ status_code resp = 200%Z
           /\ (payload resp = Raise e
               \/ exists bytes, payload resp = Ok bytes
                                /\ write_succeeds env = false /\ e = OSError)
           /\ fst (image_block env image_url st) = Raise e).
Proof.
  destruct image_url as [| | | |u| |];
    try (left; rewrite image_block_no_url by (intros u; discriminate);
         reflexivity).
  destruct (requests_get env (image_request u)) as [resp|e] eqn:Hget.
  2:{ left. now rewrite (image_block_fetch_raises env u e st Hget). }
  destruct (Z.eq_dec (status_code resp) 200) as [Hst|Hst].
  2:{ left. now rewrite (image_block_other_status env u resp st Hget Hst). }
  destruct (payload resp) as [bytes|e] eqn:Hp.
  2:{ right.
      rewrite (image_block_staging_fails env u resp e st Hget Hst (or_introl Hp)).
      split; [reflexivity|]. exists u, resp, e. repeat split; try assumption.
      now left. }
  destruct (write_succeeds env) eqn:Hw.
  2:{ right.
      assert (F : payload resp = Raise OSError
                  \/ exists b, payload resp = Ok b
                               /\ write_succeeds env = false /\ OSError = OSError)
        by (right; now exists bytes).
      rewrite (image_block_staging_fails env u resp OSError st Hget Hst F).
      split; [reflexivity|]. exists u, resp, OSError.
      repeat split; try assumption. right. now exists bytes. }
  left. destruct (image_decodes env bytes) eqn:Hd.
  - now rewrite (image_block_embeds env u bytes resp st Hget Hst Hp Hw Hd).
  - now rewrite (image_block_undecodable env u bytes resp st Hget Hst Hp Hw Hd).
Qed.

End PdfMore.

(** X10.  [create_recipe_pdf] never removes a temporary file it did not
    create, and leaves at most one behind: the temporary files after the
    call are those before it, except when the fetch answered 200 and
    reading the payload or writing it raised, in which case that exception
    leaves the function and the one file just created is added. *)
Theorem create_recipe_pdf_temporary_files
    (env : Pdf.render_env) (files : list nat)
    (recipe_data nutrition_data image_url : json) :
  let out := Pdf.create_recipe_pdf env files recipe_data nutrition_data image_url in
  snd out = files
  \/ (snd out = Pdf.fresh_name files :: files
      /\ exists (u : pystr) (resp : response) (e : exn),
           image_url = JStr u
           /\ Pdf.requests_get env (Pdf.image_request u) = Ok resp
           /\ status_code resp = 200%Z
           /\ (payload resp = Raise e
               \/ exists bytes, payload resp = Ok bytes
                                /\ Pdf.write_succeeds env = false /\ e = OSError)
           /\ fst out = Raise e).
Proof.
  intros out. subst out. unfold Pdf.create_recipe_pdf, Pdf.render.
  pose proof (PdfMore.blocks_before_image_keeps env recipe_data (Pdf.start files))
    as Hb.
  destruct (Pdf.blocks_before_image env recipe_data (Pdf.start files))
    as [[[]|e] st1] eqn:E1; cbn [snd Pdf.start Pdf.tmp_files] in Hb.
  2:{ left. rewrite (bindR_raise _ _ _ _ _ E1). cbn [Pdf.outcome snd]. exact Hb. }
  rewrite (bindR_ok _ _ _ _ _ E1).
  pose proof (PdfMore.image_block_files env image_url st1) as Hi.
  destruct (Pdf.image_block env image_url st1) as [[[]|e] st2] eqn:E2;
    cbn [fst snd] in Hi.
  - rewrite (bindR_ok _ _ _ _ _ E2).
    pose proof (PdfMore.blocks_after_image_keeps env recipe_data nutrition_data st2)
      as Ha.
    destruct (Pdf.bindR (Pdf.blocks_after_image env recipe_data nutrition_data)
                        (fun _ => Pdf.output env) st2)
      as [[[]|e] st3]; cbn [snd] in Ha; cbn [Pdf.outcome snd fst];
      rewrite Ha;
      (destruct Hi as [Hi | (_ & u & resp & e' & _ & _ & _ & _ & Hi)];
       [left; now rewrite Hi, Hb | discriminate]).
  - rewrite (bindR_raise _ _ _ _ _ E2). cbn [Pdf.outcome snd fst].
    destruct Hi as [Hi | (Hi & u & resp & e' & Hu & Hget & Hst & Hf & He)].
    + left. now rewrite Hi, Hb.
    + right. rewrite Hi, Hb. split; [reflexivity|].
      exists u, resp, e'. injection He as <-. now repeat split.
Qed.

Module PdfLayout.
Import Pdf.

Lemma appended_app (st : render_state) (a b : list pdf_op) :
  appended (appended st a) b = appended st (a ++ b).
Proof. unfold appended. cbn [ops tmp_files image_path]. now rewrite app_assoc. Qed.

Lemma ret_appended (st : render_state) : ret tt st = (Ok tt, appended st []).
Proof. unfold ret, appended. destruct st. cbn. now rewrite app_nil_r. Qed.

Lemma calls_accepted_app (env : render_env) (made a b : list pdf_op) :
  calls_accepted env made (a ++ b)
  = calls_accepted env made a && calls_accepted env (made ++ a) b.
Proof.
  revert made. induction a as [|op a IH]; intros made.
  - cbn [app calls_accepted andb]. now rewrite app_nil_r.
  - cbn [app calls_accepted]. rewrite IH, <- app_assoc, andb_assoc. reflexivity.
Qed.

Lemma records_emit (env : render_env) (op : pdf_op) : records env (emit op) [op].
Proof. intros st _. reflexivity. Qed.

Lemma records_emit_text (env : render_env) (op : pdf_op) :
  records env (emit_text env op) [op].
Proof.
  intros st H. cbn [calls_accepted] in H. rewrite andb_true_r in H.
  unfold call_accepted in H. unfold emit_text.
  destruct (plain_op op); [reflexivity|].
  destruct (call_raises env (ops st) op); [discriminate|reflexivity].
Qed.

Lemma records_then (env : render_env) (m k : R unit) (a b : list pdf_op) :
  records env m a -> records env k b ->
  records env (bindR m (fun _ => k)) (a ++ b).
Proof.
  intros Hm Hk st H. rewrite calls_accepted_app in H.
  apply andb_prop in H as [H1 H2].
  unfold bindR. rewrite (Hm st H1), (Hk (appended st a) H2).
  now rewrite appended_app.
Qed.

Lemma records_lift (env : render_env) {A : Type} (r : result A) (a : A)
    (k : A -> R unit) (calls : list pdf_op) :
  r = Ok a -> records env (k a) calls -> records env (bindR (lift r) k) calls.
Proof. intros -> Hk st H. unfold bindR, lift. now apply Hk. Qed.

Lemma records_for_each (env : render_env) {A : Type} (f : A -> R unit)
    (g : A -> list pdf_op) (l : list A) :
  (forall a, records env (f a) (g a)) ->
  records env (for_each f l) (flat_map g l).
Proof.
  intros H. induction l as [|a l IH].
  - intros st _. apply ret_appended.
  - cbn [for_each flat_map]. apply records_then; [apply H | exact IH].
Qed.

Lemma output_ok (env : render_env) (st : render_state) :
  output_accepted env (ops st) = true -> output env st = (Ok tt, st).
Proof.
  unfold output_accepted, output. intros H.
  destruct (forallb plain_op (ops st)); [reflexivity|].
  destruct (output_raises env (ops st)); [discriminate|reflexivity].
Qed.

Lemma flat_map_singleton {A B : Type} (f : A -> B) (l : list A) :
  flat_map (fun a => [f a]) l = List.map f l.
Proof.
  induction l as [|a l IH]; [reflexivity|].
  cbn [flat_map List.map app]. now rewrite IH.
Qed.

Lemma enumerate_texts (k : Z) (steps : list pystr) :
  enumerate k (List.map JStr steps)
  = List.map (fun p => (fst p, JStr (snd p))) (enumerate k steps).
Proof.
  revert k. induction steps as [|s steps IH]; intros k; [reflexivity|].
  cbn [List.map enumerate fst snd]. now rewrite IH.
Qed.

Lemma title_and_description_records
    (env : render_env) (r : json) (title : pystr) (description : json) :
  getitem r (lit "title") = Ok (JStr title) ->
  getitem r (lit "description") = Ok description ->
  records env (title_and_description env r) (title_calls title description).
Proof.
  intros H1 H2. unfold title_and_description.
  change (title_calls title description)
    with ([SetFont (lit "B") 22]
          ++ ([MultiCell 12 [Lit title] (lit "C")]
              ++ [Ln 4] ++ [SetFont (lit "I") 12]
              ++ ([MultiCell 8 [Lit [QUOTE]; Fmt description; Lit [QUOTE]] (lit "C")]
                  ++ [Ln 8]))).
  apply records_then; [apply records_emit|].
  apply (records_lift _ _ title); [unfold bind; now rewrite H1|].
  apply records_then; [apply records_emit_text|].
  apply records_then; [apply records_emit|].
  apply records_then; [apply records_emit|].
  apply (records_lift _ _ description); [exact H2|].
  apply records_then; [apply records_emit_text | apply records_emit].
Qed.

Lemma nutrition_block_records
    (env : render_env) (n summary calories protein fat carbs : json) :
  nutrition_of n summary calories protein fat carbs ->
  records env (nutrition_block env n)
          (nutrition_calls summary calories protein fat carbs).
Proof.
  intros (H1 & H2 & H3 & H4 & H5). unfold nutrition_block.
  change (nutrition_calls summary calories protein fat carbs)
    with ([SetFont (lit "B") 14]
          ++ [Cell 10 (lit "Nutritional Information (per serving)") (lit "C")]
          ++ [SetFont [] 12]
          ++ ([MultiCell 8 [Lit (lit "Summary: "); Fmt summary] (lit "C")]
              ++ [Ln 4]
              ++ ([MultiCell 8 [Lit (lit "Calories: "); Fmt calories;
                                Lit (lit "   Protein: "); Fmt protein;
                                Lit (lit "g   Fat: "); Fmt fat;
                                Lit (lit "g   Carbs: "); Fmt carbs;
                                Lit (lit "g")] (lit "C")]
                  ++ [Ln 10]))).
  apply records_then; [apply records_emit|].
  apply records_then; [apply records_emit|].
  apply records_then; [apply records_emit|].
  apply (records_lift _ _ summary); [exact H1|].
  apply records_then; [apply records_emit_text|].
  apply records_then; [apply records_emit|].
  apply (records_lift _ _ calories); [exact H2|].
  apply (records_lift _ _ protein); [exact H3|].
  apply (records_lift _ _ fat); [exact H4|].
  apply (records_lift _ _ carbs); [exact H5|].
  apply records_then; [apply records_emit_text | apply records_emit].
Qed.

Lemma ingredients_block_records (env : render_env) (r : json) (items : list json) :
  getitem r (lit "ingredients") = Ok (JArr items) ->
  records env (ingredients_block env r) (ingredients_calls items).
Proof.
  intros H. unfold ingredients_block, ingredients_calls.
  change ([SetFont (lit "B") 14; Cell 10 (lit "Ingredients") []; SetFont [] 12]
          ++ List.map ingredient_line items ++ [Ln 8])
    with ([SetFont (lit "B") 14] ++ [Cell 10 (lit "Ingredients") []]
          ++ [SetFont [] 12] ++ (List.map ingredient_line items ++ [Ln 8])).
  apply records_then; [apply records_emit|].
  apply records_then; [apply records_emit|].
  apply records_then; [apply records_emit|].
  apply (records_lift _ _ items); [unfold bind; now rewrite H|].
  apply records_then; [|apply records_emit].
  rewrite <- (flat_map_singleton ingredient_line).
  apply records_for_each. intros item. apply records_emit_text.
Qed.

Lemma instructions_block_records (env : render_env) (r : json) (steps : list pystr) :
  getitem r (lit "instructions") = Ok (JArr (List.map JStr steps)) ->
  records env (instructions_block env r) (instructions_calls steps).
Proof.
  intros H. unfold instructions_block, instructions_calls.
  change ([SetFont (lit "B") 14; Cell 10 (lit "Instructions") []; SetFont [] 12]
          ++ flat_map instruction_lines (enumerate 1 steps))
    with ([SetFont (lit "B") 14] ++ [Cell 10 (lit "Instructions") []]
          ++ [SetFont [] 12] ++ flat_map instruction_lines (enumerate 1 steps)).
  apply records_then; [apply records_emit|].
  apply records_then; [apply records_emit|].
  apply records_then; [apply records_emit|].
  apply (records_lift _ _ (List.map JStr steps)); [unfold bind; now rewrite H|].
  rewrite enumerate_texts.
  generalize (enumerate 1 steps) as numbered. intros numbered.
  induction numbered as [|[i s] l IH].
  - intros st _. apply ret_appended.
  - cbn [List.map for_each flat_map fst snd].
    apply records_then; [|exact IH].
    apply (records_lift _ _ s); [reflexivity|].
    apply (records_then _ _ _ [_] [_]);
      [apply records_emit_text | apply records_emit].
Qed.

Lemma blocks_before_image_records (env : render_env) (r : json)
    (title : pystr) (description : json) :
  fonts_present env = true ->
  getitem r (lit "title") = Ok (JStr title) ->
  getitem r (lit "description") = Ok description ->
  records env (blocks_before_image env r)
          (font_calls ++ [AddPage] ++ title_calls title description).
Proof.
  intros Hf H1 H2. unfold blocks_before_image.
  apply records_then; [|apply records_then; [apply records_emit|]].
  - intros st _. unfold add_fonts, bindR, lift. rewrite Hf.
    unfold appended, font_calls, emit. cbn [ops tmp_files image_path].
    now rewrite <- !app_assoc.
  - now apply title_and_description_records.
Qed.

Lemma blocks_after_image_records (env : render_env) (r n : json)
    (items : list json) (steps : list pystr)
    (summary calories protein fat carbs : json) :
  getitem r (lit "ingredients") = Ok (JArr items) ->
  getitem r (lit "instructions") = Ok (JArr (List.map JStr steps)) ->
  nutrition_of n summary calories protein fat carbs ->
  records env (blocks_after_image env r n)
          (nutrition_calls summary calories protein fat carbs
           ++ ingredients_calls items ++ instructions_calls steps).
Proof.
  intros H1 H2 Hn. unfold blocks_after_image.
  apply records_then; [now apply nutrition_block_records|].
  apply records_then;
    [now apply ingredients_block_records | now apply instructions_block_records].
Qed.

(** The document, block by block. *)
Lemma document_blocks (image : option pystr) (title : pystr) (description : json)
    (items : list json) (steps : list pystr)
    (summary calories protein fat carbs : json) :
  document image title description items steps summary calories protein fat carbs
  = ((font_calls ++ [AddPage] ++ title_calls title description)
     ++ image_calls image)
    ++ (nutrition_calls summary calories protein fat carbs
        ++ ingredients_calls items ++ instructions_calls steps).
Proof. unfold document. now rewrite <- !app_assoc. Qed.

(** The rendering around an image block that records [image_calls]. *)
Lemma render_records (env : render_env) (files : list nat) (r n image_url : json)
    (image : option pystr) (path : render_state -> option nat)
    (title : pystr) (description : json) (items : list json) (steps : list pystr)
    (summary calories protein fat carbs : json) :
  fonts_present env = true ->
  recipe_of r title description items steps ->
  nutrition_of n summary calories protein fat carbs ->
  (forall st, image_block env image_url st
              = (Ok tt, {| ops := ops st ++ image_calls image;
                           tmp_files := tmp_files st;
                           image_path := path st |})) ->
  renders env (document image title description items steps
                        summary calories protein fat carbs) = true ->
  create_recipe_pdf env files r n image_url
  = (Ok (document image title description items steps
                  summary calories protein fat carbs), files).
Proof.
  intros Hfonts (H1 & H2 & H3 & H4) Hn Himage Hr.
  apply andb_prop in Hr as [Hc Ho].
  rewrite document_blocks in Hc, Ho |- *.
  rewrite (calls_accepted_app env []
             ((font_calls ++ [AddPage] ++ title_calls title description)
              ++ image_calls image)) in Hc.
  apply andb_prop in Hc as [Hc Hafter].
  rewrite (calls_accepted_app env []
             (font_calls ++ [AddPage] ++ title_calls title description)) in Hc.
  apply andb_prop in Hc as [Hbefore _].
  pose proof (blocks_before_image_records env r title description Hfonts H1 H2
                (start files) Hbefore) as Hb.
  unfold create_recipe_pdf, render.
  rewrite (bindR_ok _ _ _ _ _ Hb).
  rewrite (bindR_ok _ _ _ _ _ (Himage _)).
  pose proof (blocks_after_image_records env r n items steps
                summary calories protein fat carbs H3 H4 Hn
                {| ops := ops (appended (start files)
                                 (font_calls ++ [AddPage]
                                  ++ title_calls title description))
                          ++ image_calls image;
                   tmp_files := tmp_files
                                  (appended (start files)
                                     (font_calls ++ [AddPage]
                                      ++ title_calls title description));
                   image_path := path (appended (start files)
                                         (font_calls ++ [AddPage]
                                          ++ title_calls title description)) |}
                Hafter) as Ha.
  rewrite (bindR_ok _ _ _ _ _ Ha).
  rewrite output_ok by exact Ho.
  reflexivity.
Qed.

End PdfLayout.

(** X11.  For records of the shape the prompts ask for (a textual title,
    a list of ingredients, a list of textual instructions, the five
    nutrition values), with the fonts in place and when FPDF lets the calls
    of the document and its output through, [create_recipe_pdf] succeeds
    and makes exactly the calls of [document], leaving the temporary files
    as they were: title and quoted description, the image when the fetch
    answered 200 with bytes that could be staged and decoded and no image
    on any other status, the nutrition lines, one bulleted line per
    ingredient in their order, and one line per instruction in their
    order, numbered from 1 and cleaned of the number it came with. *)
Theorem create_recipe_pdf_document
    (env : Pdf.render_env) (files : list nat) (r n : json)
    (u : pystr) (resp : response)
    (title : pystr) (description : json) (items : list json) (steps : list pystr)
    (summary calories protein fat carbs : json) :
  Pdf.fonts_present env = true ->
  recipe_of r title description items steps ->
  nutrition_of n summary calories protein fat carbs ->
  Pdf.requests_get env (Pdf.image_request u) = Ok resp ->
  (status_code resp <> 200%Z ->
   renders env (document None title description items steps
                         summary calories protein fat carbs) = true ->
   Pdf.create_recipe_pdf env files r n (JStr u)
   = (Ok (document None title description items steps
                   summary calories protein fat carbs), files))
  /\ (status_code resp = 200%Z ->
      forall bytes : pystr,
        payload resp = Ok bytes ->
        Pdf.write_succeeds env = true ->
        Pdf.image_decodes env bytes = true ->
        renders env (document (Some bytes) title description items steps
                              summary calories protein fat carbs) = true ->
        Pdf.create_recipe_pdf env files r n (JStr u)
        = (Ok (document (Some bytes) title description items steps
                        summary calories protein fat carbs), files)).
Proof.
  intros Hfonts Hrecipe Hn Hget. split.
  - intros Hst Hr.
    apply (PdfLayout.render_records env files r n (JStr u) None (fun _ => None)
             title description items steps summary calories protein fat carbs
             Hfonts Hrecipe Hn); [|exact Hr].
    intros st. rewrite (image_block_other_status env u resp st Hget Hst).
    unfold Pdf.cleared, image_calls. now rewrite app_nil_r.
  - intros Hst bytes Hp Hw Hd Hr.
    apply (PdfLayout.render_records env files r n (JStr u) (Some bytes)
             (fun st => Some (Pdf.fresh_name (Pdf.tmp_files st)))
             title description items steps summary calories protein fat carbs
             Hfonts Hrecipe Hn); [|exact Hr].
    intros st. rewrite (image_block_embeds env u bytes resp st Hget Hst Hp Hw Hd).
    reflexivity.
Qed.

(** A recipe with two numbered instructions, and its nutrition record. *)
Lemma create_recipe_pdf_document_witness :
  renders (env_answering (Ok {| status_code := 404; payload := Ok [] |}) true)
    (document None (lit "Omelette") (JStr (lit "Quick."))
              [JStr (lit "eggs")] [lit "1. Beat the eggs"; lit "2) Fry"]
              (JStr (lit "Rich.")) (JInt 520) (JInt 30) (JInt 40) (JInt 2))
  = true
  /\ Pdf.create_recipe_pdf
       (env_answering (Ok {| status_code := 404; payload := Ok [] |}) true) []
       (JObj [(lit "title", JStr (lit "Omelette"));
              (lit "description", JStr (lit "Quick."));
              (lit "ingredients", JArr [JStr (lit "eggs")]);
              (lit "instructions",
               JArr (List.map JStr [lit "1. Beat the eggs"; lit "2) Fry"]))])
       (JObj [(lit "calories", JInt 520); (lit "protein_grams", JInt 30);
              (lit "fat_grams", JInt 40); (lit "carbs_grams", JInt 2);
              (lit "summary", JStr (lit "Rich."))])
       (JStr fallback_image)
     = (Ok (document None (lit "Omelette") (JStr (lit "Quick."))
                     [JStr (lit "eggs")] [lit "1. Beat the eggs"; lit "2) Fry"]
                     (JStr (lit "Rich.")) (JInt 520) (JInt 30) (JInt 40) (JInt 2)),
        []).
Proof.
  assert (Hr : renders
                 (env_answering (Ok {| status_code := 404; payload := Ok [] |}) true)
                 (document None (lit "Omelette") (JStr (lit "Quick."))
                    [JStr (lit "eggs")] [lit "1. Beat the eggs"; lit "2) Fry"]
                    (JStr (lit "Rich.")) (JInt 520) (JInt 30) (JInt 40) (JInt 2))
               = true) by (vm_compute; reflexivity).
  split; [exact Hr|].
  refine (proj1 (create_recipe_pdf_document
                   (env_answering (Ok {| status_code := 404; payload := Ok [] |}) true)
                   [] _ _ fallback_image {| status_code := 404; payload := Ok [] |}
                   (lit "Omelette") (JStr (lit "Quick."))
                   [JStr (lit "eggs")] [lit "1. Beat the eggs"; lit "2) Fry"]
                   (JStr (lit "Rich.")) (JInt 520) (JInt 30) (JInt 40) (JInt 2)
                   eq_refl _ _ eq_refl) _ Hr).
  - repeat split.
  - repeat split.
  - discriminate.
Defined.

(** X12.  A recipe without [title], or one that is no dictionary at all,
    makes [create_recipe_pdf] raise at its first text, before the image is
    fetched: whatever the image URL and the transport, the exception is the
    [KeyError] or [TypeError] of the lookup and no temporary file is
    created. *)
Theorem create_recipe_pdf_needs_a_title
    (env : Pdf.render_env) (files : list nat)
    (recipe_data nutrition_data image_url : json) (e : exn) :
  Pdf.fonts_present env = true ->
  getitem recipe_data (lit "title") = Raise e ->
  Pdf.create_recipe_pdf env files recipe_data nutrition_data image_url
  = (Raise e, files)
  /\ (e = KeyError (lit "title") \/ e = TypeError).
Proof.
  intros Hfonts H. split.
  - unfold Pdf.create_recipe_pdf, Pdf.render, Pdf.blocks_before_image.
    unfold Pdf.bindR at 1. unfold Pdf.bindR at 1.
    rewrite (add_fonts_ok env (Pdf.start files) Hfonts).
    unfold Pdf.title_and_description, Pdf.bindR, Pdf.emit, Pdf.lift, bind.
    rewrite H. reflexivity.
  - unfold getitem in H. destruct recipe_data; try (right; congruence).
    destruct (dict_get (lit "title") members); [discriminate|].
    left. congruence.
Qed.

(** X12 for the empty dictionary. *)
Lemma create_recipe_pdf_needs_a_title_witness :
  Pdf.create_recipe_pdf (env_answering (Raise RequestException) true) []
    (JObj []) sentinel_nutrition (JStr fallback_image)
  = (Raise (KeyError (lit "title")), []).
Proof.
  exact (proj1 (create_recipe_pdf_needs_a_title
                  (env_answering (Raise RequestException) true) []
                  (JObj []) sentinel_nutrition (JStr fallback_image)
                  (KeyError (lit "title")) eq_refl eq_refl)).
Defined.

(** ** The button handler *)

Module AppMore.
Import App.

Section WithInterpreter.
Context {py : interpreter}.

(** A tool emits at most one notice. *)
Lemma create_recipe_notices (llm : llm_service) (ingredients dietary_needs : pystr) :
  (List.length (snd (create_recipe llm ingredients dietary_needs)) <= 1)%nat.
Proof.
  unfold create_recipe. destruct (invoke_and_check _ _); cbn; lia.
Qed.

Lemma get_nutritional_info_notices (llm : llm_service) (recipe_text : pystr) :
  (List.length (snd (get_nutritional_info llm recipe_text)) <= 1)%nat.
Proof.
  unfold get_nutritional_info. destruct (invoke_and_check _ _); cbn; lia.
Qed.

(** The keywords of the sentinel recipe are the empty text. *)
Lemma sentinel_keywords (w : world) :
  image_keywords_of w sentinel_recipe = Ok [].
Proof. reflexivity. Qed.

(** The session after a click on which both generations fail. *)
Lemma run_pipeline_all_fail
    (w : world) (ingredients dietary_needs : pystr) (before : session) :
  ingredients <> [] ->
  generation_fails (llm w) (recipe_prompt ingredients dietary_needs) ->
  generation_fails (llm w) (nutrition_prompt (dumps_display sentinel_recipe)) ->
  run_pipeline w ingredients dietary_needs before
  = sentinel_session
      (fst (generate_recipe_image (PEXELS_API_KEY w) (requests_get w) [])).
Proof.
  intros Hne H1 H2.
  destruct ingredients as [|c rest]; [congruence|].
  apply invoke_and_check_fails in H1 as [e1 H1].
  apply invoke_and_check_fails in H2 as [e2 H2].
  rewrite (AppFacts.run_pipeline_steps w c rest dietary_needs before sentinel_recipe).
  - rewrite sentinel_keywords.
    rewrite (proj1 (dumps_display_any_formatter (float_repr w))).
    unfold get_nutritional_info. rewrite H2. cbn [fst].
    rewrite sentinel_nutrition_loads. reflexivity.
  - unfold create_recipe. rewrite H1. cbn [fst].
    exact sentinel_recipe_loads.
Qed.

End WithInterpreter.

End AppMore.

(** X13.  A click never lets an exception out of the handler, whatever the
    services do: the notices that were on the page stay, at most two are
    added, and a click without ingredients adds the warning and nothing
    else. *)
Theorem on_generate_never_raises {py : interpreter}
    (w : App.world) (ingredients dietary_needs : pystr) (st : App.app_state) :
  let after := App.on_generate w ingredients dietary_needs st in
  fst after = Ok tt
  /\ exists more : list notice,
       App.notices (snd after) = App.notices st ++ more
       /\ (List.length more <= 2)%nat
       /\ (ingredients = [] ->
           more = [StWarning (lit "Please enter at least one ingredient.")]).
Proof.
  destruct ingredients as [|c rest]; cbv zeta.
  - split; [reflexivity|]. eexists. split; [reflexivity|].
    split; [cbn; lia | reflexivity].
  - unfold App.on_generate, App.try_except, App.pipeline_body.
    unfold App.bindM, App.run_tool, App.bindM, App.notify, App.ret, App.lift.
    cbn [fst snd App.session_state App.notices].
    pose proof (AppMore.create_recipe_notices (App.llm w) (c :: rest) dietary_needs) as N1.
    destruct (create_recipe (App.llm w) (c :: rest) dietary_needs) as [text ns].
    cbn [fst snd] in *.
    destruct (loads text) as [recipe|e].
    2:{ cbn. split; [reflexivity|]. eexists. split; [rewrite <- app_assoc; reflexivity|].
        split; [rewrite length_app; cbn; lia | discriminate]. }
    unfold App.set_recipe_data, App.update. cbn [fst snd App.session_state App.notices].
    destruct (App.image_keywords_of w recipe) as [keywords|e].
    2:{ cbn. split; [reflexivity|]. eexists. split; [rewrite <- app_assoc; reflexivity|].
        split; [rewrite length_app; cbn; lia | discriminate]. }
    unfold App.set_image_url, App.set_nutrition_data, App.update.
    cbn [fst snd App.session_state App.notices].
    pose proof (AppMore.get_nutritional_info_notices
                  (App.llm w) (json_dumps (App.float_repr w) recipe)) as N2.
    destruct (get_nutritional_info_loads
                (App.llm w) (json_dumps (App.float_repr w) recipe)) as [v Hv].
    destruct (get_nutritional_info _ _) as [text2 ns2]. cbn [fst snd] in *.
    rewrite Hv. cbn. split; [reflexivity|].
    eexists. split; [rewrite <- app_assoc; reflexivity|].
    split; [rewrite length_app; cbn; lia | discriminate].
Qed.

(** X14.  When both generations fail, because the service raises or
    because its text is no JSON, the click still runs to its end: the
    session holds the two sentinel records and the image found for the
    empty keywords, whatever it held before, and the page gets the two
    error notices of the tools and no third one. *)
Theorem on_generate_when_generation_fails {py : interpreter}
    (w : App.world) (ingredients dietary_needs : pystr) (st : App.app_state) :
  ingredients <> [] ->
  generation_fails (App.llm w) (recipe_prompt ingredients dietary_needs) ->
  generation_fails (App.llm w) (nutrition_prompt (dumps_display sentinel_recipe)) ->
  exists e1 e2 : exn,
    App.on_generate w ingredients dietary_needs st
    = (Ok tt,
       {| App.session_state :=
            sentinel_session
              (fst (generate_recipe_image
                      (App.PEXELS_API_KEY w) (App.requests_get w) []));
          App.notices :=
            App.notices st
            ++ [StError (lit "Error generating recipe: ") e1;
                StError (lit "Error generating nutritional info: ") e2] |}).
Proof.
  intros Hne H1 H2.
  destruct ingredients as [|c rest]; [congruence|].
  apply invoke_and_check_fails in H1 as [e1 H1].
  apply invoke_and_check_fails in H2 as [e2 H2].
  exists e1, e2.
  unfold App.on_generate, App.try_except, App.pipeline_body.
  unfold App.bindM, App.run_tool, App.bindM, App.notify, App.ret, App.lift.
  unfold create_recipe. rewrite H1.
  cbn [fst snd App.session_state App.notices].
  rewrite sentinel_recipe_loads.
  unfold App.set_recipe_data, App.update. cbn [fst snd App.session_state App.notices].
  rewrite AppMore.sentinel_keywords.
  rewrite (proj1 (dumps_display_any_formatter (App.float_repr w))).
  unfold get_nutritional_info. rewrite H2.
  unfold App.set_image_url, App.set_nutrition_data, App.update.
  cbn [fst snd App.session_state App.notices App.recipe_data App.nutrition_data
       App.image_url].
  rewrite sentinel_nutrition_loads.
  rewrite <- app_assoc. reflexivity.
Qed.

(** X14 for a service that is down and no search credential. *)
Lemma on_generate_when_generation_fails_witness :
  exists e1 e2 : exn,
    App.on_generate (world_with (fun _ => Raise ServiceError))
      (lit "leeks") (lit "Vegan")
      {| App.session_state := App.initial_session; App.notices := [] |}
    = (Ok tt,
       {| App.session_state := sentinel_session (JStr fallback_image);
          App.notices :=
            [StError (lit "Error generating recipe: ") e1;
             StError (lit "Error generating nutritional info: ") e2] |}).
Proof.
  exact (on_generate_when_generation_fails
           (world_with (fun _ => Raise ServiceError)) (lit "leeks") (lit "Vegan")
           {| App.session_state := App.initial_session; App.notices := [] |}
           ltac:(discriminate)
           (or_introl (ex_intro _ ServiceError eq_refl))
           (or_introl (ex_intro _ ServiceError eq_refl))).
Defined.

(** ** The display block *)

Module PageFacts.
Import Page.

Lemma bindU_ok {A B : Type} (m : U A) (k : A -> U B)
    (st st1 : page_state) (a : A) :
  m st = (Ok a, st1) -> bindU m k st = k a st1.
Proof. intros H. unfold bindU. rewrite H. reflexivity. Qed.

Lemma bindU_raise {A B : Type} (m : U A) (k : A -> U B)
    (st st1 : page_state) (e : exn) :
  m st = (Raise e, st1) -> bindU m k st = (Raise e, st1).
Proof. intros H. unfold bindU. rewrite H. reflexivity. Qed.

(** A sequence that completes: so did its first part, and the rest from
    where the first part left the page. *)
Lemma bindU_ok_inv {A B : Type} (m : U A) (k : A -> U B)
    (st : page_state) (b : B) :
  fst (bindU m k st) = Ok b ->
  exists a, fst (m st) = Ok a /\ fst (k a (snd (m st))) = Ok b.
Proof.
  unfold bindU. destruct (m st) as [[a|e] st1]; cbn [fst snd]; [|discriminate].
  intros H. now exists a.
Qed.

Lemma only_shows_ret {A : Type} (a : A) : only_shows (ret a).
Proof. intros st. split; [reflexivity|]. exists []. now rewrite app_nil_r. Qed.

Lemma only_shows_lift {A : Type} (r : result A) : only_shows (lift r).
Proof. intros st. split; [reflexivity|]. exists []. now rewrite app_nil_r. Qed.

Lemma only_shows_show (w : widget) : is_download w = false -> only_shows (show w).
Proof.
  intros H st. split; [reflexivity|]. exists [w]. split; [reflexivity|].
  cbn. now rewrite H.
Qed.

Lemma only_shows_bind {A B : Type} (m : U A) (k : A -> U B) :
  only_shows m -> (forall a, only_shows (k a)) -> only_shows (bindU m k).
Proof.
  intros Hm Hk st. unfold bindU.
  destruct (Hm st) as (F1 & more1 & S1 & D1).
  destruct (m st) as [[a|e] st1]; cbn [fst snd] in *.
  - destruct (Hk a st1) as (F2 & more2 & S2 & D2).
    split; [congruence|]. exists (more1 ++ more2).
    split; [rewrite S2, S1, app_assoc; reflexivity|].
    rewrite existsb_app, D1, D2. reflexivity.
  - split; [assumption|]. now exists more1.
Qed.

Lemma only_shows_for_each {A : Type} (f : A -> U unit) (l : list A) :
  (forall a, only_shows (f a)) -> only_shows (for_each f l).
Proof.
  intros H. induction l as [|a l IH]; cbn [for_each].
  - apply only_shows_ret.
  - apply only_shows_bind; [apply H | intros _; exact IH].
Qed.

Ltac shows :=
  repeat first
    [ apply only_shows_ret
    | apply only_shows_lift
    | apply only_shows_show; reflexivity
    | apply only_shows_for_each; intros ?
    | apply only_shows_bind; [|intros ?] ].

(** Lines 237-264 touch no file and show no download button. *)
Lemma page_widgets_only_shows (s : App.session) : only_shows (page_widgets s).
Proof. unfold page_widgets. shows. Qed.

Ltac step H :=
  let v := fresh "v" in
  let L := fresh "L" in
  apply bindU_ok_inv in H as (v & L & H); cbn [lift show fst snd] in L, H.

(** What lines 237-264 look up before they complete. *)
Lemma page_widgets_lookups (s : App.session) (st : page_state) :
  fst (page_widgets s st) = Ok tt ->
  (forall key, In key nutrition_fields ->
               exists v, getitem (App.nutrition_data s) key = Ok v)
  /\ (forall key, In key [lit "title"; lit "description";
                          lit "ingredients"; lit "instructions"] ->
                  exists v, getitem (App.recipe_data s) key = Ok v).
Proof.
  unfold page_widgets. intros H.
  repeat step H. clear H.
  unfold bind in *.
  destruct (getitem (App.recipe_data s) (lit "ingredients")) as [x1|] eqn:E1;
    [|discriminate].
  destruct (getitem (App.recipe_data s) (lit "instructions")) as [x2|] eqn:E2;
    [|discriminate].
  split; intros key Hin; cbv [In nutrition_fields] in Hin;
    repeat (destruct Hin as [<-|Hin]; [eauto|]); destruct Hin.
Qed.

End PageFacts.

Module PageMore.
Import Page.

(** The document of the sentinel session when the image is not embedded. *)
Lemma sentinel_pdf
    (env : Pdf.render_env) (files : list nat) (u : pystr) (resp : response) :
  Pdf.fonts_present env = true ->
  Pdf.requests_get env (Pdf.image_request u) = Ok resp ->
  status_code resp <> 200%Z ->
  Pdf.create_recipe_pdf env files sentinel_recipe sentinel_nutrition (JStr u)
  = (Ok sentinel_document, files).
Proof.
  intros Hfonts Hget Hstatus. unfold Pdf.create_recipe_pdf.
  rewrite render_image_omitted
    by (intros st; exact (image_block_other_status env u resp st Hget Hstatus)).
  exact (sentinel_without_image env files Hfonts).
Qed.

(** Lines 237-264 on the sentinel session. *)
Lemma sentinel_widgets (image : json) (st : page_state) :
  page_widgets (sentinel_session image) st
  = (Ok tt, {| shown := shown st ++ firstn 14 (sentinel_page image);
               files := files st |}).
Proof.
  unfold page_widgets, bindU, lift, show. cbn.
  rewrite <- !app_assoc. reflexivity.
Qed.

End PageMore.

(** X15.  The page is gated on the recipe: with a falsy [recipe_data], as
    before the first click, nothing is shown and no document is rendered.
    With a truthy one, a display that completes has rendered the document
    of the session's three values exactly once and ends with the rule and
    the download button, which carries that document under the name made
    from the recipe's title; no other download button is shown. *)
Theorem display_ends_with_download
    (env : Pdf.render_env) (s : App.session) (st : Page.page_state) :
  let after := Page.display env s st in
  (truthy (App.recipe_data s) = false -> after = (Ok tt, st))
  /\ (truthy (App.recipe_data s) = true ->
      fst after = Ok tt ->
      exists (title : pystr) (document : list Pdf.pdf_op)
             (widgets : list Page.widget),
        getitem (App.recipe_data s) (lit "title") = Ok (JStr title)
        /\ Pdf.create_recipe_pdf env (Page.files st) (App.recipe_data s)
             (App.nutrition_data s) (App.image_url s)
           = (Ok document, Page.files (snd after))
        /\ Page.shown (snd after)
           = Page.shown st ++ widgets
               ++ [Page.rule;
                   Page.DownloadButton (lit "Download Recipe as PDF") document
                     (download_file_name title) (lit "application/pdf")]
        /\ existsb is_download widgets = false).
Proof.
  cbv zeta. unfold Page.display. split; intros Hgate; rewrite Hgate.
  - reflexivity.
  - destruct (PageFacts.page_widgets_only_shows s st) as (F1 & widgets & S1 & D1).
    destruct (Page.page_widgets s st) as [[[]|e] st1] eqn:E; cbn [fst snd] in *.
    2:{ rewrite (PageFacts.bindU_raise _ _ _ _ _ E). discriminate. }
    rewrite (PageFacts.bindU_ok _ _ _ _ _ E). unfold Page.download_part.
    destruct (Pdf.create_recipe_pdf env (Page.files st) (App.recipe_data s)
                (App.nutrition_data s) (App.image_url s))
      as [[document|e] files'] eqn:P.
    2:{ rewrite (PageFacts.bindU_raise _ _ _
                   {| Page.shown := Page.shown st1; Page.files := files' |} e)
          by (unfold Page.render_pdf; rewrite F1, P; reflexivity).
        discriminate. }
    rewrite (PageFacts.bindU_ok _ _ _
               {| Page.shown := Page.shown st1; Page.files := files' |} document)
      by (unfold Page.render_pdf; rewrite F1, P; reflexivity).
    unfold Page.bindU, Page.lift, Page.show, bind.
    destruct (getitem (App.recipe_data s) (lit "title")) as [x|e];
      cbn [fst snd]; [|discriminate].
    destruct x as [| | | |title| |]; cbn [Pdf.as_subject fst snd]; try discriminate.
    intros _. exists title, document, widgets.
    cbn [Page.shown Page.files].
    split; [reflexivity|]. split; [reflexivity|]. split; [|exact D1].
    rewrite S1, <- !app_assoc. reflexivity.
Qed.

(** X15 for the sentinel session and an image host that answers 404. *)
Lemma display_ends_with_download_witness :
  exists (title : pystr) (document : list Pdf.pdf_op)
         (widgets : list Page.widget),
    getitem sentinel_recipe (lit "title") = Ok (JStr title)
    /\ Pdf.create_recipe_pdf
         (env_answering (Ok {| status_code := 404; payload := Ok [] |}) true) []
         sentinel_recipe sentinel_nutrition (JStr fallback_image)
       = (Ok document,
          Page.files
            (snd (Page.display
                    (env_answering (Ok {| status_code := 404; payload := Ok [] |}) true)
                    (sentinel_session (JStr fallback_image))
                    {| Page.shown := []; Page.files := [] |})))
    /\ Page.shown
         (snd (Page.display
                 (env_answering (Ok {| status_code := 404; payload := Ok [] |}) true)
                 (sentinel_session (JStr fallback_image))
                 {| Page.shown := []; Page.files := [] |}))
       = [] ++ widgets
            ++ [Page.rule;
                Page.DownloadButton (lit "Download Recipe as PDF") document
                  (download_file_name title) (lit "application/pdf")]
    /\ existsb is_download widgets = false.
Proof.
  apply (proj2 (display_ends_with_download
                  (env_answering (Ok {| status_code := 404; payload := Ok [] |}) true)
                  (sentinel_session (JStr fallback_image))
                  {| Page.shown := []; Page.files := [] |})).
  - reflexivity.
  - vm_compute. reflexivity.
Defined.

(** X16.  Every field the page reads has to be there.  When the recipe is
    truthy and one of the five nutrition fields cannot be looked up, as
    with the [None] of a session whose nutrition step never ran, or one of
    [title], [description], [ingredients] and [instructions] is missing
    from the recipe, the display raises: no document is rendered, no
    temporary file is touched and no download button is shown. *)
Theorem display_needs_every_field
    (env : Pdf.render_env) (s : App.session) (st : Page.page_state)
    (key : pystr) (e : exn) :
  truthy (App.recipe_data s) = true ->
  (In key nutrition_fields /\ getitem (App.nutrition_data s) key = Raise e)
  \/ (In key [lit "title"; lit "description"; lit "ingredients";
              lit "instructions"]
      /\ getitem (App.recipe_data s) key = Raise e) ->
  let after := Page.display env s st in
  (exists e' : exn, fst after = Raise e')
  /\ Page.files (snd after) = Page.files st
  /\ exists widgets : list Page.widget,
       Page.shown (snd after) = Page.shown st ++ widgets
       /\ existsb is_download widgets = false.
Proof.
  intros Hgate Hkey. cbv zeta. unfold Page.display. rewrite Hgate.
  pose proof (PageFacts.page_widgets_lookups s st) as Hlook.
  destruct (PageFacts.page_widgets_only_shows s st) as (F1 & widgets & S1 & D1).
  unfold Page.bindU.
  destruct (Page.page_widgets s st) as [[[]|e'] st1]; cbn [fst snd] in *.
  - exfalso. destruct (Hlook eq_refl) as [Hn Hr].
    destruct Hkey as [[Hin He] | [Hin He]].
    + destruct (Hn key Hin) as [v Hv]. congruence.
    + destruct (Hr key Hin) as [v Hv]. congruence.
  - split; [now exists e'|]. split; [exact F1|]. now exists widgets.
Qed.

(** X16 for a recipe that has a title only and a nutrition slot that is
    still [None]. *)
Lemma display_needs_every_field_witness :
  let after :=
    Page.display (env_answering (Raise RequestException) true)
      {| App.recipe_data := JObj [(lit "title", JStr (lit "Soup"))];
         App.nutrition_data := JNull;
         App.image_url := JNull |}
      {| Page.shown := []; Page.files := [] |} in
  (exists e' : exn, fst after = Raise e')
  /\ Page.files (snd after) = []
  /\ exists widgets : list Page.widget,
       Page.shown (snd after) = [] ++ widgets
       /\ existsb is_download widgets = false.
Proof.
  exact (display_needs_every_field
           (env_answering (Raise RequestException) true)
           {| App.recipe_data := JObj [(lit "title", JStr (lit "Soup"))];
              App.nutrition_data := JNull;
              App.image_url := JNull |}
           {| Page.shown := []; Page.files := [] |}
           (lit "calories") TypeError eq_refl
           (or_introl (conj (or_introl eq_refl) eq_refl))).
Defined.

(** X17.  From the click to the page when both generations fail: if the
    image tool came back with a URL and the image host does not answer that
    URL with status 200, the display completes.  It shows the sentinel
    title and description, zeros for the four figures, empty ingredient and
    instruction lists, and a download button whose document is the sentinel
    document, without an image, under the name
    [Failed_to_generate_recipe.pdf]; no temporary file is left. *)
Theorem failed_generation_page {py : interpreter}
    (w : App.world) (env : Pdf.render_env)
    (ingredients dietary_needs : pystr) (before : App.session)
    (u : pystr) (resp : response) (st : Page.page_state) :
  ingredients <> [] ->
  generation_fails (App.llm w) (recipe_prompt ingredients dietary_needs) ->
  generation_fails (App.llm w) (nutrition_prompt (dumps_display sentinel_recipe)) ->
  fst (generate_recipe_image (App.PEXELS_API_KEY w) (App.requests_get w) [])
  = JStr u ->
  Pdf.fonts_present env = true ->
  Pdf.requests_get env (Pdf.image_request u) = Ok resp ->
  status_code resp <> 200%Z ->
  Page.display env (App.run_pipeline w ingredients dietary_needs before) st
  = (Ok tt, {| Page.shown := Page.shown st ++ sentinel_page (JStr u);
               Page.files := Page.files st |}).
Proof.
  intros Hne H1 H2 Himage Hfonts Hget Hstatus.
  rewrite (AppMore.run_pipeline_all_fail w ingredients dietary_needs before Hne H1 H2).
  rewrite Himage. unfold Page.display.
  replace (truthy (App.recipe_data (sentinel_session (JStr u)))) with true
    by reflexivity.
  rewrite (PageFacts.bindU_ok _ _ _ _ _ (PageMore.sentinel_widgets (JStr u) st)).
  unfold Page.download_part.
  unfold Page.bindU at 1. unfold Page.render_pdf.
  cbn [Page.files Page.shown App.recipe_data App.nutrition_data App.image_url
       sentinel_session].
  rewrite (PageMore.sentinel_pdf env (Page.files st) u resp Hfonts Hget Hstatus).
  unfold Page.bindU, Page.show, Page.lift. cbn.
  rewrite <- !app_assoc. reflexivity.
Qed.

(** X17 for a service that is down, no search credential and an image host
    that answers 404. *)
Lemma failed_generation_page_witness :
  Page.display (env_answering (Ok {| status_code := 404; payload := Ok [] |}) true)
    (App.run_pipeline (world_with (fun _ => Raise ServiceError))
       (lit "leeks") (lit "Vegan") App.initial_session)
    {| Page.shown := []; Page.files := [] |}
  = (Ok tt, {| Page.shown := [] ++ sentinel_page (JStr fallback_image);
               Page.files := [] |}).
Proof.
  exact (failed_generation_page
           (world_with (fun _ => Raise ServiceError))
           (env_answering (Ok {| status_code := 404; payload := Ok [] |}) true)
           (lit "leeks") (lit "Vegan") App.initial_session
           fallback_image {| status_code := 404; payload := Ok [] |}
           {| Page.shown := []; Page.files := [] |}
           ltac:(discriminate)
           (or_introl (ex_intro _ ServiceError eq_refl))
           (or_introl (ex_intro _ ServiceError eq_refl))
           eq_refl eq_refl eq_refl ltac:(discriminate)).
Defined.

(** ** The interpreter's limits *)

Module LimitFacts.

Lemma digit_code (c : pychar) :
  is_digit c = true -> (48 <= c <= 57)%N.
Proof.
  unfold is_digit, in_range. intros H.
  apply andb_prop in H as [H1 H2].
  apply N.leb_le in H1. apply N.leb_le in H2. lia.
Qed.

Lemma take_while_all (p : pychar -> bool) (s : pystr) :
  forallb p s = true -> take_while p s = s /\ drop_while p s = [].
Proof.
  induction s as [|c r IH]; [now split|].
  cbn [forallb take_while drop_while]. intros H.
  apply andb_prop in H as [Hc Hr]. rewrite Hc.
  destruct (IH Hr) as [-> ->]. now split.
Qed.

(** The scanner on a run of digits that does not start with a zero. *)
Lemma scan_once_digits (fuel frames : nat) (d : pychar) (ds : pystr) :
  is_digit d = true -> d <> 48%N -> forallb is_digit ds = true ->
  scan_once (S fuel) frames (d :: ds)
  = if Nat.leb (List.length (d :: ds)) int_max_str_digits
    then Ok (JInt (Z.of_N (digits_value (d :: ds))), [])
    else Raise DecodeError.
Proof.
  intros Hd H0 Hds. pose proof (digit_code d Hd) as Hc.
  destruct (take_while_all is_digit ds Hds) as [Ht Hr].
  assert (E : forall k : N, (k < 48 \/ 57 < k)%N -> N.eqb d k = false /\ N.eqb k d = false).
  { intros k Hk. split; apply N.eqb_neq; lia. }
  cbn [scan_once]. unfold enter.
  rewrite (proj1 (E 123%N ltac:(lia))), (proj1 (E 91%N ltac:(lia))). cbn [orb].
  unfold scan_once_step, QUOTE.
  rewrite (proj1 (E 34%N ltac:(lia))), (proj1 (E 123%N ltac:(lia))),
    (proj1 (E 91%N ltac:(lia))).
  unfold scan_constant, strip_prefix.
  replace (starts_with (lit "null") (d :: ds)) with false
    by (change (lit "null") with (110%N :: lit "ull"); cbn [starts_with];
        now rewrite (proj2 (E 110%N ltac:(lia)))).
  replace (starts_with (lit "true") (d :: ds)) with false
    by (change (lit "true") with (116%N :: lit "rue"); cbn [starts_with];
        now rewrite (proj2 (E 116%N ltac:(lia)))).
  replace (starts_with (lit "false") (d :: ds)) with false
    by (change (lit "false") with (102%N :: lit "alse"); cbn [starts_with];
        now rewrite (proj2 (E 102%N ltac:(lia)))).
  unfold match_number, scan_sign.
  rewrite (proj1 (E 45%N ltac:(lia))).
  unfold scan_int_digits.
  replace (N.eqb d 48) with false by (symmetry; now apply N.eqb_neq).
  rewrite Hd, Ht, Hr. cbn [scan_frac scan_exp].
  destruct (Nat.ltb_spec int_max_str_digits (List.length (d :: ds))) as [L|L].
  - replace (Nat.leb (List.length (d :: ds)) int_max_str_digits) with false
      by (symmetry; apply Nat.leb_gt; exact L).
    reflexivity.
  - replace (Nat.leb (List.length (d :: ds)) int_max_str_digits) with true
      by (symmetry; apply Nat.leb_le; exact L).
    reflexivity.
Qed.

(** The test for a leading BOM can be left to the scanner, which refuses
    one as well. *)
Lemma json_decode_cons (frames : nat) (c : pychar) (r : pystr) :
  json_decode frames (c :: r)
  = match scan_once (2 * List.length (c :: r) + 2) frames (skip_ws (c :: r)) with
    | Ok (v, r') =>
        match skip_ws r' with
        | [] => Ok v
        | _ :: _ => Raise DecodeError
        end
    | Raise e => Raise e
    end.
Proof.
  unfold json_decode. destruct c as [|p]; [reflexivity|].
  repeat (destruct p as [p|p|]; try reflexivity).
Qed.

Lemma repeat_snoc {A : Type} (a : A) (n : nat) :
  repeat a (S n) = repeat a n ++ [a].
Proof.
  induction n as [|n IH]; [reflexivity|].
  cbn [repeat app] in *. now rewrite <- IH.
Qed.

(** The scanner on nested empty arrays, whatever follows them. *)
Lemma scan_once_brackets (n : nat) :
  forall (fuel frames : nat) (rest : pystr),
    2 * n + 1 <= fuel ->
    scan_once fuel frames (repeat 91%N (S n) ++ repeat 93%N (S n) ++ rest)
    = if Nat.leb (S n) frames then Ok (nested n, rest) else Raise DecodeError.
Proof.
  induction n as [|n IH]; intros fuel frames rest Hfuel.
  - destruct fuel as [|fuel]; [lia|].
    destruct frames as [|inside]; reflexivity.
  - destruct fuel as [|[|fuel]]; try lia.
    rewrite (repeat_snoc 93%N (S n)), <- app_assoc.
    change (repeat 91%N (S (S n)) ++ repeat 93%N (S n) ++ [93%N] ++ rest)
      with (91%N :: (repeat 91%N (S n) ++ repeat 93%N (S n) ++ 93%N :: rest)).
    destruct frames as [|inside]; [reflexivity|].
    cbn [scan_once enter N.eqb Pos.eqb orb].
    unfold scan_once_step.
    change (N.eqb 91 QUOTE) with false. cbn [N.eqb Pos.eqb].
    change (repeat 91%N (S n) ++ repeat 93%N (S n) ++ 93%N :: rest)
      with (91%N :: (repeat 91%N n ++ repeat 93%N (S n) ++ 93%N :: rest)).
    cbn [skip_ws drop_while is_json_ws N.eqb Pos.eqb orb].
    change (91%N :: (repeat 91%N n ++ repeat 93%N (S n) ++ 93%N :: rest))
      with (repeat 91%N (S n) ++ repeat 93%N (S n) ++ 93%N :: rest).
    cbn [JSONArray]. unfold JSONArray_step.
    rewrite (IH fuel inside (93%N :: rest)) by lia.
    change (Nat.leb (S (S n)) (S inside)) with (Nat.leb (S n) inside).
    destruct (Nat.leb (S n) inside); reflexivity.
Qed.

End LimitFacts.

(** X18.  The digit limit of the interpreter reaches the tools.  A text
    that is a run of decimal digits and does not start with a zero is
    decoded, to the integer it writes, exactly when it has at most 4300
    digits; so when the service's answer, once the fences are stripped, is
    a longer run, [create_recipe] returns the sentinel text and reports
    the failure. *)
Theorem integer_beyond_the_digit_limit {py : interpreter}
    (d : pychar) (ds : pystr) :
  is_digit d = true -> d <> 48%N -> forallb is_digit ds = true ->
  json_loads (d :: ds)
  = (if Nat.leb (List.length (d :: ds)) int_max_str_digits
     then Some (JInt (Z.of_N (digits_value (d :: ds))))
     else None)
  /\ (forall (llm : llm_service) (ingredients dietary_needs content : pystr),
         llm (recipe_prompt ingredients dietary_needs) = Ok content ->
         strip_fences content = d :: ds ->
         int_max_str_digits < List.length (d :: ds) ->
         create_recipe llm ingredients dietary_needs
         = (dumps_display sentinel_recipe,
            [StError (lit "Error generating recipe: ") DecodeError])).
Proof.
  intros Hd H0 Hds.
  assert (D : json_decode frames_left (d :: ds)
              = if Nat.leb (List.length (d :: ds)) int_max_str_digits
                then Ok (JInt (Z.of_N (digits_value (d :: ds))))
                else Raise DecodeError).
  { pose proof (LimitFacts.digit_code d Hd) as Hc.
    rewrite LimitFacts.json_decode_cons.
    replace (skip_ws (d :: ds)) with (d :: ds).
    2:{ unfold skip_ws. cbn [drop_while]. unfold is_json_ws.
        replace (N.eqb d 32) with false by (symmetry; apply N.eqb_neq; lia).
        replace (N.eqb d 9) with false by (symmetry; apply N.eqb_neq; lia).
        replace (N.eqb d 10) with false by (symmetry; apply N.eqb_neq; lia).
        replace (N.eqb d 13) with false by (symmetry; apply N.eqb_neq; lia).
        reflexivity. }
    replace (2 * List.length (d :: ds) + 2)
      with (S (2 * List.length (d :: ds) + 1)) by lia.
    rewrite (LimitFacts.scan_once_digits _ frames_left d ds Hd H0 Hds).
    destruct (Nat.leb (List.length (d :: ds)) int_max_str_digits); reflexivity. }
  split.
  - unfold json_loads. rewrite D.
    destruct (Nat.leb (List.length (d :: ds)) int_max_str_digits); reflexivity.
  - intros llm ingredients dietary_needs content Hllm Hstrip Hlong.
    unfold create_recipe, invoke_and_check, bind, loads.
    rewrite Hllm, Hstrip, D.
    replace (Nat.leb (List.length (d :: ds)) int_max_str_digits) with false
      by (symmetry; apply Nat.leb_gt; exact Hlong).
    reflexivity.
Qed.

(** X18 for an answer of 4301 digits. *)
Lemma integer_beyond_the_digit_limit_witness :
  json_loads (repeat 49%N 4301) = None
  /\ create_recipe (fun _ => Ok (repeat 49%N 4301)) (lit "eggs") (lit "None")
     = (dumps_display sentinel_recipe,
        [StError (lit "Error generating recipe: ") DecodeError]).
Proof.
  assert (Hds : forallb is_digit (repeat 49%N 4300) = true)
    by (vm_compute; reflexivity).
  assert (H0 : 49%N <> 48%N) by discriminate.
  destruct (integer_beyond_the_digit_limit 49%N (repeat 49%N 4300) eq_refl H0 Hds)
    as [H1 H2].
  split.
  - exact H1.
  - apply (H2 (fun _ => Ok (repeat 49%N 4301)) (lit "eggs") (lit "None")
              (repeat 49%N 4301) eq_refl).
    + vm_compute. reflexivity.
    + apply Nat.ltb_lt. vm_compute. reflexivity.
Defined.

(** X19.  The recursion limit of the interpreter reaches the tools.  The
    text of [n + 1] nested empty arrays is decoded, to those arrays,
    exactly when the decoder has [n + 1] calls left; so when the service's
    answer, once the fences are stripped, nests deeper than the tool has
    calls left, [create_recipe] returns the sentinel text and reports the
    failure. *)
Theorem nesting_beyond_the_frames {py : interpreter} (n : nat) :
  (forall frames : nat,
      json_decode frames (brackets n)
      = if Nat.leb (S n) frames then Ok (nested n) else Raise DecodeError)
  /\ json_loads (brackets n)
     = (if Nat.leb (S n) frames_left then Some (nested n) else None)
  /\ (forall (llm : llm_service) (ingredients dietary_needs content : pystr),
         llm (recipe_prompt ingredients dietary_needs) = Ok content ->
         strip_fences content = brackets n ->
         frames_left < S n ->
         create_recipe llm ingredients dietary_needs
         = (dumps_display sentinel_recipe,
            [StError (lit "Error generating recipe: ") DecodeError])).
Proof.
  assert (D : forall frames : nat,
             json_decode frames (brackets n)
             = if Nat.leb (S n) frames then Ok (nested n) else Raise DecodeError).
  { intros frames. unfold brackets.
    change (repeat 91%N (S n) ++ repeat 93%N (S n))
      with (91%N :: (repeat 91%N n ++ repeat 93%N (S n))).
    rewrite LimitFacts.json_decode_cons.
    cbn [skip_ws drop_while is_json_ws N.eqb Pos.eqb orb].
    change (91%N :: (repeat 91%N n ++ repeat 93%N (S n)))
      with (repeat 91%N (S n) ++ repeat 93%N (S n)).
    rewrite <- (app_nil_r (repeat 93%N (S n))) at 2.
    rewrite LimitFacts.scan_once_brackets.
    - destruct (Nat.leb (S n) frames); reflexivity.
    - rewrite length_app, !repeat_length. lia. }
  split; [exact D|]. split.
  - unfold json_loads. rewrite D.
    destruct (Nat.leb (S n) frames_left); reflexivity.
  - intros llm ingredients dietary_needs content Hllm Hstrip Hdeep.
    unfold create_recipe, invoke_and_check, bind, loads.
    rewrite Hllm, Hstrip, D.
    replace (Nat.leb (S n) frames_left) with false
      by (symmetry; apply Nat.leb_gt; exact Hdeep).
    reflexivity.
Qed.
